(** * Entrepedia AI platform: the serverless API handlers and the
    ingestion/retrieval contracts, embedded in Rocq.

    The handlers of [api/query.js] (query API, documents API, settings API)
    are translated function by function.  A handler is modelled as a pure
    function of the request, of the module state it mutates, and of a
    [world] that supplies what the handler reads from outside (the clock,
    [Math.random], the answers of the generation service).  Thrown
    exceptions are explicit: a computation that may throw returns
    [js_error + A]. *)

From Stdlib Require Import ZArith String Ascii List Floats Uint63 Lia.
From stdpp Require Import base option list gmap strings pretty sorting.
Import ListNotations.

Local Open Scope string_scope.
Set Warnings "-register-all,-inexact-float".
Local Open Scope nat_scope.

(** ** JavaScript values *)

Module JS.

(** A JavaScript value as the handlers see it: what [JSON.parse] returns,
    what is handed to [res.json], plus [undefined].  Numbers are IEEE 754
    doubles.  An object is the list of its own properties in insertion
    order; when a key occurs twice the later binding wins, as in
    [JSON.parse]. *)
Inductive value : Type :=
| Undefined
| Null
| Bool (b : bool)
| Num (x : float)
| Str (s : string)
| Arr (items : list value)
| Obj (fields : list (string * value)).

(** A thrown [Error]; only its [message] is ever read. *)
Record js_error : Type := Error { message : string }.

(** ToBoolean. *)
Definition truthy (v : value) : bool :=
  match v with
  | Undefined | Null => false
  | Bool b => b
  | Num x => negb (PrimFloat.eqb x 0 || PrimFloat.is_nan x)
  | Str s => negb (String.eqb s "")
  | Arr _ | Obj _ => true
  end.

(** [typeof v === 'string'] *)
Definition is_string (v : value) : bool :=
  match v with Str _ => true | _ => false end.

(** Own property [key] of a property list, the later binding winning. *)
Fixpoint own (key : string) (fields : list (string * value)) : option value :=
  match fields with
  | [] => None
  | (k, v) :: rest =>
      match own key rest with
      | Some x => Some x
      | None => if String.eqb k key then Some v else None
      end
  end.

(** [v.key] for the data properties the handlers read ([query],
    [candidates], [content], ...): [None] is the [TypeError] of reading a
    property of [null] or [undefined]; a missing property is
    [undefined]. *)
Definition get (v : value) (key : string) : option value :=
  match v with
  | Undefined | Null => None
  | Obj fields => Some (default Undefined (own key fields))
  | _ => Some Undefined
  end.

(** [v[i]] *)
Definition get_index (v : value) (i : nat) : option value :=
  match v with
  | Undefined | Null => None
  | Arr items => Some (nth i items Undefined)
  | Obj fields => Some (default Undefined (own (pretty i) fields))
  | Str s =>
      Some (match String.get i s with
            | Some c => Str (String c "")
            | None => Undefined
            end)
  | _ => Some Undefined
  end.

(** [x || fallback] *)
Definition or_else (x fallback : value) : value :=
  if truthy x then x else fallback.

(** A destructuring default [{ key = d } = v]: it applies to [undefined]
    only. *)
Definition with_default (d x : value) : value :=
  match x with Undefined => d | _ => x end.

(** What [JSON.stringify] keeps of a value (the client of [res.json] sees
    this): properties whose value is [undefined] are dropped, [undefined]
    array items and non-finite numbers become [null], and negative zero is
    written [0]. *)
Fixpoint jsonify (v : value) : value :=
  match v with
  | Undefined => Null
  | Num x =>
      if PrimFloat.is_nan x || PrimFloat.is_infinity x then Null
      else if PrimFloat.eqb x 0 then Num 0
      else Num x
  | Arr items => Arr (List.map jsonify items)
  | Obj fields =>
      Obj (List.flat_map
             (fun kv => match kv with
                        | (_, Undefined) => []
                        | (k, x) => [(k, jsonify x)]
                        end) fields)
  | _ => v
  end.

(** Does the string [needle] occur in [v], as a string value or as a
    property name, at any depth? *)
Fixpoint mentions (needle : string) (v : value) : bool :=
  match v with
  | Str s => String.eqb s needle
  | Arr items => List.existsb (mentions needle) items
  | Obj fields =>
      List.existsb
        (fun kv => match kv with
                   | (k, x) => String.eqb k needle || mentions needle x
                   end) fields
  | _ => false
  end.

(** [s.endsWith(suffix)] *)
Definition endsWith (s suffix : string) : bool :=
  let n := String.length s in
  let m := String.length suffix in
  (m <=? n)%nat && String.eqb (String.substring (n - m) m s) suffix.

(** [s.includes(sub)] *)
Definition includes (s sub : string) : bool :=
  match String.index 0 sub s with Some _ => true | None => false end.

(** [s.split(sep)[1]]: [undefined] ([None]) when [sep] does not occur. *)
Definition split_second (sep s : string) : option string :=
  match String.index 0 sep s with
  | None => None
  | Some i =>
      let from := (i + String.length sep)%nat in
      let rest := String.substring from (String.length s - from) s in
      Some (match String.index 0 sep rest with
            | Some j => String.substring 0 j rest
            | None => rest
            end)
  end.

(** The error monad of a [try] block. *)
Definition throws (A : Type) : Type := (js_error + A)%type.

Definition bind {A B : Type} (c : throws A) (k : A -> throws B) : throws B :=
  match c with
  | inl e => inl e
  | inr a => k a
  end.

End JS.

Import JS.

Notation "'let*' x := c 'in' k" := (JS.bind c (fun x => k))
  (at level 10, x name, c at level 100, k at level 200, only parsing).

(** ** Requests, responses, the outside world *)

Module Http.

(** [req]: the fields the handlers read.  [req_body] is [req.body]
    ([Undefined] when the platform parsed none); [raw_body] is what the
    request stream yields to [getRawBody]: the concatenated chunks, or the
    error the stream emits. *)
Record request : Type := {
  method : string;
  url : string;
  req_body : value;
  raw_body : throws string
}.

(** [res] once the handler has answered: [res.status(n).json(v)] gives
    [Some (jsonify v)], [res.status(n).end()] gives [None]. *)
Record response : Type := {
  status : Z;
  headers : list (string * string);
  body : option value
}.

Definition cors (methods : string) : list (string * string) :=
  [("Access-Control-Allow-Origin", "*");
   ("Access-Control-Allow-Methods", methods);
   ("Access-Control-Allow-Headers", "Content-Type, Authorization")].

Definition json_response (methods : string) (code : Z) (v : value) : response :=
  {| status := code; headers := cors methods; body := Some (jsonify v) |}.

Definition end_response (methods : string) (code : Z) : response :=
  {| status := code; headers := cors methods; body := None |}.

(** A top-level property of the JSON body of a response. *)
Definition body_field (key : string) (r : response) : option value :=
  match body r with
  | Some (Obj fields) => own key fields
  | _ => None
  end.

(** What the engine supplies: [JSON.parse], [decodeURIComponent] (both may
    throw), number formatting in template literals, [Math.round], the
    [TypeError] raised on reading a property of [null] or [undefined], and
    the [TypeError] raised on converting to a string or a property name an
    object that has no callable [toString] or [valueOf]. *)
Record engine : Type := {
  JSON_parse : string -> throws value;
  decodeURIComponent : string -> throws string;
  Number_toString : float -> string;
  Math_round : float -> float;
  TypeError : value -> string -> js_error;
  ConversionError : js_error
}.

(** How one [fetch] to the generation service ends: the promise rejects,
    or a response arrives with its [ok] flag, its status, and what
    [response.text()] and [response.json()] resolve to. *)
Inductive fetch_outcome : Type :=
| FetchRejects (e : js_error)
| FetchResponse (ok : bool) (code : Z) (text : throws string) (json : throws value).

(** What a handler call reads from outside: the n-th reading of
    [Date.now()], the text of [new Date().toISOString()], [Math.random()],
    and the outcome of the n-th [fetch] it issues. *)
Record world : Type := {
  Date_now : nat -> float;
  Date_toISOString : string;
  Math_random : float;
  gemini : nat -> fetch_outcome
}.

(** One [fetch] issued to the generation service: the agent type that
    selects the system prompt, and the user question. *)
Record fetch_call : Type := {
  call_agent : value;
  call_query : string
}.

End Http.

Import Http.

(** ** String conversion *)

Module Coercion.

(** ToString of a value that came out of [JSON.parse], as a template
    literal, [new Error(v)] or a computed property name [o[v]] applies it.
    An array is its items joined by commas, [null] and [undefined] items
    giving the empty string; an object without a [toString] of its own is
    ["[object Object]"]; an object whose own [toString] property (never a
    function, in parsed JSON) hides the inherited one cannot be converted
    and throws [not_primitive]. *)
Fixpoint to_string (eng : engine) (not_primitive : js_error) (v : value)
    : throws string :=
  match v with
  | Undefined => inr "undefined"
  | Null => inr "null"
  | Bool b => inr (if b then "true" else "false")
  | Num x => inr (Number_toString eng x)
  | Str s => inr s
  | Arr items =>
      (fix join (l : list value) : throws string :=
         match l with
         | [] => inr ""
         | x :: rest =>
             let* a := match x with
                       | Undefined | Null => inr ""
                       | _ => to_string eng not_primitive x
                       end in
             match rest with
             | [] => inr a
             | _ => let* b := join rest in inr (a ++ "," ++ b)
             end
         end) items
  | Obj fields =>
      match own "toString" fields with
      | Some _ => inl not_primitive
      | None => inr "[object Object]"
      end
  end.

End Coercion.

(** ** The query API: [POST /api/query/ask], [GET /api/query/agents] *)

Module QueryApi.

Definition allow_methods : string := "GET, POST, OPTIONS".

(** A property read that throws on [null] and [undefined]. *)
Definition access (eng : engine) (o : option value) (target : value) (key : string)
    : throws value :=
  match o with
  | Some x => inr x
  | None => inl (TypeError eng target key)
  end.

(** The property name [systemPrompts[agentType]] is read under: the agent
    type converted to a string.  The conversion throws for an object that
    has a [toString] property of its own. *)
Definition prompt_key (eng : engine) (agentType : value) : throws string :=
  Coercion.to_string eng (ConversionError eng) agentType.

(** The [try] block of [callGeminiAPI] once its [fetch] has settled: what
    the function returns, or what it throws (every [throw] inside the
    [try] is re-thrown by its [catch]). *)
Definition read_answer (eng : engine) (w : world) (agentType : value)
    (outcome : fetch_outcome) : throws value :=
  match outcome with
  | FetchRejects e => inl e
  | FetchResponse ok code text json =>
      if negb ok then
        let* errorText := text in
        inl (Error ("Gemini API error: " ++ pretty code ++ " - " ++ errorText))
      else
        let* data := json in
        let* candidates := access eng (get data "candidates") data "candidates" in
        if negb (truthy candidates) then inl (Error "Invalid response from Gemini API")
        else
          let* first := access eng (get_index candidates 0) candidates "0" in
          if negb (truthy first) then inl (Error "Invalid response from Gemini API")
          else
            let* content := access eng (get first "content") first "content" in
            if negb (truthy content) then inl (Error "Invalid response from Gemini API")
            else
              let* parts := access eng (get content "parts") content "parts" in
              let* part := access eng (get_index parts 0) parts "0" in
              let* text := access eng (get part "text") part "text" in
              let* usage := access eng (get data "usageMetadata") data "usageMetadata" in
              inr (Obj [("content", text);
                        ("agent", agentType);
                        ("metadata",
                          Obj [("model", Str "gemini-pro");
                               ("timestamp", Str (Date_toISOString w));
                               ("usage", or_else usage (Obj []))])])
  end.

(** [callGeminiAPI(query, agentType = 'coach')].  The API key is a non-empty
    literal, so the [!apiKey] guard never fires.  The system prompt is
    looked up under [agentType] before the [try]: when the agent type
    cannot be converted to a property name the function throws there and
    issues no [fetch].  Otherwise it issues one [fetch]; [calls] is the
    list of fetches issued so far, the new one is appended. *)
Definition callGeminiAPI (eng : engine) (w : world) (calls : list fetch_call)
    (query : string) (agent : value) : throws value * list fetch_call :=
  let agentType := with_default (Str "coach") agent in
  match prompt_key eng agentType with
  | inl e => (inl e, calls)
  | inr _ =>
      (read_answer eng w agentType (gemini w (length calls)),
       (calls ++ [{| call_agent := agentType; call_query := query |}])%list)
  end.

(** The request body the ask branch works on: [req.body] when truthy,
    otherwise the parsed raw body. *)
Definition read_body (eng : engine) (r : request) : throws value :=
  if truthy (req_body r) then inr (req_body r)
  else let* rawBody := raw_body r in JSON_parse eng rawBody.

(** [const { query, agent_type = 'coach', include_knowledge_base = false } = body]:
    destructuring [null] or [undefined] throws. *)
Definition destructure (eng : engine) (b : value) : throws (value * value * value) :=
  match get b "query", get b "agent_type", get b "include_knowledge_base" with
  | Some query, Some agent_type, Some include_knowledge_base =>
      inr (query,
           with_default (Str "coach") agent_type,
           with_default (Bool false) include_knowledge_base)
  | _, _, _ => inl (TypeError eng b "query")
  end.

Definition query_text (v : value) : string :=
  match v with Str s => s | _ => "" end.

(** The variables [query], [agent_type] and [include_knowledge_base] of
    the ask branch once the body is read and destructured, or the error
    thrown on the way. *)
Definition ask_fields (eng : engine) (r : request) : throws (value * value * value) :=
  let* b := read_body eng r in destructure eng b.

(** The [try] block of the ask branch. *)
Definition ask_try (eng : engine) (w : world) (r : request)
    : throws response * list fetch_call :=
  match ask_fields eng r with
  | inl e => (inl e, [])
  | inr (query, agent_type, include_knowledge_base) =>
      if negb (truthy query) || negb (is_string query) then
        (inr (json_response allow_methods 400
                (Obj [("success", Bool false);
                      ("error", Str "Query is required and must be a string")])),
         [])
      else
        match callGeminiAPI eng w [] (query_text query) agent_type with
        | (inl e, calls) => (inl e, calls)
        | (inr aiResponse, calls) =>
            (inr (json_response allow_methods 200
                    (Obj [("success", Bool true);
                          ("response", aiResponse);
                          ("knowledge_base_results",
                            if truthy include_knowledge_base then Num 0 else Undefined);
                          ("agent_used", agent_type)])),
             calls)
        end
  end.

(** The [query] variable of the ask branch once the body is read and
    destructured, or the error thrown on the way. *)
Definition ask_query (eng : engine) (r : request) : throws value :=
  let* fields := ask_fields eng r in
  inr fields.1.1.

(** The [agent_type] variable of the ask branch, likewise. *)
Definition ask_agent_type (eng : engine) (r : request) : throws value :=
  let* fields := ask_fields eng r in
  inr fields.1.2.

(** The [include_knowledge_base] variable of the ask branch, likewise. *)
Definition ask_include_knowledge_base (eng : engine) (r : request) : throws value :=
  let* fields := ask_fields eng r in
  inr fields.2.

Definition canned_content : string :=
  "I apologize, but I'm experiencing technical difficulties. Please check that your Gemini API key is properly configured and try again.".

(** The [catch] block of the ask branch. *)
Definition ask_catch (w : world) (e : js_error) : response :=
  json_response allow_methods 500
    (Obj [("success", Bool false);
          ("error", Str (message e));
          ("response",
            Obj [("content", Str canned_content);
                 ("agent", Str "system");
                 ("metadata",
                   Obj [("error", Bool true);
                        ("timestamp", Str (Date_toISOString w))])])]).

Definition is_ask (r : request) : bool :=
  String.eqb (method r) "POST"
  && (String.eqb (url r) "/api/query/ask" || endsWith (url r) "/ask").

Definition is_agents (r : request) : bool :=
  String.eqb (method r) "GET"
  && (String.eqb (url r) "/api/query/agents" || endsWith (url r) "/agents").

Definition agents_list : value :=
  Obj [("success", Bool true);
       ("agents",
         Arr [Obj [("id", Str "coach");
                   ("name", Str "Learning Coach");
                   ("description", Str "Provides personalized learning guidance, motivation, and study tips");
                   ("icon", Str "sparkles")];
              Obj [("id", Str "strategist");
                   ("name", Str "Learning Strategist");
                   ("description", Str "Creates comprehensive learning plans and strategic approaches");
                   ("icon", Str "brain")]])].

Definition not_found : value :=
  Obj [("success", Bool false);
       ("error", Str "Query API endpoint not found");
       ("available_endpoints",
         Arr [Str "POST /ask - Chat with AI agents";
              Str "GET /agents - List available AI agents"])].

(** [module.exports = async (req, res) => ...]: the response written to
    [res], and the fetches issued to the generation service. *)
Definition handler (eng : engine) (w : world) (r : request)
    : response * list fetch_call :=
  if String.eqb (method r) "OPTIONS" then (end_response allow_methods 200, [])
  else if is_ask r then
    match ask_try eng w r with
    | (inr res, calls) => (res, calls)
    | (inl e, calls) => (ask_catch w e, calls)
    end
  else if is_agents r then (json_response allow_methods 200 agents_list, [])
  else (json_response allow_methods 404 not_found, []).

End QueryApi.

(** ** The documents API: listing, statistics, upload, delete *)

Module DocumentsApi.

Definition allow_methods : string := "GET, POST, DELETE, OPTIONS".

(** An entry of [mockDocuments.upload_files] or [.scraped_files]. *)
Record document : Type := {
  filename : string;
  size : float;
  modified : float;
  source : string;
  course : option string
}.

(** [mockDocuments].  Counters ([total_files], the file-type counts) are
    integers far below 2^53, where JavaScript number arithmetic is exact:
    they are modelled in [Z].  Sizes are doubles. *)
Record documents : Type := {
  upload_files : list document;
  scraped_files : list document;
  total_files : Z
}.

(** [mockStats]; [file_types] is an object used as a map from file type to
    count. *)
Record stats : Type := {
  success : bool;
  stats_total_files : Z;
  total_size_bytes : float;
  total_size_mb : float;
  file_types : gmap string Z
}.

(** The module-level state the handler mutates. *)
Record state : Type := {
  mockDocuments : documents;
  mockStats : stats
}.

(** The state when the module is loaded, [loaded] being [Date.now() / 1000]
    at that moment. *)
Definition initial (loaded : float) : state :=
  {| mockDocuments :=
       {| upload_files :=
            [{| filename := "sample-document.pdf"; size := 1024000;
                modified := loaded; source := "upload"; course := None |}];
          scraped_files :=
            [{| filename := "course-material.pdf"; size := 2048000;
                modified := loaded; source := "scraper";
                course := Some "AI Fundamentals" |}];
          total_files := 2 |};
     mockStats :=
       {| success := true;
          stats_total_files := 2;
          total_size_bytes := 3072000;
          total_size_mb := 3.07;
          file_types := {["pdf" := 2%Z]} |} |}.

(** An integer counter as the JavaScript number it is. *)
Definition Z_to_float (z : Z) : float :=
  if (z <? 0)%Z then PrimFloat.opp (PrimFloat.of_uint63 (Uint63.of_Z (- z)))
  else PrimFloat.of_uint63 (Uint63.of_Z z).

Definition document_json (d : document) : value :=
  Obj ([("filename", Str (filename d));
        ("size", Num (size d));
        ("modified", Num (modified d));
        ("source", Str (source d))]
       ++ match course d with
          | Some c => [("course", Str c)]
          | None => []
          end)%list.

(** [{ success: true, ...mockDocuments }] *)
Definition documents_json (d : documents) : value :=
  Obj [("success", Bool true);
       ("upload_files", Arr (List.map document_json (upload_files d)));
       ("scraped_files", Arr (List.map document_json (scraped_files d)));
       ("total_files", Num (Z_to_float (total_files d)))].

(** [mockStats] as handed to [res.json]; the order of the [file_types]
    properties is the map's, not the insertion order. *)
Definition stats_json (s : stats) : value :=
  Obj [("success", Bool (success s));
       ("total_files", Num (Z_to_float (stats_total_files s)));
       ("total_size_bytes", Num (total_size_bytes s));
       ("total_size_mb", Num (total_size_mb s));
       ("file_types",
         Obj (List.map (fun kv => (fst kv, Num (Z_to_float (snd kv))))
                (map_to_list (file_types s))))].

Definition sampleText : string :=
  "This is a sample document that has been successfully uploaded and processed. In a real implementation, this would contain the actual extracted text content from your document.".

(** The document the upload branch makes up: the handler never reads the
    uploaded file.  [Date.now()] is read twice. *)
Definition newDocument (eng : engine) (w : world) : document :=
  {| filename := "uploaded-document-" ++ Number_toString eng (Date_now w 0) ++ ".pdf";
     size := (1024000 + Math_random w * 2000000)%float;
     modified := (Date_now w 1 / 1000)%float;
     source := "upload";
     course := None |}.

(** [mockStats.file_types[fileType] = (mockStats.file_types[fileType] || 0) + 1] *)
Definition count_file_type (fileType : string) (m : gmap string Z) : gmap string Z :=
  <[fileType := (default 0 (m !! fileType) + 1)%Z]> m.

(** The state after the upload branch ran: the new document is put in
    front of [upload_files], the totals are recomputed. *)
Definition upload_state (eng : engine) (w : world) (st : state) : state :=
  let doc := newDocument eng w in
  let docs := mockDocuments st in
  let uploads := doc :: upload_files docs in
  let total := (Z.of_nat (length uploads) + Z.of_nat (length (scraped_files docs)))%Z in
  let bytes := (total_size_bytes (mockStats st) + size doc)%float in
  {| mockDocuments :=
       {| upload_files := uploads;
          scraped_files := scraped_files docs;
          total_files := total |};
     mockStats :=
       {| success := success (mockStats st);
          stats_total_files := total;
          total_size_bytes := bytes;
          total_size_mb := (Math_round eng (bytes / (1024 * 1024) * 100) / 100)%float;
          file_types := count_file_type "pdf" (file_types (mockStats st)) |} |}.

(** The body of the upload response. *)
Definition upload_json (eng : engine) (w : world) : value :=
  let doc := newDocument eng w in
  Obj [("success", Bool true);
       ("message", Str "File uploaded and processed successfully");
       ("filename", Str (filename doc));
       ("file_type", Str "pdf");
       ("size", Num (size doc));
       ("processed", Bool true);
       ("processing_result",
         Obj [("text", Str sampleText);
              ("chunks_created", Num 5);
              ("embeddings_generated", Bool true)]);
       ("metadata",
         Obj [("upload_time", Str (Date_toISOString w));
              ("processing_time", Str "2.3s")])].

(** The [try] block of the delete branch: the file name is cut out of the
    URL and decoded for the message; the state is not touched. *)
Definition delete_try (eng : engine) (r : request) : throws response :=
  let filename := default "undefined" (split_second "/delete/" (url r)) in
  let* decoded := decodeURIComponent eng filename in
  inr (json_response allow_methods 200
         (Obj [("success", Bool true);
               ("message", Str ("Document " ++ decoded ++ " deleted successfully"))])).

Definition delete_catch (e : js_error) : response :=
  json_response allow_methods 500
    (Obj [("success", Bool false);
          ("detail", Str ("Delete failed: " ++ message e))]).

Definition not_found : value :=
  Obj [("success", Bool false);
       ("detail", Str "Documents API endpoint not found");
       ("available_endpoints",
         Arr [Str "GET /processed - List all processed documents";
              Str "GET /stats - Get document statistics";
              Str "POST /upload - Upload a new document";
              Str "DELETE /delete/{filename} - Delete a document"])].

Definition is_processed (r : request) : bool :=
  String.eqb (method r) "GET"
  && (String.eqb (url r) "/api/documents/processed" || endsWith (url r) "/processed").

Definition is_stats (r : request) : bool :=
  String.eqb (method r) "GET"
  && (String.eqb (url r) "/api/documents/stats" || endsWith (url r) "/stats").

Definition is_upload (r : request) : bool :=
  String.eqb (method r) "POST"
  && (String.eqb (url r) "/api/documents/upload" || endsWith (url r) "/upload").

Definition is_delete (r : request) : bool :=
  String.eqb (method r) "DELETE" && includes (url r) "/delete/".

(** [module.exports = async (req, res) => ...] of the documents API (the
    variant whose upload branch maintains [mockDocuments] and [mockStats]):
    the response and the module state afterwards.  Nothing in the upload
    [try] block can throw, so its [catch] is dead. *)
Definition handler (eng : engine) (w : world) (st : state) (r : request)
    : response * state :=
  if String.eqb (method r) "OPTIONS" then (end_response allow_methods 200, st)
  else if is_processed r then
    (json_response allow_methods 200 (documents_json (mockDocuments st)), st)
  else if is_stats r then
    (json_response allow_methods 200 (stats_json (mockStats st)), st)
  else if is_upload r then
    (json_response allow_methods 200 (upload_json eng w), upload_state eng w st)
  else if is_delete r then
    match delete_try eng r with
    | inr res => (res, st)
    | inl e => (delete_catch e, st)
    end
  else (json_response allow_methods 404 not_found, st).

(** The state after a sequence of requests, each with its own world. *)
Fixpoint run (eng : engine) (st : state) (rs : list (world * request)) : state :=
  match rs with
  | [] => st
  | (w, r) :: rest => run eng (snd (handler eng w st r)) rest
  end.

End DocumentsApi.

(** ** The settings API: the document-processing configuration *)

Module SettingsApi.

(** [mockSettings.documents], the numeric fields: the chunking
    configuration the settings screen shows and edits. *)
Record documents_config : Type := {
  chunk_size : nat;
  overlap_size : nat
}.

Definition mockSettings_documents : documents_config :=
  {| chunk_size := 500; overlap_size := 50 |}.

End SettingsApi.

(** ** The ingestion and retrieval pipeline

    The pipeline itself (chunker, vector store) is not among the serverless
    handlers above; the architecture notes only name it ([_chunk_texts],
    [VectorStore]).  Its operations are modelled from the specification. *)

Module Pipeline.

(** Modelled from the spec: the error taxonomy of the pipeline (section 7);
    no source file defines these errors. *)
Inductive error : Type :=
| UnsupportedFormat
| ExtractionFailed
| InvalidConfiguration
| EmbeddingBackendUnavailable
| VectorStoreUnavailable
| AlreadyInProgress
| InvalidArgument.

End Pipeline.

Import Pipeline.

Module Chunker.

(** Modelled from the spec: a token of a text span; the chunker source is
    missing.  [ends_sentence] marks a sentence boundary after the token. *)
Record token : Type := {
  token_text : string;
  ends_sentence : bool
}.

(** Modelled from the spec: a chunk, the missing chunker's output: its
    tokens and its offset in the document, counted in tokens (the offset
    range is [chunk_start, chunk_start + length chunk_tokens)). *)
Record chunk_record : Type := {
  chunk_tokens : list token;
  chunk_start : nat
}.

(** Modelled from the spec: a span handed over by the segmenter is a
    paragraph, so its last token ends a sentence (the chunker source is
    missing). *)
Fixpoint close_span (ts : list token) : list token :=
  match ts with
  | [] => []
  | [t] => [{| token_text := token_text t; ends_sentence := true |}]
  | t :: rest => t :: close_span rest
  end.

(** Modelled from the spec: the ordered spans as one token sequence (the
    chunker source is missing). *)
Definition document_tokens (spans : list (list token)) : list token :=
  concat (close_span <$> spans).

(** Modelled from the spec: "splits on sentence/paragraph boundaries where
    possible" (chunker source missing): the length of the longest prefix
    of [l] that ends on a boundary. *)
Fixpoint last_boundary (l : list token) : option nat :=
  match l with
  | [] => None
  | t :: rest =>
      match last_boundary rest with
      | Some j => Some (S j)
      | None => if ends_sentence t then Some 1 else None
      end
  end.

(** Modelled from the spec: where a full window is cut (chunker source
    missing): on the last boundary that leaves more than the overlap,
    "falling back to hard token cuts" at the window's end. *)
Definition cut (overlap : nat) (window : list token) : nat :=
  match last_boundary window with
  | Some j => if decide (overlap < j) then j else length window
  | None => length window
  end.

(** Modelled from the spec: the chunker's loop (source missing).  What is
    left fits in one chunk, or a chunk is cut off a window of [target]
    tokens and the next chunk starts [overlap] tokens before the cut. *)
Fixpoint chunk_from (fuel target overlap start : nat) (rest : list token)
    : list chunk_record :=
  match fuel with
  | 0 => []
  | S fuel' =>
      if decide (length rest ≤ target) then
        [{| chunk_tokens := rest; chunk_start := start |}]
      else
        let j := cut overlap (take target rest) in
        {| chunk_tokens := take j rest; chunk_start := start |}
          :: chunk_from fuel' target overlap
               (start + (j - overlap)) (drop (j - overlap) rest)
  end.

(** Modelled from the spec: [chunk(spans, target_tokens, overlap_tokens)]
    (section 4.2; the chunker source is missing).  [overlap_tokens <
    target_tokens] is checked first; an empty document gives no chunk. *)
Definition chunk (spans : list (list token)) (target_tokens overlap_tokens : nat)
    : error + list chunk_record :=
  if decide (overlap_tokens < target_tokens) then
    inr (match document_tokens spans with
         | [] => []
         | ts => chunk_from (length ts) target_tokens overlap_tokens 0 ts
         end)
  else inl InvalidConfiguration.

(** Two consecutive chunks share [overlap] tokens: the last [overlap]
    tokens of the first are the first [overlap] tokens of the second, at
    the same place of the document. *)
Definition shares (overlap : nat) (c1 c2 : chunk_record) : Prop :=
  overlap ≤ length (chunk_tokens c1)
  ∧ overlap ≤ length (chunk_tokens c2)
  ∧ chunk_start c2 + overlap = chunk_start c1 + length (chunk_tokens c1)
  ∧ take overlap (chunk_tokens c2)
    = drop (length (chunk_tokens c1) - overlap) (chunk_tokens c1).

End Chunker.

Module VectorStore.

Section store.

Context {Vec Meta Score : Type} `{EqDecision Score}.
Context (similarity : Vec → Vec → Score).
Context (score_le : relation Score) `{!RelDecision score_le}.

(** Modelled from the spec: what the vector store keeps under a chunk id
    (section 4.4 and 6; the store's source is missing): the owning
    document, the vector, the metadata. *)
Record entry : Type := {
  entry_document : nat;
  entry_vector : Vec;
  entry_metadata : Meta
}.

(** Modelled from the spec: [upsert(document_id, chunk_id, vector,
    metadata)], insert-or-replace keyed by chunk id (source missing). *)
Definition upsert (document_id chunk_id : nat) (v : Vec) (m : Meta)
    (s : gmap nat entry) : gmap nat entry :=
  <[chunk_id := {| entry_document := document_id; entry_vector := v;
                   entry_metadata := m |}]> s.

(** Modelled from the spec: upserting the full chunk set of a document,
    one [upsert] per chunk, in order (source missing). *)
Definition upsert_document (document_id : nat) (chunks : list (nat * Vec * Meta))
    (s : gmap nat entry) : gmap nat entry :=
  foldl (λ acc c, upsert document_id c.1.1 c.1.2 c.2 acc) s chunks.

(** Modelled from the spec: [delete_by_document(document_id)] (source
    missing). *)
Definition delete_by_document (document_id : nat) (s : gmap nat entry)
    : gmap nat entry :=
  filter (λ kv, entry_document kv.2 ≠ document_id) s.

(** Modelled from the spec: the part of the store a query can reach for
    one document (source missing). *)
Definition document_content (document_id : nat) (s : gmap nat entry)
    : gmap nat entry :=
  filter (λ kv, entry_document kv.2 = document_id) s.

(** Modelled from the spec: the candidates of a query, every stored chunk
    that passes the optional filter, with its similarity to the query
    vector (source missing). *)
Definition hits (q : Vec) (flt : option (nat → entry → bool)) (s : gmap nat entry)
    : list (nat * Score) :=
  (λ kv, (kv.1, similarity q (entry_vector kv.2)))
    <$> List.filter (λ kv, match flt with
                            | Some f => f kv.1 kv.2
                            | None => true
                            end) (map_to_list s).

(** Modelled from the spec: the order of the hits, "descending similarity;
    ties broken by lower chunk id" (source missing). *)
Definition hit_le (h1 h2 : nat * Score) : Prop :=
  if decide (h1.2 = h2.2) then h1.1 ≤ h2.1 else score_le h2.2 h1.2.

#[local] Instance hit_le_dec : RelDecision hit_le.
Proof. intros h1 h2. unfold hit_le. destruct (decide (h1.2 = h2.2)); apply _. Defined.

(** Modelled from the spec: [query(vector, k, filter?)] (section 4.4; the
    store's source is missing): [k <= 0] fails with [InvalidArgument],
    otherwise the first [k] hits in order. *)
Definition query (q : Vec) (k : Z) (flt : option (nat → entry → bool))
    (s : gmap nat entry) : error + list (nat * Score) :=
  if decide (k ≤ 0)%Z then inl InvalidArgument
  else inr (take (Z.to_nat k) (merge_sort hit_le (hits q flt s))).

End store.

End VectorStore.

(** ** Concrete engines, worlds and requests used in the examples *)

Module Examples.

(** [Math.round] on the numbers the examples meet (from zero up to 2^51,
    not next to a half): the integer at or below [x + 0.5], found by
    adding and subtracting 2^52. *)
Definition round0 (x : float) : float :=
  let t := (x + 0.5)%float in
  let y := (t + 4503599627370496 - 4503599627370496)%float in
  if PrimFloat.ltb t y then (y - 1)%float else y.

(** An engine that agrees with Node on the inputs the examples use:
    [JSON.parse("null")] is [null], [JSON.parse("")] throws, and
    [decodeURIComponent] leaves a string without [%] unchanged. *)
Definition engine0 : engine :=
  {| JSON_parse s :=
       if String.eqb s "null" then inr Null
       else inl (Error "Unexpected end of JSON input");
     decodeURIComponent s :=
       if includes s "%" then inl (Error "URI malformed") else inr s;
     Number_toString x := if PrimFloat.eqb x 1700000000000%float then "1700000000000" else "0";
     Math_round := round0;
     TypeError target key :=
       Error ("Cannot destructure property '" ++ key ++ "' of 'body' as it is null.");
     ConversionError := Error "Cannot convert object to primitive value" |}.

(** A well-formed answer of the generation service. *)
Definition gemini_answer : fetch_outcome :=
  FetchResponse true 200 (inr "")
    (inr (Obj [("candidates",
                 Arr [Obj [("content",
                             Obj [("parts", Arr [Obj [("text", Str "Hello!")]])])]])])).

(** The generation service cannot be reached. *)
Definition gemini_down : fetch_outcome :=
  FetchRejects (Error "fetch failed").

Definition world_of (answers : nat -> fetch_outcome) : world :=
  {| Date_now _ := 1700000000000%float;
     Date_toISOString := "2023-11-14T22:13:20.000Z";
     Math_random := 0.5%float;
     gemini := answers |}.

(** The service answers every call. *)
Definition world_up : world := world_of (fun _ => gemini_answer).

(** The service fails the first call and would answer every later one. *)
Definition world_flaky : world :=
  world_of (fun n => match n with 0 => gemini_down | _ => gemini_answer end).

Definition post (u : string) (b : value) : request :=
  {| method := "POST"; url := u; req_body := b; raw_body := inr "" |}.

(** [POST /api/query/ask] with [{ query: "hello", include_knowledge_base: true }]. *)
Definition ask_hello : request :=
  post "/api/query/ask"
    (Obj [("query", Str "hello"); ("include_knowledge_base", Bool true)]).


(** [POST /api/query/ask] with [{ query: "hello", agent_type: { toString: "x" } }]:
    an agent type that cannot be converted to a property name. *)
Definition ask_odd_agent : request :=
  post "/api/query/ask"
    (Obj [("query", Str "hello"); ("agent_type", Obj [("toString", Str "x")])]).

(** [POST /api/query/ask] whose body is the JSON text [null]. *)
Definition ask_null : request :=
  {| method := "POST"; url := "/api/query/ask";
     req_body := Undefined; raw_body := inr "null" |}.

(** [POST /api/query/ask] with [{ agent_type: "coach" }]: no [query]. *)
Definition ask_no_query : request :=
  post "/api/query/ask" (Obj [("agent_type", Str "coach")]).

(** [POST /api/documents/upload] carrying [blank.png], an image without
    any text.  The handler reads neither [req.body] nor the stream. *)
Definition upload_blank_image : request :=
  {| method := "POST"; url := "/api/documents/upload";
     req_body := Undefined;
     raw_body := inr "Content-Disposition: form-data; name=file; filename=blank.png" |}.

(** [DELETE /api/documents/delete/sample-document.pdf] *)
Definition delete_sample : request :=
  {| method := "DELETE"; url := "/api/documents/delete/sample-document.pdf";
     req_body := Undefined; raw_body := inr "" |}.

(** [GET /api/documents/processed] *)
Definition get_processed : request :=
  {| method := "GET"; url := "/api/documents/processed";
     req_body := Undefined; raw_body := inr "" |}.

(** The documents module as loaded. *)
Definition state0 : DocumentsApi.state := DocumentsApi.initial 1700000000.

(** Integer vectors with the dot product as similarity. *)
Definition dot (u v : list Z) : Z := foldr Z.add 0%Z (zip_with Z.mul u v).

(** A store holding the three chunks of document 7. *)
Definition store0 : gmap nat (@VectorStore.entry (list Z) string) :=
  VectorStore.upsert_document 7
    [(1, [1; 0]%Z, "intro"); (2, [0; 1]%Z, "body"); (3, [1; 1]%Z, "outro")] ∅.

Definition word (s : string) : Chunker.token :=
  {| Chunker.token_text := s; Chunker.ends_sentence := false |}.

Definition stop (s : string) : Chunker.token :=
  {| Chunker.token_text := s; Chunker.ends_sentence := true |}.

(** Two paragraphs, eight tokens, a sentence ending after the third. *)
Definition two_paragraphs : list (list Chunker.token) :=
  [[word "a"; word "b"; stop "c"; word "d"; word "e"];
   [word "f"; word "g"; word "h"]].

End Examples.

Import Examples.

(** ** The settings API: the whole handler

    [mockSettings] holds eight sections, each a JavaScript object used as a
    map from setting name to value.  The own properties of a section are a
    [gmap]; the order in which they are serialised is the map's, not the
    insertion order. *)

Module SettingsHandler.

Definition allow_methods : string := "GET, POST, OPTIONS".

(** A section object as the handler can see and change it: its own
    properties, and whether it still inherits the [__proto__] accessor of
    [Object.prototype].  It does when the module is loaded; it stops when
    an update makes [null] its prototype, or an object that has a
    [__proto__] property of its own. *)
Record object : Type := {
  own_properties : gmap string value;
  inherits_setter : bool
}.

(** An object literal. *)
Definition literal (fields : list (string * value)) : object :=
  {| own_properties := list_to_map fields; inherits_setter := true |}.

(** [mockSettings].  The seven sections a POST can update are objects;
    [database_stats] is only ever read or replaced as a whole. *)
Record settings : Type := {
  profile : object;
  ai_config : object;
  documents : object;
  integrations : object;
  security : object;
  notifications : object;
  database_stats : gmap string value;
  backup : object
}.

(** [mockSettings] when the module is loaded. *)
Definition mockSettings : settings :=
  {| profile :=
       literal
         [("full_name", Str "Demo User");
          ("email", Str "demo@entrepedia.ai");
          ("bio", Str "Learning enthusiast exploring AI and entrepreneurship");
          ("timezone", Str "UTC");
          ("language", Str "en")];
     ai_config :=
       literal
         [("preferred_model", Str "gemini-pro");
          ("response_style", Str "balanced");
          ("coaching_mode", Str "adaptive");
          ("strategy_depth", Str "detailed");
          ("enable_follow_ups", Bool true);
          ("context_window", Num 4000)];
     documents :=
       literal
         [("auto_generate_embeddings", Bool true);
          ("chunk_size", Num 500);
          ("overlap_size", Num 50);
          ("processing_quality", Str "high");
          ("auto_ocr", Bool true);
          ("supported_formats",
            Arr [Str "pdf"; Str "docx"; Str "txt"; Str "md";
                 Str "png"; Str "jpg"; Str "mp3"; Str "wav"])];
     integrations :=
       literal
         [("openai_api_key", Str "");
          ("gemini_api_key", Str "");
          ("google_calendar_connected", Bool false);
          ("notion_connected", Bool false);
          ("trello_connected", Bool false)];
     security :=
       literal
         [("two_factor_enabled", Bool false);
          ("session_timeout", Num 30);
          ("data_retention_days", Num 365);
          ("allow_data_export", Bool true);
          ("share_analytics", Bool false)];
     notifications :=
       literal
         [("email_notifications", Bool true);
          ("processing_complete", Bool true);
          ("ai_suggestions", Bool true);
          ("weekly_summary", Bool true);
          ("security_alerts", Bool true)];
     database_stats :=
       list_to_map
         [("total_documents", Num 12);
          ("total_embeddings", Num 1450);
          ("database_size", Str "23.5 MB");
          ("last_backup", Str "2024-11-30")];
     backup :=
       literal
         [("auto_backup_enabled", Bool true);
          ("backup_frequency", Str "daily");
          ("email_backup_notifications", Bool false)] |}.

(** What [POST /database/reset] puts in [mockSettings.database_stats]. *)
Definition reset_stats : gmap string value :=
  list_to_map
    [("total_documents", Num 0);
     ("total_embeddings", Num 0);
     ("database_size", Str "0 MB");
     ("last_backup", Str "Never")].

(** The seven sections a POST can update. *)
Inductive section_name : Type :=
| Profile | AiConfig | Documents | Integrations | Security | Notifications | Backup.

(** The last segment of the section's URL. *)
Definition path (s : section_name) : string :=
  match s with
  | Profile => "profile"
  | AiConfig => "ai-config"
  | Documents => "documents"
  | Integrations => "integrations"
  | Security => "security"
  | Notifications => "notifications"
  | Backup => "backup"
  end.

(** The [message] of a successful update. *)
Definition updated (s : section_name) : string :=
  match s with
  | Profile => "Profile settings updated successfully"
  | AiConfig => "AI configuration updated successfully"
  | Documents => "Document settings updated successfully"
  | Integrations => "Integration settings updated successfully"
  | Security => "Security settings updated successfully"
  | Notifications => "Notification settings updated successfully"
  | Backup => "Backup settings updated successfully"
  end.

(** The prefix of the [detail] of a failed update. *)
Definition invalid (s : section_name) : string :=
  match s with
  | Profile => "Invalid profile data: "
  | AiConfig => "Invalid AI configuration: "
  | Documents => "Invalid document configuration: "
  | Integrations => "Invalid integration settings: "
  | Security => "Invalid security settings: "
  | Notifications => "Invalid notification settings: "
  | Backup => "Invalid backup settings: "
  end.

(** The section's property name in [mockSettings]. *)
Definition json_key (s : section_name) : string :=
  match s with
  | Profile => "profile"
  | AiConfig => "ai_config"
  | Documents => "documents"
  | Integrations => "integrations"
  | Security => "security"
  | Notifications => "notifications"
  | Backup => "backup"
  end.

(** [mockSettings.<section>] *)
Definition section_of (s : section_name) (st : settings) : object :=
  match s with
  | Profile => profile st
  | AiConfig => ai_config st
  | Documents => documents st
  | Integrations => integrations st
  | Security => security st
  | Notifications => notifications st
  | Backup => backup st
  end.

(** [mockSettings] with one section replaced (the section objects are
    mutated in place, the others stay). *)
Definition with_section (s : section_name) (m : object) (st : settings)
    : settings :=
  {| profile := match s with Profile => m | _ => profile st end;
     ai_config := match s with AiConfig => m | _ => ai_config st end;
     documents := match s with Documents => m | _ => documents st end;
     integrations := match s with Integrations => m | _ => integrations st end;
     security := match s with Security => m | _ => security st end;
     notifications := match s with Notifications => m | _ => notifications st end;
     database_stats := database_stats st;
     backup := match s with Backup => m | _ => backup st end |}.

(** The URLs of a section: as the API documents them, and as the settings
    client of the front end builds them (its base URL ends in [/settings]). *)
Definition section_url (s : section_name) (u : string) : Prop :=
  u = "/api/settings/" ++ path s ∨ u = "/settings/" ++ path s.

(** The own enumerable properties of the source of an [Object.assign]:
    the properties of an object, the indexed items of an array, the
    indexed code units of a string ([units] splits a string into its
    UTF-16 code units); [null], [undefined], numbers and booleans have
    none. *)
Definition own_entries (units : string → list string) (source : value)
    : list (string * value) :=
  match source with
  | Obj fields => fields
  | Arr items => imap (λ i x, (pretty i, x)) items
  | Str s => imap (λ i c, (pretty i, Str c)) (units s)
  | _ => []
  end.

(** [target.__proto__ = v], as [Object.assign] does it for a source that
    has a [__proto__] property of its own (a parsed JSON object can have
    one).  An own [__proto__] property of the target is overwritten.
    Otherwise, as long as the target inherits the accessor of
    [Object.prototype], the assignment goes to its setter: [null] or an
    object (or array) becomes the prototype of the target, any other value
    is ignored, and no property is created; the accessor is no longer
    inherited once the prototype is [null] or an object with a [__proto__]
    property of its own.  When the accessor is not inherited, the
    assignment creates an own property. *)
Definition set_proto (target : object) (v : value) : object :=
  match own_properties target !! "__proto__" with
  | Some _ =>
      {| own_properties := <["__proto__" := v]> (own_properties target);
         inherits_setter := inherits_setter target |}
  | None =>
      if inherits_setter target then
        {| own_properties := own_properties target;
           inherits_setter :=
             match v with
             | Null => false
             | Obj fields =>
                 match own "__proto__" fields with
                 | Some _ => false
                 | None => true
                 end
             | _ => true
             end |}
      else
        {| own_properties := <["__proto__" := v]> (own_properties target);
           inherits_setter := false |}
  end.

(** [Object.assign(target, source)]: every own property of the source is
    set on the target, a later binding of a name overwriting an earlier
    one.  Names other than [__proto__] become own properties of the
    target whatever its prototype; [__proto__], set with the value the
    source has for it, is [set_proto].  The two do not interact, so
    [__proto__] is taken last. *)
Definition assign (units : string → list string) (target : object)
    (source : value) : object :=
  let entries := own_entries units source in
  let copied :=
    {| own_properties :=
         foldl (λ acc kv,
                  if String.eqb kv.1 "__proto__" then acc else <[kv.1 := kv.2]> acc)
           (own_properties target) entries;
       inherits_setter := inherits_setter target |} in
  match source with
  | Obj fields =>
      match own "__proto__" fields with
      | Some v => set_proto copied v
      | None => copied
      end
  | _ => copied
  end.

(** The own properties of a section as handed to [res.json]. *)
Definition section_json (m : gmap string value) : value := Obj (map_to_list m).

(** [mockSettings] as handed to [res.json]. *)
Definition all_json (st : settings) : value :=
  Obj [("profile", section_json (own_properties (profile st)));
       ("ai_config", section_json (own_properties (ai_config st)));
       ("documents", section_json (own_properties (documents st)));
       ("integrations", section_json (own_properties (integrations st)));
       ("security", section_json (own_properties (security st)));
       ("notifications", section_json (own_properties (notifications st)));
       ("database_stats", section_json (database_stats st));
       ("backup", section_json (own_properties (backup st)))].

(** [method === 'GET' && (url === '/api/settings/<name>' || url.endsWith('/<name>'))] *)
Definition is_get (name : string) (r : request) : bool :=
  String.eqb (method r) "GET"
  && (String.eqb (url r) ("/api/settings/" ++ name) || endsWith (url r) ("/" ++ name)).

(** [method === 'POST' && (url === '/api/settings/<name>' || url.endsWith('/<name>'))] *)
Definition is_post (name : string) (r : request) : bool :=
  String.eqb (method r) "POST"
  && (String.eqb (url r) ("/api/settings/" ++ name) || endsWith (url r) ("/" ++ name)).

(** [method === 'GET' && (url.includes('/database/stats') || url.endsWith('/stats'))] *)
Definition is_database_stats (r : request) : bool :=
  String.eqb (method r) "GET"
  && (includes (url r) "/database/stats" || endsWith (url r) "/stats").

(** [method === 'POST' && (url.includes('/database/reset') || url.endsWith('/reset'))] *)
Definition is_database_reset (r : request) : bool :=
  String.eqb (method r) "POST"
  && (includes (url r) "/database/reset" || endsWith (url r) "/reset").

(** [method === 'POST' && (url.includes('/backup/export') || url.endsWith('/export'))] *)
Definition is_export (r : request) : bool :=
  String.eqb (method r) "POST"
  && (includes (url r) "/backup/export" || endsWith (url r) "/export").

(** The body a POST branch works on: [req.body] when truthy, otherwise the
    parsed raw body. *)
Definition read_body (eng : engine) (r : request) : throws value :=
  if truthy (req_body r) then inr (req_body r)
  else let* rawBody := raw_body r in JSON_parse eng rawBody.

(** A POST branch: the body is merged into the section; a body that cannot
    be read or parsed is answered 400 and changes nothing. *)
Definition post_section (eng : engine) (units : string → list string)
    (s : section_name) (st : settings) (r : request) : response * settings :=
  match read_body eng r with
  | inr body =>
      (json_response allow_methods 200
         (Obj [("success", Bool true); ("message", Str (updated s))]),
       with_section s (assign units (section_of s st) body) st)
  | inl e =>
      (json_response allow_methods 400
         (Obj [("success", Bool false); ("detail", Str (invalid s ++ message e))]),
       st)
  end.

(** A GET branch. *)
Definition get_section (m : gmap string value) (st : settings) : response * settings :=
  (json_response allow_methods 200 (section_json m), st).

Definition not_found : value :=
  Obj [("success", Bool false);
       ("detail", Str "Settings API endpoint not found");
       ("available_endpoints",
         Arr [Str "GET /all - Get all settings";
              Str "GET /profile - Get profile settings";
              Str "POST /profile - Update profile settings";
              Str "GET /ai-config - Get AI configuration";
              Str "POST /ai-config - Update AI configuration";
              Str "GET /documents - Get document processing config";
              Str "POST /documents - Update document processing config";
              Str "GET /integrations - Get integration settings";
              Str "POST /integrations - Update integration settings";
              Str "GET /security - Get security settings";
              Str "POST /security - Update security settings";
              Str "GET /notifications - Get notification settings";
              Str "POST /notifications - Update notification settings";
              Str "GET /database/stats - Get database statistics";
              Str "POST /database/reset - Reset database";
              Str "GET /backup - Get backup settings";
              Str "POST /backup - Update backup settings";
              Str "POST /backup/export - Export all data"])].

(** [module.exports = async (req, res) => ...] of the settings API: the
    branches in the order of the source. *)
Definition handler (eng : engine) (units : string → list string) (w : world)
    (st : settings) (r : request) : response * settings :=
  if String.eqb (method r) "OPTIONS" then (end_response allow_methods 200, st)
  else if is_get "all" r then (json_response allow_methods 200 (all_json st), st)
  else if is_get "profile" r then get_section (own_properties (profile st)) st
  else if is_post "profile" r then post_section eng units Profile st r
  else if is_get "ai-config" r then get_section (own_properties (ai_config st)) st
  else if is_post "ai-config" r then post_section eng units AiConfig st r
  else if is_get "documents" r then get_section (own_properties (documents st)) st
  else if is_post "documents" r then post_section eng units Documents st r
  else if is_get "integrations" r then get_section (own_properties (integrations st)) st
  else if is_post "integrations" r then post_section eng units Integrations st r
  else if is_get "security" r then get_section (own_properties (security st)) st
  else if is_post "security" r then post_section eng units Security st r
  else if is_get "notifications" r then get_section (own_properties (notifications st)) st
  else if is_post "notifications" r then post_section eng units Notifications st r
  else if is_database_stats r then get_section (database_stats st) st
  else if is_database_reset r then
    (json_response allow_methods 200
       (Obj [("success", Bool true); ("message", Str "Database reset successfully")]),
     {| profile := profile st; ai_config := ai_config st; documents := documents st;
        integrations := integrations st; security := security st;
        notifications := notifications st; database_stats := reset_stats;
        backup := backup st |})
  else if is_get "backup" r then get_section (own_properties (backup st)) st
  else if is_post "backup" r then post_section eng units Backup st r
  else if is_export r then
    (json_response allow_methods 200
       (Obj [("success", Bool true);
             ("message", Str "Data export completed");
             ("download_url",
               Str ("/api/downloads/export-" ++ Number_toString eng (Date_now w 0)
                    ++ ".zip"))]),
     st)
  else (json_response allow_methods 404 not_found, st).

(** The state after a sequence of requests. *)
Fixpoint run (eng : engine) (units : string → list string) (st : settings)
    (rs : list (world * request)) : settings :=
  match rs with
  | [] => st
  | (w, r) :: rest => run eng units (handler eng units w st r).2 rest
  end.

End SettingsHandler.

(** ** The documents API, the variant with a static upload

    The second documents handler of the source has the same mock data and
    the same listing, statistics and delete branches; its upload branch
    answers with a fixed file and touches nothing. *)

Module DocumentsApiStatic.

(** The body of the upload response. *)
Definition upload_json : value :=
  Obj [("success", Bool true);
       ("message", Str "File uploaded successfully");
       ("filename", Str "demo-file.pdf");
       ("size", Num 1024000);
       ("processed", Bool true)].

(** [module.exports = async (req, res) => ...] *)
Definition handler (eng : engine) (w : world) (st : DocumentsApi.state) (r : request)
    : response * DocumentsApi.state :=
  if String.eqb (method r) "OPTIONS" then
    (end_response DocumentsApi.allow_methods 200, st)
  else if DocumentsApi.is_processed r then
    (json_response DocumentsApi.allow_methods 200
       (DocumentsApi.documents_json (DocumentsApi.mockDocuments st)), st)
  else if DocumentsApi.is_stats r then
    (json_response DocumentsApi.allow_methods 200
       (DocumentsApi.stats_json (DocumentsApi.mockStats st)), st)
  else if DocumentsApi.is_upload r then
    (json_response DocumentsApi.allow_methods 200 upload_json, st)
  else if DocumentsApi.is_delete r then
    match DocumentsApi.delete_try eng r with
    | inr res => (res, st)
    | inl e => (DocumentsApi.delete_catch e, st)
    end
  else (json_response DocumentsApi.allow_methods 404 DocumentsApi.not_found, st).

End DocumentsApiStatic.

(** ** Concrete values for the settings and documents examples *)

Module MoreExamples.

(** The code units of an ASCII string. *)
Definition units0 (s : string) : list string :=
  (λ c, String c "") <$> list_ascii_of_string s.

(** [POST /api/settings/documents] with [{ chunk_size: 256, overlap_size: 300 }]. *)
Definition post_documents : request :=
  post "/api/settings/documents"
    (Obj [("chunk_size", Num 256); ("overlap_size", Num 300)]).

(** [GET /settings/documents], as the settings client asks. *)
Definition get_documents : request :=
  {| method := "GET"; url := "/settings/documents";
     req_body := Undefined; raw_body := inr "" |}.

(** [POST /api/settings/profile] with an empty body, which is not JSON. *)
Definition post_profile_garbage : request :=
  {| method := "POST"; url := "/api/settings/profile";
     req_body := Undefined; raw_body := inr "" |}.

(** [POST /api/settings/profile] with the JSON text [null]. *)
Definition post_profile_null : request :=
  {| method := "POST"; url := "/api/settings/profile";
     req_body := Undefined; raw_body := inr "null" |}.

(** [POST /api/settings/profile] with the JSON text [{"__proto__": null}]. *)
Definition post_profile_no_prototype : request :=
  post "/api/settings/profile" (Obj [("__proto__", Null)]).

(** [POST /api/settings/profile] with the JSON text
    [{"__proto__": "x", "language": "fr"}]. *)
Definition post_profile_proto : request :=
  post "/api/settings/profile" (Obj [("__proto__", Str "x"); ("language", Str "fr")]).

(** [GET /api/settings/profile] *)
Definition get_profile : request :=
  {| method := "GET"; url := "/api/settings/profile";
     req_body := Undefined; raw_body := inr "" |}.

(** [POST /api/settings/database/reset] *)
Definition post_reset : request :=
  {| method := "POST"; url := "/api/settings/database/reset";
     req_body := Undefined; raw_body := inr "" |}.

(** [GET /api/settings/database/stats] *)
Definition get_database_stats : request :=
  {| method := "GET"; url := "/api/settings/database/stats";
     req_body := Undefined; raw_body := inr "" |}.

(** [GET /api/settings/all] *)
Definition get_all : request :=
  {| method := "GET"; url := "/api/settings/all";
     req_body := Undefined; raw_body := inr "" |}.

End MoreExamples.

Import MoreExamples.

(** ** Sequences of requests to the documents API *)

Module DocumentsRuns.

(** The worlds of the requests of a sequence that take the upload
    branch, in order. *)
Definition upload_worlds (rs : list (world * request)) : list world :=
  fst <$> List.filter (λ wr, DocumentsApi.is_upload wr.2) rs.

(** The consistency of the documents state: the listing's total is the
    number of listed files, the statistics carry the same total, and every
    file counted is a PDF. *)
Definition consistent (st : DocumentsApi.state) : Prop :=
  DocumentsApi.total_files (DocumentsApi.mockDocuments st)
  = (Z.of_nat (length (DocumentsApi.upload_files (DocumentsApi.mockDocuments st)))
     + Z.of_nat (length (DocumentsApi.scraped_files (DocumentsApi.mockDocuments st))))%Z
  ∧ DocumentsApi.stats_total_files (DocumentsApi.mockStats st)
    = DocumentsApi.total_files (DocumentsApi.mockDocuments st)
  ∧ DocumentsApi.file_types (DocumentsApi.mockStats st)
    = {["pdf" := DocumentsApi.total_files (DocumentsApi.mockDocuments st)]}.

(** [GET /api/documents/stats] *)
Definition get_stats : request :=
  {| method := "GET"; url := "/api/documents/stats";
     req_body := Undefined; raw_body := inr "" |}.

End DocumentsRuns.

(** ** The API client of the front end: the two interceptors *)

Module ApiClient.

(** What the interceptors touch of the browser: [localStorage] and
    [window.location.href]. *)
Record browser : Type := {
  localStorage : gmap string string;
  location_href : string
}.

(** The request interceptor, on [config.headers]: the stored token, when
    there is one and it is not empty, is sent as a bearer token. *)
Definition on_request (b : browser) (headers : gmap string string)
    : gmap string string :=
  match localStorage b !! "access_token" with
  | Some token =>
      if String.eqb token "" then headers
      else <["Authorization" := "Bearer " ++ token]> headers
  | None => headers
  end.

(** [error.response?.status === 401] *)
Definition is_unauthorized (eng : engine) (error : value) : throws bool :=
  let* response := QueryApi.access eng (get error "response") error "response" in
  match response with
  | Undefined | Null => inr false
  | _ =>
      match get response "status" with
      | Some (Num x) => inr (PrimFloat.eqb x 401)
      | _ => inr false
      end
  end.

(** The error handler of the response interceptor: the browser afterwards,
    and what the returned promise is rejected with (the error itself, or
    what the handler threw). *)
Definition on_rejected (eng : engine) (b : browser) (error : value)
    : browser * throws value :=
  match is_unauthorized eng error with
  | inr true =>
      ({| localStorage := delete "access_token" (localStorage b);
          location_href := "/login" |},
       inr error)
  | inr false => (b, inr error)
  | inl e => (b, inl e)
  end.

(** [baseURL + path] of a call, [VITE_API_URL] being unset. *)
Definition API_BASE_URL : string := "/api".

(** The path [authApi.login] and [authApi.logout] post to. *)
Definition auth_url : string := API_BASE_URL ++ "/auth".

End ApiClient.

(** ** The settings client of the front end: [SettingsAPI.request] *)

Module SettingsClient.

(** [getToken()] *)
Definition getToken (b : ApiClient.browser) : option string :=
  ApiClient.localStorage b !! "auth_token".

(** The headers of a request: the content type, the bearer token when
    [getToken()] is a non-empty string, then the headers of the caller, a
    later one overwriting an earlier one. *)
Definition request_headers (token : option string)
    (options_headers : list (string * string)) : gmap string string :=
  let base : gmap string string := {["Content-Type" := "application/json"]} in
  let authorized :=
    match token with
    | Some t =>
        if String.eqb t "" then base else <["Authorization" := "Bearer " ++ t]> base
    | None => base
    end in
  foldl (λ acc kv, <[kv.1 := kv.2]> acc) authorized options_headers.

(** [response.ok] *)
Definition ok (res : response) : bool :=
  (200 <=? status res)%Z && (status res <=? 299)%Z.

(** [response.json()]: the body a handler gave to [res.json], or what
    parsing an empty body does. *)
Definition response_json (eng : engine) (res : response) : throws value :=
  match body res with
  | Some v => inr v
  | None => JSON_parse eng ""
  end.

(** What the promise returned by [request] settles to, given the response
    [fetch] resolved to: the parsed body, or the rejection. *)
Definition request_result (eng : engine) (not_primitive : js_error) (res : response)
    : throws value :=
  if negb (ok res) then
    let error :=
      match response_json eng res with
      | inr v => v
      | inl _ => Obj [("detail", Str "Request failed")]
      end in
    let* detail := QueryApi.access eng (get error "detail") error "detail" in
    let* text :=
      Coercion.to_string eng not_primitive
        (or_else detail (Str ("HTTP " ++ pretty (status res)))) in
    inl (Error text)
  else response_json eng res.

End SettingsClient.

(** ** The authentication store of the front end *)

Module AuthStore.

(** The state of the store. *)
Record auth_state : Type := {
  user : value;
  token : option string;
  isAuthenticated : bool;
  isLoading : bool
}.

(** The [localStorage] key the store is persisted under. *)
Definition storage_name : string := "entrepedia-auth-storage".

(** A [set] of the store: the persistence middleware writes the new state,
    serialized, to [localStorage]. *)
Definition persist (serialize : auth_state → string) (s : auth_state)
    (b : ApiClient.browser) : ApiClient.browser :=
  {| ApiClient.localStorage := <[storage_name := serialize s]> (ApiClient.localStorage b);
     ApiClient.location_href := ApiClient.location_href b |}.

(** [login(token, user)] *)
Definition login (serialize : auth_state → string) (t : string) (u : value)
    (b : ApiClient.browser) : ApiClient.browser * auth_state :=
  let s := {| user := u; token := Some t; isAuthenticated := true; isLoading := false |} in
  (persist serialize s
     {| ApiClient.localStorage := <["access_token" := t]> (ApiClient.localStorage b);
        ApiClient.location_href := ApiClient.location_href b |},
   s).

(** [logout()] *)
Definition logout (serialize : auth_state → string) (b : ApiClient.browser)
    : ApiClient.browser * auth_state :=
  let s := {| user := Null; token := None; isAuthenticated := false; isLoading := false |} in
  (persist serialize s
     {| ApiClient.localStorage := delete "access_token" (ApiClient.localStorage b);
        ApiClient.location_href := ApiClient.location_href b |},
   s).

(** [isUserAuthenticated()] *)
Definition isUserAuthenticated (b : ApiClient.browser) : bool :=
  match ApiClient.localStorage b !! "access_token" with
  | Some t => negb (String.eqb t "")
  | None => false
  end.

End AuthStore.

(** ** The file icons of the documents list and of the upload form *)

Module FileIcons.

(** [toLowerCase] on the letters A to Z.  The extensions the icons are
    chosen by are ASCII, and a name with any other character that
    [toLowerCase] changes does not lower-case to one of them. *)
Definition lower (c : ascii) : ascii :=
  let n := nat_of_ascii c in
  if (65 <=? n) && (n <=? 90) then ascii_of_nat (n + 32) else c.

Fixpoint toLowerCase (s : string) : string :=
  match s with
  | EmptyString => EmptyString
  | String c rest => String (lower c) (toLowerCase rest)
  end.

(** What follows the last ['.'] of a string, if it has one. *)
Fixpoint after_last_dot (s : string) : option string :=
  match s with
  | EmptyString => None
  | String c rest =>
      match after_last_dot rest with
      | Some t => Some t
      | None => if Ascii.eqb c "." then Some rest else None
      end
  end.

(** [s.split('.').pop()]: the whole string when it has no ['.']. *)
Definition last_segment (s : string) : string :=
  default s (after_last_dot s).

(** The icon an element renders: the component and its [className]. *)
Record icon : Type := { component : string; className : string }.

(** The [switch] on the extension, the size classes left open. *)
Definition icon_of (size : string) (extension : string) : icon :=
  if String.eqb extension "pdf" then
    {| component := "FileText"; className := size ++ " text-red-500" |}
  else if String.eqb extension "docx" || String.eqb extension "doc" then
    {| component := "FileText"; className := size ++ " text-blue-500" |}
  else if String.eqb extension "jpg" || String.eqb extension "jpeg"
          || String.eqb extension "png" || String.eqb extension "gif" then
    {| component := "Image"; className := size ++ " text-green-500" |}
  else if String.eqb extension "mp3" || String.eqb extension "wav"
          || String.eqb extension "m4a" then
    {| component := "Music"; className := size ++ " text-purple-500" |}
  else if String.eqb extension "mp4" || String.eqb extension "avi"
          || String.eqb extension "mov" then
    {| component := "Video"; className := size ++ " text-orange-500" |}
  else {| component := "File"; className := size ++ " text-gray-500" |}.

(** [getFileIcon] of the documents list. *)
Definition getFileIcon (filename : string) : icon :=
  icon_of "w-5 h-5" (last_segment (toLowerCase filename)).

(** [getFileIcon] of the upload form. *)
Definition getFileIcon_upload (fileName : string) : icon :=
  icon_of "w-8 h-8" (last_segment (toLowerCase fileName)).

End FileIcons.

(** ** The authentication API: [POST /login], [POST /logout] *)

Module AuthApi.

Definition allow_methods : string := "GET, POST, OPTIONS".

(** [DEMO_USERS] *)
Definition DEMO_USERS : gmap string string :=
  list_to_map
    [("admin@entrepedia.ai", "admin123");
     ("admin", "admin123");
     ("testuser", "test123");
     ("test@example.com", "test123")].

(** What the handler takes from its platform: [jwt.sign] (it may throw),
    [process.env.JWT_SECRET_KEY], [Math.floor], and the error of using as
    a property name an object that cannot be converted to a string. *)
Record platform : Type := {
  jwt_sign : value → string → throws string;
  JWT_SECRET_KEY : option string;
  Math_floor : float → float;
  not_primitive : js_error
}.

(** [process.env.JWT_SECRET_KEY || 'demo-secret-key-for-development'] *)
Definition secret (plat : platform) : string :=
  match JWT_SECRET_KEY plat with
  | Some s => if String.eqb s "" then "demo-secret-key-for-development" else s
  | None => "demo-secret-key-for-development"
  end.

(** The payload [{ ...data, exp: expires }]. *)
Definition payload (plat : platform) (w : world) (data : list (string * value)) : value :=
  Obj (data ++ [("exp", Num (Math_floor plat (Date_now w 0 / 1000) + 30 * 60)%float)])%list.

Definition createAccessToken (plat : platform) (w : world) (data : list (string * value))
    : throws string :=
  jwt_sign plat (payload plat w data) (secret plat).

(** [DEMO_USERS[key] === password], for a truthy [password] out of a
    request body: a property [DEMO_USERS] inherits is a function or an
    object of the engine, and a missing one is [undefined]; neither is
    equal to such a password. *)
Definition is_demo_password (key : string) (password : value) : bool :=
  match DEMO_USERS !! key, password with
  | Some p, Str s => String.eqb p s
  | _, _ => false
  end.

(** [username && password && DEMO_USERS[username] === password]: the user
    name is converted to a property name only when both are truthy. *)
Definition granted (eng : engine) (plat : platform) (username password : value)
    : throws bool :=
  if truthy username && truthy password then
    let* key := Coercion.to_string eng (not_primitive plat) username in
    inr (is_demo_password key password)
  else inr false.

(** The [try] block of the login branch. *)
Definition login_try (eng : engine) (plat : platform) (w : world) (r : request)
    : throws response :=
  let body := req_body r in
  let* username := QueryApi.access eng (get body "username") body "username" in
  let* password := QueryApi.access eng (get body "password") body "password" in
  let* yes := granted eng plat username password in
  if yes then
    let* token := createAccessToken plat w [("sub", username); ("user_id", Num 1)] in
    inr (json_response allow_methods 200
           (Obj [("access_token", Str token); ("token_type", Str "bearer")]))
  else
    inr (json_response allow_methods 401
           (Obj [("detail", Str "Incorrect username or password")])).

(** The [catch] block of the login branch. *)
Definition login_catch (e : js_error) : response :=
  json_response allow_methods 500 (Obj [("detail", Str ("Login failed: " ++ message e))]).

Definition info : value :=
  Obj [("message", Str "Entrepedia Authentication API");
       ("version", Str "1.0.0");
       ("status", Str "operational");
       ("endpoints",
         Arr [Str "POST /login - Login with credentials";
              Str "POST /logout - Logout user";
              Str "GET / - This info"])].

Definition not_found : value := Obj [("error", Str "Not found")].

(** [method === 'POST' && url.includes('/login')] *)
Definition is_login (r : request) : bool :=
  String.eqb (method r) "POST" && includes (url r) "/login".

(** [method === 'POST' && url.includes('/logout')] *)
Definition is_logout (r : request) : bool :=
  String.eqb (method r) "POST" && includes (url r) "/logout".

(** [module.exports = async (req, res) => ...] of [api/auth.js] *)
Definition handler (eng : engine) (plat : platform) (w : world) (r : request)
    : response :=
  if String.eqb (method r) "OPTIONS" then end_response allow_methods 200
  else if String.eqb (method r) "GET" then json_response allow_methods 200 info
  else if is_login r then
    match login_try eng plat w r with
    | inr res => res
    | inl e => login_catch e
    end
  else if is_logout r then
    json_response allow_methods 200
      (Obj [("success", Bool true); ("message", Str "Logged out successfully")])
  else json_response allow_methods 404 not_found.

End AuthApi.

(** ** The authentication API, the variant that parses the body itself

    This version of the handler also serves [POST /api/auth], reads the
    raw body when the platform parsed none, and answers 400 when the user
    name or the password is missing. *)

Module AuthApiParsing.

(** The request, with the two further fields this version reads:
    [req.headers['content-type']] and [req.query]. *)
Record auth_request : Type := {
  base : request;
  content_type : option string;
  query : value
}.

(** [req.headers['content-type'] || ''] *)
Definition contentType (r : auth_request) : string :=
  default "" (content_type r).

(** [params.get(name)] of a form body: a string or [null]. *)
Definition form_value (o : option string) : value :=
  match o with
  | Some s => Str s
  | None => Null
  end.

Definition invalid_json : value :=
  Obj [("detail", Str "Invalid JSON in request body")].

Definition unsupported : value :=
  Obj [("detail",
         Str "Unsupported content type. Use application/json or application/x-www-form-urlencoded")].

Definition required : value :=
  Obj [("detail", Str "Username and password are required")].

(** [username] and [password] of a parsed body. *)
Definition of_body (eng : engine) (body : value) : throws (value * value) :=
  let* username := QueryApi.access eng (get body "username") body "username" in
  let* password := QueryApi.access eng (get body "password") body "password" in
  inr (username, password).

(** How the login branch gets [username] and [password]: from [req.body]
    when it is truthy, otherwise from the raw body, parsed as the content
    type says ([form_get raw name] is
    [new URLSearchParams(raw).get(name)]).  The result is the pair, or the
    400 response the branch has already sent. *)
Definition credentials (eng : engine) (form_get : string → string → option string)
    (r : auth_request) : throws (response + value * value) :=
  let body := req_body (base r) in
  if truthy body then
    let* up := of_body eng body in inr (inr up)
  else
    let* rawBody := raw_body (base r) in
    if includes (contentType r) "application/json" then
      match (let* body := JSON_parse eng rawBody in of_body eng body) with
      | inr up => inr (inr up)
      | inl _ => inr (inl (json_response AuthApi.allow_methods 400 invalid_json))
      end
    else if includes (contentType r) "application/x-www-form-urlencoded" then
      inr (inr (form_value (form_get rawBody "username"),
                form_value (form_get rawBody "password")))
    else inr (inl (json_response AuthApi.allow_methods 400 unsupported)).

(** The [try] block of the login branch. *)
Definition login_try (eng : engine) (plat : AuthApi.platform)
    (form_get : string → string → option string) (w : world) (r : auth_request)
    : throws response :=
  let* c := credentials eng form_get r in
  match c with
  | inl res => inr res
  | inr (username, password) =>
      if negb (truthy username) || negb (truthy password) then
        inr (json_response AuthApi.allow_methods 400 required)
      else
        let* key := Coercion.to_string eng (AuthApi.not_primitive plat) username in
        if AuthApi.is_demo_password key password then
          let* token :=
            AuthApi.createAccessToken plat w [("sub", username); ("user_id", Num 1)] in
          inr (json_response AuthApi.allow_methods 200
                 (Obj [("access_token", Str token); ("token_type", Str "bearer")]))
        else
          inr (json_response AuthApi.allow_methods 401
                 (Obj [("detail", Str "Incorrect username or password")]))
  end.

(** [method === 'POST' && (url.includes('/login') || url === '/api/auth')] *)
Definition is_login (r : auth_request) : bool :=
  String.eqb (method (base r)) "POST"
  && (includes (url (base r)) "/login" || String.eqb (url (base r)) "/api/auth").

(** [req.query?.action === 'logout'] *)
Definition is_logout_action (q : value) : bool :=
  match q with
  | Undefined | Null => false
  | _ =>
      match get q "action" with
      | Some (Str s) => String.eqb s "logout"
      | _ => false
      end
  end.

(** [method === 'POST' && (url.includes('/logout')
      || (url === '/api/auth' && req.query?.action === 'logout'))] *)
Definition is_logout (r : auth_request) : bool :=
  String.eqb (method (base r)) "POST"
  && (includes (url (base r)) "/logout"
      || (String.eqb (url (base r)) "/api/auth" && is_logout_action (query r))).

(** [module.exports = async (req, res) => ...] *)
Definition handler (eng : engine) (plat : AuthApi.platform)
    (form_get : string → string → option string) (w : world) (r : auth_request)
    : response :=
  if String.eqb (method (base r)) "OPTIONS" then end_response AuthApi.allow_methods 200
  else if String.eqb (method (base r)) "GET" then
    json_response AuthApi.allow_methods 200 AuthApi.info
  else if is_login r then
    match login_try eng plat form_get w r with
    | inr res => res
    | inl e => AuthApi.login_catch e
    end
  else if is_logout r then
    json_response AuthApi.allow_methods 200
      (Obj [("success", Bool true); ("message", Str "Logged out successfully")])
  else json_response AuthApi.allow_methods 404 AuthApi.not_found.

End AuthApiParsing.

(** ** Concrete values for the client and authentication examples *)

Module ClientExamples.

(** A platform whose [jwt.sign] always succeeds, with no secret set; its
    [Math.floor] is exact on the whole seconds of the example clock. *)
Definition platform0 : AuthApi.platform :=
  {| AuthApi.jwt_sign _ _ := inr "header.payload.signature";
     AuthApi.JWT_SECRET_KEY := None;
     AuthApi.Math_floor x := x;
     AuthApi.not_primitive := Error "Cannot convert object to primitive value" |}.

(** [POST /api/auth/login] with the credentials of a demo user. *)
Definition login_admin : request :=
  post "/api/auth/login" (Obj [("username", Str "admin"); ("password", Str "admin123")]).

(** [POST /api/auth/login] with a wrong password. *)
Definition login_wrong : request :=
  post "/api/auth/login" (Obj [("username", Str "admin"); ("password", Str "hunter2")]).

(** What [authApi.login] of the front end sends. *)
Definition login_client : request :=
  post ApiClient.auth_url (Obj [("username", Str "admin"); ("password", Str "admin123")]).

(** What reaches the handler of [authApi.login "admin" "admin123"]: the
    platform has parsed the JSON body. *)
Definition login_client_parsed : AuthApiParsing.auth_request :=
  {| AuthApiParsing.base := login_client;
     AuthApiParsing.content_type := Some "application/json";
     AuthApiParsing.query := Obj [] |}.

(** A form parser that finds no field. *)
Definition form_get0 (raw name : string) : option string := None.

(** A browser that holds a token. *)
Definition browser0 : ApiClient.browser :=
  {| ApiClient.localStorage := {["access_token" := "header.payload.signature"; "theme" := "dark"]};
     ApiClient.location_href := "/documents" |}.

(** The error axios rejects with on a response of the given status. *)
Definition axios_error (code : float) : value :=
  Obj [("message", Str "Request failed");
       ("response", Obj [("status", Num code); ("data", Obj [])])].

End ClientExamples.

Import ClientExamples.

(** * The query API *)

Section query_api.

Variable eng : engine.
Variable w : world.

Lemma ask_not_options (r : request) :
  QueryApi.is_ask r = true → String.eqb (method r) "OPTIONS" = false.
Proof.
  unfold QueryApi.is_ask. intros H.
  apply andb_prop in H as [H _]. apply String.eqb_eq in H. by rewrite H.
Qed.

(** On the ask route the handler is its [try] block followed by its
    [catch]. *)
Lemma handler_ask (r : request) :
  QueryApi.is_ask r = true →
  QueryApi.handler eng w r =
    match QueryApi.ask_try eng w r with
    | (inr res, calls) => (res, calls)
    | (inl e, calls) => (QueryApi.ask_catch w e, calls)
    end.
Proof.
  intros H. unfold QueryApi.handler. by rewrite (ask_not_options r H), H.
Qed.

(** The [try] block in terms of the destructured [query]: reading or
    destructuring the body throws before anything else happens. *)
Lemma ask_try_throws (r : request) (e : js_error) :
  QueryApi.ask_query eng r = inl e → QueryApi.ask_try eng w r = (inl e, []).
Proof.
  unfold QueryApi.ask_query, QueryApi.ask_try.
  destruct (QueryApi.ask_fields eng r) as [e'|[[q a] k]]; simpl.
  - by intros [= ->].
  - discriminate.
Qed.

Lemma ask_try_rejects (r : request) (q : value) :
  QueryApi.ask_query eng r = inr q → is_string q = false →
  QueryApi.ask_try eng w r =
    (inr (json_response QueryApi.allow_methods 400
            (Obj [("success", Bool false);
                  ("error", Str "Query is required and must be a string")])), []).
Proof.
  unfold QueryApi.ask_query, QueryApi.ask_try.
  destruct (QueryApi.ask_fields eng r) as [e'|[[q' a] k]]; simpl; [discriminate|].
  intros [= ->] Hq. rewrite Hq. by rewrite orb_true_r.
Qed.

End query_api.

(** C9, as the code has it.  On the ask route, when the [query] read from
    the body is not a string (a body without [query] included), the handler
    answers 400 with [success: false]; when the body cannot be read or
    parsed, or is [null], so that there is no [query] at all, it answers 500
    with [success: false].  In both cases no call to the generation service
    is issued. *)
Theorem ask_without_string_query (eng : engine) (w : world) (r : request) :
  QueryApi.is_ask r = true →
  (∀ q, QueryApi.ask_query eng r = inr q → is_string q = false) →
  (QueryApi.handler eng w r).2 = []
  ∧ body_field "success" (QueryApi.handler eng w r).1 = Some (Bool false)
  ∧ status (QueryApi.handler eng w r).1
    = match QueryApi.ask_query eng r with
      | inr _ => 400%Z
      | inl _ => 500%Z
      end.
Proof.
  intros Hask Hq. rewrite (handler_ask eng w r Hask).
  destruct (QueryApi.ask_query eng r) as [e|q] eqn:E.
  - by rewrite (ask_try_throws eng w r e E).
  - by rewrite (ask_try_rejects eng w r q E (Hq q eq_refl)).
Qed.

Lemma ask_without_string_query_witness :
  (QueryApi.handler engine0 world_up ask_no_query).2 = []
  ∧ body_field "success" (QueryApi.handler engine0 world_up ask_no_query).1
    = Some (Bool false)
  ∧ status (QueryApi.handler engine0 world_up ask_no_query).1 = 400%Z.
Proof.
  apply (ask_without_string_query engine0 world_up ask_no_query).
  - reflexivity.
  - intros q. vm_compute. by intros [= <-].
Defined.

(** C9 as the claim words it fails when the body is [null]: the body has
    no [query], yet the answer is 500, not 400. *)
Lemma ask_null_body_is_500 :
  QueryApi.is_ask ask_null = true
  ∧ QueryApi.read_body engine0 ask_null = inr Null
  ∧ (∀ s, get Null "query" ≠ Some (Str s))
  ∧ status (QueryApi.handler engine0 world_up ask_null).1 = 500%Z
  ∧ status (QueryApi.handler engine0 world_up ask_null).1 ≠ 400%Z.
Proof. repeat split; try reflexivity; try done. Qed.

(** The agent type that comes out of the destructuring is never
    [undefined]: the default has been applied. *)
Lemma destructure_agent_type (eng : engine) (b q a k : value) :
  QueryApi.destructure eng b = inr (q, a, k) →
  with_default (Str "coach") a = a.
Proof.
  unfold QueryApi.destructure.
  destruct (get b "query"), (get b "agent_type") as [a0|],
    (get b "include_knowledge_base"); try discriminate.
  intros [= _ <- _]. by destruct a0.
Qed.

Lemma ask_fields_agent_type (eng : engine) (r : request) (q a k : value) :
  QueryApi.ask_fields eng r = inr (q, a, k) →
  with_default (Str "coach") a = a ∧ a ≠ Undefined.
Proof.
  unfold QueryApi.ask_fields.
  destruct (QueryApi.read_body eng r) as [e|b]; [discriminate|]. cbn [JS.bind].
  intros Hd%destructure_agent_type. split; [done|]. by destruct a.
Qed.

Section generation_call.

Variable eng : engine.
Variable w : world.

(** One call of [callGeminiAPI] issues one [fetch], or none when the agent
    type cannot be converted to a property name. *)
Lemma callGeminiAPI_calls (calls : list fetch_call) (q : string) (a : value) :
  (QueryApi.callGeminiAPI eng w calls q a).2
  = match QueryApi.prompt_key eng (with_default (Str "coach") a) with
    | inl _ => calls
    | inr _ =>
        (calls ++ [{| call_agent := with_default (Str "coach") a;
                      call_query := q |}])%list
    end.
Proof.
  unfold QueryApi.callGeminiAPI.
  by destruct (QueryApi.prompt_key eng (with_default (Str "coach") a)).
Qed.

(** What [callGeminiAPI] makes of an answer is an object with [content],
    [agent] and [metadata]. *)
Lemma read_answer_object (a : value) (outcome : fetch_outcome) (v : value) :
  QueryApi.read_answer eng w a outcome = inr v →
  ∃ text meta, v = Obj [("content", text); ("agent", a); ("metadata", Obj meta)].
Proof.
  unfold QueryApi.read_answer.
  destruct outcome as [e|ok code text json]; [discriminate|].
  destruct ok; cbn [negb]; [|by destruct text].
  destruct json as [e|data]; [discriminate|]. cbn [JS.bind].
  repeat match goal with
         | |- context [QueryApi.access eng ?o ?t ?k] =>
             destruct (QueryApi.access eng o t k); cbn [JS.bind]; [discriminate|]
         | |- context [negb (truthy ?x)] =>
             destruct (truthy x); cbn [negb]; [|discriminate]
         end.
  intros [= <-]. eauto.
Qed.

Lemma callGeminiAPI_answer (calls : list fetch_call) (q : string) (a v : value) :
  (QueryApi.callGeminiAPI eng w calls q a).1 = inr v →
  ∃ text meta, v = Obj [("content", text);
                         ("agent", with_default (Str "coach") a);
                         ("metadata", Obj meta)].
Proof.
  unfold QueryApi.callGeminiAPI.
  destruct (QueryApi.prompt_key eng (with_default (Str "coach") a));
    [discriminate|].
  apply read_answer_object.
Qed.

(** The [try] block of the ask branch, case by case. *)
Lemma ask_try_fields (r : request) :
  QueryApi.ask_try eng w r
  = match QueryApi.ask_fields eng r with
    | inl e => (inl e, [])
    | inr (q, a, k) =>
        if negb (truthy q) || negb (is_string q) then
          (inr (json_response QueryApi.allow_methods 400
                  (Obj [("success", Bool false);
                        ("error", Str "Query is required and must be a string")])),
           [])
        else
          match QueryApi.prompt_key eng a with
          | inl e => (inl e, [])
          | inr _ =>
              let call := {| call_agent := a; call_query := QueryApi.query_text q |} in
              match QueryApi.read_answer eng w a (gemini w 0) with
              | inl e => (inl e, [call])
              | inr answer =>
                  (inr (json_response QueryApi.allow_methods 200
                          (Obj [("success", Bool true);
                                ("response", answer);
                                ("knowledge_base_results",
                                  if truthy k then Num 0 else Undefined);
                                ("agent_used", a)])),
                   [call])
              end
          end
    end.
Proof.
  unfold QueryApi.ask_try.
  destruct (QueryApi.ask_fields eng r) as [e|[[q a] k]] eqn:Hf; [done|].
  destruct (negb (truthy q) || negb (is_string q)); [done|].
  unfold QueryApi.callGeminiAPI.
  destruct (ask_fields_agent_type eng r q a k Hf) as [-> _].
  destruct (QueryApi.prompt_key eng a); [done|]. cbn [length app].
  by destruct (QueryApi.read_answer eng w a (gemini w 0)).
Qed.

(** The four ways the [try] block of the ask branch ends. *)
Lemma ask_try_cases (r : request) :
  (∃ e, QueryApi.ask_try eng w r = (inl e, []))
  ∨ QueryApi.ask_try eng w r =
      (inr (json_response QueryApi.allow_methods 400
              (Obj [("success", Bool false);
                    ("error", Str "Query is required and must be a string")])), [])
  ∨ (∃ e call, QueryApi.ask_try eng w r = (inl e, [call]))
  ∨ (∃ text agent_type meta k call,
        QueryApi.ask_include_knowledge_base eng r = inr k
        ∧ agent_type ≠ Undefined
        ∧ QueryApi.ask_try eng w r =
            (inr (json_response QueryApi.allow_methods 200
                    (Obj [("success", Bool true);
                          ("response", Obj [("content", text);
                                            ("agent", agent_type);
                                            ("metadata", Obj meta)]);
                          ("knowledge_base_results",
                            if truthy k then Num 0 else Undefined);
                          ("agent_used", agent_type)])), [call])).
Proof.
  rewrite ask_try_fields. unfold QueryApi.ask_include_knowledge_base.
  destruct (QueryApi.ask_fields eng r) as [e|[[q a] k]] eqn:Hf; [eauto|].
  destruct (negb (truthy q) || negb (is_string q)); [eauto|].
  destruct (QueryApi.prompt_key eng a); [eauto|].
  destruct (QueryApi.read_answer eng w a (gemini w 0)) as [e|answer] eqn:Ha;
    [right; right; left; by eexists _, _|].
  right; right; right.
  destruct (read_answer_object a _ _ Ha) as (text & meta & ->).
  destruct (ask_fields_agent_type eng r q a k Hf) as [_ Hne].
  eexists text, a, meta, k, _. by split_and!.
Qed.

End generation_call.




(** An agent type that cannot be converted to a property name: the
    system prompt cannot be looked up, no call is issued, and the handler
    answers 500 with the conversion error. *)
Example unconvertible_agent_type_is_answered_500 :
  QueryApi.is_ask ask_odd_agent = true
  ∧ QueryApi.handler engine0 world_up ask_odd_agent
    = (QueryApi.ask_catch world_up (Error "Cannot convert object to primitive value"),
       []).
Proof. split; reflexivity. Qed.

(** C2, as the code has it.  The ask handler does not retry.  When the
    single call to the generation service fails, for whatever reason (the
    request is rejected, the response is not OK, its body cannot be read
    or has no candidate), the handler has issued exactly that one call and
    answers at once with the degraded canned response: HTTP 500,
    [success: false], the error's message, and the apology attributed to
    the agent "system". *)
Theorem generation_failure_is_not_retried
    (eng : engine) (w : world) (r : request) (q : string) (a : value)
    (key : string) (e : js_error) :
  QueryApi.is_ask r = true →
  QueryApi.ask_query eng r = inr (Str q) →
  q ≠ "" →
  QueryApi.ask_agent_type eng r = inr a →
  QueryApi.prompt_key eng a = inr key →
  QueryApi.read_answer eng w a (gemini w 0) = inl e →
  (QueryApi.handler eng w r).2 = [{| call_agent := a; call_query := q |}]
  ∧ status (QueryApi.handler eng w r).1 = 500%Z
  ∧ body_field "success" (QueryApi.handler eng w r).1 = Some (Bool false)
  ∧ body_field "error" (QueryApi.handler eng w r).1 = Some (Str (message e))
  ∧ body_field "response" (QueryApi.handler eng w r).1
    = Some (Obj [("content", Str QueryApi.canned_content);
                 ("agent", Str "system");
                 ("metadata", Obj [("error", Bool true);
                                   ("timestamp", Str (Date_toISOString w))])]).
Proof.
  intros Hask Hq Hne Ha Hkey Hfail.
  rewrite (handler_ask eng w r Hask), ask_try_fields.
  unfold QueryApi.ask_query, QueryApi.ask_agent_type in Hq, Ha.
  destruct (QueryApi.ask_fields eng r) as [e'|[[q' a'] k]]; [discriminate|].
  cbn [JS.bind fst snd] in *.
  injection Hq as ->. injection Ha as ->.
  assert (truthy (Str q) = true) as Ht.
  { cbn. by destruct (String.eqb_spec q ""). }
  rewrite Ht, Hkey, Hfail. by repeat split.
Qed.

Lemma generation_failure_is_not_retried_witness :
  (QueryApi.handler engine0 world_flaky ask_hello).2
  = [{| call_agent := Str "coach"; call_query := "hello" |}]
  ∧ status (QueryApi.handler engine0 world_flaky ask_hello).1 = 500%Z
  ∧ body_field "success" (QueryApi.handler engine0 world_flaky ask_hello).1
    = Some (Bool false)
  ∧ body_field "error" (QueryApi.handler engine0 world_flaky ask_hello).1
    = Some (Str (message (Error "fetch failed")))
  ∧ body_field "response" (QueryApi.handler engine0 world_flaky ask_hello).1
    = Some (Obj [("content", Str QueryApi.canned_content);
                 ("agent", Str "system");
                 ("metadata",
                   Obj [("error", Bool true);
                        ("timestamp", Str (Date_toISOString world_flaky))])]).
Proof.
  apply (generation_failure_is_not_retried engine0 world_flaky ask_hello
           "hello" (Str "coach") "coach" (Error "fetch failed")).
  - reflexivity.
  - reflexivity.
  - discriminate.
  - reflexivity.
  - reflexivity.
  - reflexivity.
Defined.

(** C2 as the claim words it fails: the service fails the first call and
    would answer the second, yet the handler stops after one call and
    answers with the canned response. *)
Lemma flaky_service_is_called_once :
  gemini world_flaky 0 = gemini_down
  ∧ gemini world_flaky 1 = gemini_answer
  ∧ length (QueryApi.handler engine0 world_flaky ask_hello).2 = 1
  ∧ ¬ 2 ≤ length (QueryApi.handler engine0 world_flaky ask_hello).2
  ∧ status (QueryApi.handler engine0 world_flaky ask_hello).1 = 500%Z
  ∧ (mentions QueryApi.canned_content
       <$> body (QueryApi.handler engine0 world_flaky ask_hello).1) = Some true.
Proof. repeat split; try reflexivity. vm_compute. lia. Qed.

(** * The documents API *)

Section documents_api.

Variable eng : engine.
Variable w : world.
Variable st : DocumentsApi.state.

(** On the upload route the handler answers 200 and moves to
    [upload_state]. *)
Lemma handler_upload (r : request) :
  DocumentsApi.is_upload r = true →
  DocumentsApi.handler eng w st r
  = (json_response DocumentsApi.allow_methods 200 (DocumentsApi.upload_json eng w),
     DocumentsApi.upload_state eng w st).
Proof.
  unfold DocumentsApi.is_upload. intros H.
  apply andb_prop in H as [Hm Hu]. pose proof Hm as Hpost.
  apply String.eqb_eq in Hpost.
  unfold DocumentsApi.handler, DocumentsApi.is_processed, DocumentsApi.is_stats,
    DocumentsApi.is_upload.
  by rewrite Hm, Hu, Hpost.
Qed.

(** On the delete route the handler leaves the module state as it is. *)
Lemma handler_delete_state (r : request) :
  DocumentsApi.is_delete r = true →
  (DocumentsApi.handler eng w st r).2 = st.
Proof.
  unfold DocumentsApi.is_delete. intros H.
  apply andb_prop in H as [Hm Hu]. pose proof Hm as Hdel.
  apply String.eqb_eq in Hdel.
  unfold DocumentsApi.handler, DocumentsApi.is_processed, DocumentsApi.is_stats,
    DocumentsApi.is_upload, DocumentsApi.is_delete.
  rewrite Hm, Hu, Hdel. cbn.
  by destruct (DocumentsApi.delete_try eng r).
Qed.

End documents_api.

(** C10.  After a POST on the upload route (always answered 200), the
    listing and the statistics agree: [total_files] is the number of upload
    files plus the number of scraped files, the statistics carry the same
    count, [total_size_bytes] is the former total plus the new document's
    size (the [+] of JavaScript numbers), and the count of the new
    document's file type, "pdf", is one more than before, zero standing for
    a missing count. *)
Theorem upload_keeps_listing_and_stats_consistent
    (eng : engine) (w : world) (st : DocumentsApi.state) (r : request) :
  DocumentsApi.is_upload r = true →
  let st' := (DocumentsApi.handler eng w st r).2 in
  let docs := DocumentsApi.mockDocuments st in
  let docs' := DocumentsApi.mockDocuments st' in
  let stats := DocumentsApi.mockStats st in
  let stats' := DocumentsApi.mockStats st' in
  let doc := DocumentsApi.newDocument eng w in
  status (DocumentsApi.handler eng w st r).1 = 200%Z
  ∧ DocumentsApi.upload_files docs' = doc :: DocumentsApi.upload_files docs
  ∧ DocumentsApi.scraped_files docs' = DocumentsApi.scraped_files docs
  ∧ DocumentsApi.total_files docs'
    = (Z.of_nat (length (DocumentsApi.upload_files docs'))
       + Z.of_nat (length (DocumentsApi.scraped_files docs')))%Z
  ∧ DocumentsApi.stats_total_files stats' = DocumentsApi.total_files docs'
  ∧ DocumentsApi.total_size_bytes stats'
    = (DocumentsApi.total_size_bytes stats + DocumentsApi.size doc)%float
  ∧ DocumentsApi.file_types stats' !! "pdf"
    = Some (default 0 (DocumentsApi.file_types stats !! "pdf") + 1)%Z
  ∧ (∀ t, t ≠ "pdf" →
       DocumentsApi.file_types stats' !! t = DocumentsApi.file_types stats !! t).
Proof.
  intros H. cbv zeta. rewrite (handler_upload eng w st r H). cbn.
  repeat split; try reflexivity.
  - unfold DocumentsApi.count_file_type. by rewrite lookup_insert_eq.
  - intros t Ht. unfold DocumentsApi.count_file_type. by rewrite lookup_insert_ne.
Qed.

Lemma upload_keeps_listing_and_stats_consistent_witness :
  let st' := (DocumentsApi.handler engine0 world_up state0 upload_blank_image).2 in
  let docs := DocumentsApi.mockDocuments state0 in
  let docs' := DocumentsApi.mockDocuments st' in
  let stats := DocumentsApi.mockStats state0 in
  let stats' := DocumentsApi.mockStats st' in
  let doc := DocumentsApi.newDocument engine0 world_up in
  status (DocumentsApi.handler engine0 world_up state0 upload_blank_image).1 = 200%Z
  ∧ DocumentsApi.upload_files docs' = doc :: DocumentsApi.upload_files docs
  ∧ DocumentsApi.scraped_files docs' = DocumentsApi.scraped_files docs
  ∧ DocumentsApi.total_files docs'
    = (Z.of_nat (length (DocumentsApi.upload_files docs'))
       + Z.of_nat (length (DocumentsApi.scraped_files docs')))%Z
  ∧ DocumentsApi.stats_total_files stats' = DocumentsApi.total_files docs'
  ∧ DocumentsApi.total_size_bytes stats'
    = (DocumentsApi.total_size_bytes stats + DocumentsApi.size doc)%float
  ∧ DocumentsApi.file_types stats' !! "pdf"
    = Some (default 0 (DocumentsApi.file_types stats !! "pdf") + 1)%Z
  ∧ (∀ t, t ≠ "pdf" →
       DocumentsApi.file_types stats' !! t = DocumentsApi.file_types stats !! t).
Proof.
  apply (upload_keeps_listing_and_stats_consistent engine0 world_up state0
           upload_blank_image).
  reflexivity.
Defined.

(** After one upload into the module as loaded: three files, 5096000
    bytes, three PDFs. *)
Example upload_once_totals :
  let st' := (DocumentsApi.handler engine0 world_up state0 upload_blank_image).2 in
  DocumentsApi.total_files (DocumentsApi.mockDocuments st') = 3%Z
  ∧ DocumentsApi.stats_total_files (DocumentsApi.mockStats st') = 3%Z
  ∧ DocumentsApi.total_size_bytes (DocumentsApi.mockStats st') = 5096000%float
  ∧ DocumentsApi.file_types (DocumentsApi.mockStats st') !! "pdf" = Some 3%Z.
Proof. repeat split; reflexivity. Qed.

(** The size in megabytes is rounded to two decimals: 5096000 bytes are
    shown as 4.86 MB. *)
Example upload_once_megabytes :
  DocumentsApi.total_size_mb
    (DocumentsApi.mockStats
       (DocumentsApi.handler engine0 world_up state0 upload_blank_image).2)
  = 4.86%float.
Proof. reflexivity. Qed.

(** C3, as the code has it.  The delete branch is a stub: the handler
    keeps no chunks and no vector store, and a DELETE removes nothing.  On
    the delete route the handler answers 200 with "Document <decoded name>
    deleted successfully", or 500 with "Delete failed: " and the error's
    message when the name cannot be decoded, and the module state is what
    it was: every document listed before is listed after, the totals are
    the same, and every later request is answered as it would have been
    without the DELETE. *)
Theorem delete_acknowledges_and_removes_nothing
    (eng : engine) (w : world) (st : DocumentsApi.state) (r : request) :
  DocumentsApi.is_delete r = true →
  let out := DocumentsApi.handler eng w st r in
  match decodeURIComponent eng (default "undefined" (split_second "/delete/" (url r))) with
  | inr decoded =>
      status out.1 = 200%Z
      ∧ body_field "success" out.1 = Some (Bool true)
      ∧ body_field "message" out.1
        = Some (Str ("Document " ++ decoded ++ " deleted successfully"))
  | inl e =>
      status out.1 = 500%Z
      ∧ body_field "success" out.1 = Some (Bool false)
      ∧ body_field "detail" out.1 = Some (Str ("Delete failed: " ++ message e))
  end
  ∧ out.2 = st
  ∧ DocumentsApi.upload_files (DocumentsApi.mockDocuments out.2)
    = DocumentsApi.upload_files (DocumentsApi.mockDocuments st)
  ∧ DocumentsApi.scraped_files (DocumentsApi.mockDocuments out.2)
    = DocumentsApi.scraped_files (DocumentsApi.mockDocuments st)
  ∧ DocumentsApi.total_files (DocumentsApi.mockDocuments out.2)
    = DocumentsApi.total_files (DocumentsApi.mockDocuments st)
  ∧ DocumentsApi.mockStats out.2 = DocumentsApi.mockStats st
  ∧ ∀ (w' : world) (r' : request),
      DocumentsApi.handler eng w' out.2 r' = DocumentsApi.handler eng w' st r'.
Proof.
  intros Hdel. cbv zeta.
  rewrite (handler_delete_state eng w st r Hdel).
  split; [|by split_and!].
  pose proof Hdel as Hd. unfold DocumentsApi.is_delete in Hd.
  apply andb_prop in Hd as [Hm%String.eqb_eq _].
  unfold DocumentsApi.handler, DocumentsApi.is_processed, DocumentsApi.is_stats,
    DocumentsApi.is_upload. rewrite Hdel, Hm.
  cbn [String.eqb Ascii.eqb Bool.eqb andb].
  unfold DocumentsApi.delete_try.
  by destruct (decodeURIComponent eng _).
Qed.

Lemma delete_acknowledges_and_removes_nothing_witness :
  let out := DocumentsApi.handler engine0 world_up state0 delete_sample in
  (status out.1 = 200%Z
   ∧ body_field "success" out.1 = Some (Bool true)
   ∧ body_field "message" out.1
     = Some (Str ("Document " ++ "sample-document.pdf" ++ " deleted successfully")))
  ∧ out.2 = state0
  ∧ DocumentsApi.upload_files (DocumentsApi.mockDocuments out.2)
    = DocumentsApi.upload_files (DocumentsApi.mockDocuments state0)
  ∧ DocumentsApi.scraped_files (DocumentsApi.mockDocuments out.2)
    = DocumentsApi.scraped_files (DocumentsApi.mockDocuments state0)
  ∧ DocumentsApi.total_files (DocumentsApi.mockDocuments out.2)
    = DocumentsApi.total_files (DocumentsApi.mockDocuments state0)
  ∧ DocumentsApi.mockStats out.2 = DocumentsApi.mockStats state0
  ∧ ∀ (w' : world) (r' : request),
      DocumentsApi.handler engine0 w' out.2 r' = DocumentsApi.handler engine0 w' state0 r'.
Proof.
  exact (delete_acknowledges_and_removes_nothing engine0 world_up state0 delete_sample
           eq_refl).
Defined.

(** C3 as the claim words it fails.  [DELETE
    /api/documents/delete/sample-document.pdf] is answered 200 "Document
    sample-document.pdf deleted successfully", yet the registry row is not
    removed: the document is still in [upload_files], the totals still
    count it, and the listing served afterwards still shows it. *)
Lemma delete_leaves_document_listed :
  DocumentsApi.is_delete delete_sample = true
  ∧ status (DocumentsApi.handler engine0 world_up state0 delete_sample).1 = 200%Z
  ∧ body_field "message" (DocumentsApi.handler engine0 world_up state0 delete_sample).1
    = Some (Str "Document sample-document.pdf deleted successfully")
  ∧ (DocumentsApi.handler engine0 world_up state0 delete_sample).2 = state0
  ∧ "sample-document.pdf"
    ∈ DocumentsApi.filename
        <$> DocumentsApi.upload_files
              (DocumentsApi.mockDocuments
                 (DocumentsApi.handler engine0 world_up state0 delete_sample).2)
  ∧ DocumentsApi.total_files
      (DocumentsApi.mockDocuments
         (DocumentsApi.handler engine0 world_up state0 delete_sample).2) = 2%Z
  ∧ (DocumentsApi.handler engine0 world_up
       (DocumentsApi.handler engine0 world_up state0 delete_sample).2 get_processed).1
    = (DocumentsApi.handler engine0 world_up state0 get_processed).1.
Proof.
  repeat split; try reflexivity.
  rewrite (handler_delete_state engine0 world_up state0 delete_sample eq_refl).
  cbn. apply list_elem_of_here.
Qed.

(** C8, as the code has it.  The upload handler never looks at the file.
    Every POST on the upload route, an image or a recording without text
    included, succeeds: 200, [success: true], [processed: true]; and it
    always reports the same sample text, [chunks_created: 5] and
    [embeddings_generated: true], never zero chunks. *)
Theorem upload_reports_fixed_processing_result
    (eng : engine) (w : world) (st : DocumentsApi.state) (r : request) :
  DocumentsApi.is_upload r = true →
  status (DocumentsApi.handler eng w st r).1 = 200%Z
  ∧ body_field "success" (DocumentsApi.handler eng w st r).1 = Some (Bool true)
  ∧ body_field "processed" (DocumentsApi.handler eng w st r).1 = Some (Bool true)
  ∧ body_field "processing_result" (DocumentsApi.handler eng w st r).1
    = Some (Obj [("text", Str DocumentsApi.sampleText);
                 ("chunks_created", Num 5);
                 ("embeddings_generated", Bool true)]).
Proof.
  intros H. rewrite (handler_upload eng w st r H). by repeat split.
Qed.

Lemma upload_reports_fixed_processing_result_witness :
  status (DocumentsApi.handler engine0 world_up state0 upload_blank_image).1 = 200%Z
  ∧ body_field "success" (DocumentsApi.handler engine0 world_up state0 upload_blank_image).1
    = Some (Bool true)
  ∧ body_field "processed" (DocumentsApi.handler engine0 world_up state0 upload_blank_image).1
    = Some (Bool true)
  ∧ body_field "processing_result"
      (DocumentsApi.handler engine0 world_up state0 upload_blank_image).1
    = Some (Obj [("text", Str DocumentsApi.sampleText);
                 ("chunks_created", Num 5);
                 ("embeddings_generated", Bool true)]).
Proof.
  apply (upload_reports_fixed_processing_result engine0 world_up state0
           upload_blank_image).
  reflexivity.
Defined.

(** C8 as the claim words it fails: the upload of [blank.png], an image
    without text, succeeds, but five chunks are reported, not zero, and
    the text returned is not empty. *)
Lemma blank_image_reports_five_chunks :
  status (DocumentsApi.handler engine0 world_up state0 upload_blank_image).1 = 200%Z
  ∧ (body_field "processing_result"
       (DocumentsApi.handler engine0 world_up state0 upload_blank_image).1
     ≫= λ v, get v "chunks_created") = Some (Num 5)
  ∧ (body_field "processing_result"
       (DocumentsApi.handler engine0 world_up state0 upload_blank_image).1
     ≫= λ v, get v "chunks_created") ≠ Some (Num 0)
  ∧ (body_field "processing_result"
       (DocumentsApi.handler engine0 world_up state0 upload_blank_image).1
     ≫= λ v, truthy <$> get v "text") = Some true.
Proof. repeat split; try reflexivity. vm_compute. discriminate. Qed.

(** * The chunker *)

Section chunker.

Import Chunker.

Variables target overlap : nat.
Hypothesis overlap_lt_target : overlap < target.

Lemma last_boundary_bounds (l : list token) (j : nat) :
  last_boundary l = Some j → 1 ≤ j ≤ length l.
Proof.
  revert j. induction l as [|t l IH]; intros j; cbn; [discriminate|].
  destruct (last_boundary l) as [j'|].
  - intros [= <-]. specialize (IH j' eq_refl). lia.
  - destruct (ends_sentence t); [|discriminate]. intros [= <-]. lia.
Qed.

(** A cut leaves more than the overlap and stays inside the window. *)
Lemma cut_bounds (window : list token) :
  overlap < length window →
  overlap < cut overlap window ≤ length window.
Proof.
  intros H. unfold cut.
  destruct (last_boundary window) as [j|] eqn:E; [|lia].
  apply last_boundary_bounds in E. case_decide; lia.
Qed.

(** With fuel left and tokens left, the first chunk starts at [start] and
    is a prefix of what is left, longer than the overlap whenever what is
    left is. *)
Lemma chunk_from_head (fuel start : nat) (rest : list token) :
  1 ≤ fuel → 1 ≤ length rest →
  ∃ c cs n,
    chunk_from fuel target overlap start rest = c :: cs
    ∧ chunk_start c = start
    ∧ chunk_tokens c = take n rest
    ∧ n ≤ length rest
    ∧ n ≤ target
    ∧ (overlap < length rest → overlap < n).
Proof.
  intros Hf Hr. destruct fuel as [|fuel]; [lia|]. cbn [chunk_from].
  case_decide as Hfit.
  - eexists _, [], (length rest). by rewrite take_ge.
  - pose proof (cut_bounds (take target rest)) as Hcut.
    rewrite length_take_le in Hcut by lia. specialize (Hcut overlap_lt_target).
    eexists _, _, _. repeat split; cbn; lia.
Qed.

(** The chunks cut from [rest]: none is longer than [target], and each
    shares [overlap] tokens with the next. *)
Lemma chunk_from_spec (fuel start : nat) (rest : list token) :
  1 ≤ length rest → length rest ≤ fuel →
  Forall (λ c, length (chunk_tokens c) ≤ target)
    (chunk_from fuel target overlap start rest)
  ∧ Sorted (shares overlap) (chunk_from fuel target overlap start rest).
Proof.
  revert start rest.
  induction fuel as [|fuel IH]; intros start rest Hr Hf; [lia|].
  cbn [chunk_from]. case_decide as Hfit.
  - split; repeat constructor. by cbn.
  - pose proof (cut_bounds (take target rest)) as Hcut.
    rewrite length_take_le in Hcut by lia. specialize (Hcut overlap_lt_target).
    set (j := cut overlap (take target rest)) in *.
    assert (1 ≤ length (drop (j - overlap) rest)) as Hr' by (rewrite length_drop; lia).
    assert (length (drop (j - overlap) rest) ≤ fuel) as Hf' by (rewrite length_drop; lia).
    destruct (IH (start + (j - overlap)) (drop (j - overlap) rest) Hr' Hf')
      as [Hlen Hsorted].
    split.
    + constructor; [|done]. cbn. rewrite length_take. lia.
    + constructor; [done|].
      destruct (chunk_from_head fuel (start + (j - overlap)) (drop (j - overlap) rest))
        as (c & cs & n & -> & Hstart & Htok & Hn & _ & Hov); [lia|lia|].
      constructor. unfold shares. cbn.
      rewrite Hstart, Htok, !length_take, length_drop.
      rewrite length_drop in Hn, Hov.
      repeat split; try lia.
      rewrite take_take, take_drop_commute.
      replace (overlap `min` n) with overlap by lia.
      replace (j `min` length rest) with j by lia.
      by replace (j - overlap + overlap) with j by lia.
Qed.

(** The chunks cover the document: the last one ends where [rest] ends. *)
Lemma chunk_from_covers (fuel start : nat) (rest : list token) :
  1 ≤ length rest → length rest ≤ fuel →
  ∃ c, last (chunk_from fuel target overlap start rest) = Some c
       ∧ chunk_start c + length (chunk_tokens c) = start + length rest.
Proof.
  revert start rest.
  induction fuel as [|fuel IH]; intros start rest Hr Hf; [lia|].
  cbn [chunk_from]. case_decide as Hfit.
  - eexists. split; [reflexivity|]. by cbn.
  - pose proof (cut_bounds (take target rest)) as Hcut.
    rewrite length_take_le in Hcut by lia. specialize (Hcut overlap_lt_target).
    set (j := cut overlap (take target rest)) in *.
    destruct (IH (start + (j - overlap)) (drop (j - overlap) rest))
      as (c & Hlast & Hend); [rewrite length_drop; lia..|].
    exists c. rewrite length_drop in Hend. split; [|lia].
    destruct (chunk_from fuel target overlap _ _); [discriminate|done].
Qed.

End chunker.

Lemma Sorted_lookup_succ {A} (R : relation A) (l : list A) (i : nat) (a b : A) :
  Sorted R l → l !! i = Some a → l !! S i = Some b → R a b.
Proof.
  intros Hs. revert i. induction Hs as [|x l Hs IH Hhd]; intros i; [done|].
  destruct i as [|i]; cbn.
  - intros [= ->] Hb. destruct Hhd as [|y l' Hxy]; [done|]. cbn in Hb. congruence.
  - apply IH.
Qed.

(** C6.  For every sequence of spans and every configuration with
    [overlap_tokens < target_tokens], the chunker returns chunks (at least
    one when the document has a token), every chunk has at most
    [target_tokens] tokens, and every chunk but the last shares
    [overlap_tokens] tokens with the next: its last [overlap_tokens] tokens
    are the first ones of the next chunk, at the same place of the
    document. *)
Theorem chunk_bounded_and_overlapping
    (spans : list (list Chunker.token)) (target_tokens overlap_tokens : nat) :
  overlap_tokens < target_tokens →
  ∃ chunks,
    Chunker.chunk spans target_tokens overlap_tokens = inr chunks
    ∧ (Chunker.document_tokens spans ≠ [] → chunks ≠ [])
    ∧ (∀ c, c ∈ chunks → length (Chunker.chunk_tokens c) ≤ target_tokens)
    ∧ (∀ i c1 c2,
         chunks !! i = Some c1 → chunks !! S i = Some c2 →
         Chunker.shares overlap_tokens c1 c2).
Proof.
  intros Hlt. unfold Chunker.chunk. rewrite decide_True by done.
  eexists. split; [reflexivity|].
  destruct (Chunker.document_tokens spans) as [|t ts] eqn:E.
  - split_and!; [done|intros c Hc; by apply elem_of_nil in Hc|intros; done].
  - rewrite <- E.
    assert (1 ≤ length (Chunker.document_tokens spans)) as Hr by (rewrite E; cbn; lia).
    destruct (chunk_from_spec target_tokens overlap_tokens Hlt
                (length (Chunker.document_tokens spans)) 0
                (Chunker.document_tokens spans) Hr (le_n _)) as [Hlen Hsorted].
    destruct (chunk_from_head target_tokens overlap_tokens Hlt
                (length (Chunker.document_tokens spans)) 0
                (Chunker.document_tokens spans) Hr Hr) as (c & cs & n & Hc & _).
    split_and!.
    + intros _. by rewrite Hc.
    + intros c' Hc'. by apply (proj1 (Forall_forall _ _) Hlen).
    + intros i c1 c2. by apply Sorted_lookup_succ.
Qed.

(** * The vector store *)

Section upsert.

Import VectorStore.

Context {Vec Meta : Type}.
Implicit Types (s : gmap nat (@entry Vec Meta)) (cs : list (nat * Vec * Meta)).

(** A chunk id outside the chunk set keeps what the store had. *)
Lemma upsert_document_other (d : nat) cs s (k : nat) :
  k ∉ (λ c, c.1.1) <$> cs →
  upsert_document d cs s !! k = s !! k.
Proof.
  unfold upsert_document.
  revert s. induction cs as [|c cs IH]; intros s Hk; [done|].
  rewrite fmap_cons, not_elem_of_cons in Hk. destruct Hk as [Hne Hk].
  cbn. rewrite (IH _ Hk). unfold upsert. by rewrite lookup_insert_ne.
Qed.

(** What ends up under a chunk id depends on the store only when the
    chunk set does not name the id. *)
Lemma upsert_document_lookup (d : nat) cs s1 s2 (k : nat) :
  s1 !! k = s2 !! k ∨ k ∈ (λ c, c.1.1) <$> cs →
  upsert_document d cs s1 !! k = upsert_document d cs s2 !! k.
Proof.
  unfold upsert_document.
  revert s1 s2. induction cs as [|c cs IH]; intros s1 s2 H.
  - destruct H as [H|H]; [done|]. by apply elem_of_nil in H.
  - cbn. apply IH. unfold upsert.
    destruct (decide (c.1.1 = k)) as [->|Hne].
    + left. by rewrite !lookup_insert_eq.
    + rewrite !lookup_insert_ne by done.
      destruct H as [H|H]; [by left|right].
      rewrite fmap_cons, elem_of_cons in H. by destruct H as [->|H].
Qed.

Lemma upsert_document_twice (d : nat) cs s :
  upsert_document d cs (upsert_document d cs s) = upsert_document d cs s.
Proof.
  apply map_eq. intros k. apply upsert_document_lookup.
  destruct (decide (k ∈ (λ c, c.1.1) <$> cs)) as [Hin|Hout]; [by right|left].
  by apply upsert_document_other.
Qed.

End upsert.

(** C7.  Upserting the full chunk set of a document a second time leaves
    the store as the first upsert left it, hence the document's queryable
    content and the answer to every query; and upserting under a chunk id
    the store already has replaces the entry (document, vector, metadata)
    without adding a record. *)
Theorem upsert_is_idempotent
    {Vec Meta Score : Type} `{EqDecision Score}
    (similarity : Vec → Vec → Score)
    (score_le : relation Score) `{!RelDecision score_le}
    (document_id : nat) (chunks : list (nat * Vec * Meta))
    (s : gmap nat (@VectorStore.entry Vec Meta)) :
  let once := VectorStore.upsert_document document_id chunks s in
  let twice := VectorStore.upsert_document document_id chunks once in
  twice = once
  ∧ VectorStore.document_content document_id twice
    = VectorStore.document_content document_id once
  ∧ (∀ q k flt,
       VectorStore.query similarity score_le q k flt twice
       = VectorStore.query similarity score_le q k flt once)
  ∧ (∀ chunk_id v m,
       is_Some (s !! chunk_id) →
       size (VectorStore.upsert document_id chunk_id v m s) = size s
       ∧ VectorStore.upsert document_id chunk_id v m s !! chunk_id
         = Some {| VectorStore.entry_document := document_id;
                   VectorStore.entry_vector := v;
                   VectorStore.entry_metadata := m |}).
Proof.
  cbv zeta. rewrite upsert_document_twice. split_and!; try done.
  intros chunk_id v m Hin. unfold VectorStore.upsert. split.
  - by apply map_size_insert_Some.
  - apply lookup_insert_eq.
Qed.

Section query.

Import VectorStore.

Context {Vec Meta Score : Type} `{EqDecision Score}.
Context (similarity : Vec → Vec → Score).
Context (score_le : relation Score) `{!RelDecision score_le}.
Context `{!PartialOrder score_le} `{!Total score_le}.

#[local] Existing Instance hit_le_dec.

#[local] Instance hit_le_total : Total (hit_le score_le).
Proof.
  intros h1 h2. unfold hit_le.
  destruct (decide (h1.2 = h2.2)) as [E|N].
  - rewrite decide_True by done. lia.
  - rewrite (decide_False (P := h2.2 = h1.2)) by done. apply (total score_le).
Qed.

#[local] Instance hit_le_trans : Transitive (hit_le score_le).
Proof.
  intros h1 h2 h3. unfold hit_le.
  destruct (decide (h1.2 = h2.2)) as [E12|N12];
    destruct (decide (h2.2 = h3.2)) as [E23|N23];
    destruct (decide (h1.2 = h3.2)) as [E13|N13];
    try congruence; try lia; intros H12 H23.
  - exfalso. apply N12.
    apply (anti_symm score_le); [by rewrite E13|done].
  - by trans h2.2.
Qed.

(** Merge sort puts the hits in their order. *)
Lemma sorted_hits (l : list (nat * Score)) :
  StronglySorted (hit_le score_le) (merge_sort (hit_le score_le) l).
Proof. apply StronglySorted_merge_sort; apply _. Qed.

(** In the order of the hits, an earlier hit has a score at least as high,
    and on equal scores the lower chunk id. *)
Lemma hit_le_scores (h1 h2 : nat * Score) :
  hit_le score_le h1 h2 →
  score_le h2.2 h1.2 ∧ (h1.2 = h2.2 → h1.1 ≤ h2.1).
Proof.
  unfold hit_le. destruct (decide (h1.2 = h2.2)) as [E|N]; [|done].
  intros Hid. split; [by rewrite E|done].
Qed.

(** Every hit is a stored chunk with its similarity to the query. *)
Lemma elem_of_hits (q : Vec) (flt : option (nat → entry → bool))
    (s : gmap nat (@entry Vec Meta)) (h : nat * Score) :
  h ∈ hits similarity q flt s →
  ∃ e, s !! h.1 = Some e ∧ h.2 = similarity q (entry_vector e).
Proof.
  unfold hits. rewrite list_elem_of_fmap. intros ([c e] & -> & Hin).
  apply list_elem_of_In, filter_In in Hin as [Hin _].
  apply list_elem_of_In, elem_of_map_to_list in Hin. by exists e.
Qed.

(** The hits name every chunk id at most once. *)
Lemma NoDup_hits (q : Vec) (flt : option (nat → entry → bool))
    (s : gmap nat (@entry Vec Meta)) :
  NoDup (hits similarity q flt s).*1.
Proof.
  unfold hits. rewrite <- list_fmap_compose.
  pose proof (NoDup_fst_map_to_list s) as Hnd.
  induction (map_to_list s) as [|kv l IH]; cbn; [constructor|].
  apply NoDup_cons in Hnd as [Hkv Hnd].
  destruct (match flt with Some f => f kv.1 kv.2 | None => true end);
    [|by apply IH].
  cbn. apply NoDup_cons. split; [|by apply IH].
  intros Hin. apply Hkv.
  apply list_elem_of_fmap in Hin as (kv' & Heq & Hin).
  apply list_elem_of_In, filter_In in Hin as [Hin _].
  apply list_elem_of_fmap. exists kv'. split; [done|]. by apply list_elem_of_In.
Qed.

(** So do the hits a query returns. *)
Lemma NoDup_found (q : Vec) (k : nat) (flt : option (nat → entry → bool))
    (s : gmap nat (@entry Vec Meta)) :
  NoDup (take k (merge_sort (hit_le score_le) (hits similarity q flt s))).*1.
Proof.
  rewrite fmap_take. eapply sublist_NoDup; [|apply sublist_take].
  rewrite merge_sort_Permutation. apply NoDup_hits.
Qed.

End query.

Lemma StronglySorted_lookup_lt {A} (R : relation A) (l : list A) (i j : nat) (a b : A) :
  StronglySorted R l → i < j → l !! i = Some a → l !! j = Some b → R a b.
Proof.
  intros Hs. revert i j. induction Hs as [|x l Hs IH Hall]; intros i j Hij; [done|].
  destruct j as [|j]; [lia|]. destruct i as [|i]; cbn.
  - intros [= ->] Hb. rewrite Forall_forall in Hall.
    apply Hall. by eapply list_elem_of_lookup_2.
  - apply IH. lia.
Qed.

(** C5.  For every query vector and every [k > 0] the store's query
    returns at most [k] hits, each a stored chunk with its similarity to
    the query, in order: a hit is never followed by one with a higher
    score, and of two hits with the same score the one with the lower
    chunk id comes first (no chunk id is returned twice).  For every [k <= 0] it fails with
    [InvalidArgument]. *)
Theorem query_returns_top_k
    {Vec Meta Score : Type} `{EqDecision Score}
    (similarity : Vec → Vec → Score)
    (score_le : relation Score) `{!RelDecision score_le}
    `{!PartialOrder score_le} `{!Total score_le}
    (q : Vec) (k : Z) (flt : option (nat → VectorStore.entry → bool))
    (s : gmap nat (@VectorStore.entry Vec Meta)) :
  ((0 < k)%Z →
   ∃ found,
     VectorStore.query similarity score_le q k flt s = inr found
     ∧ (Z.of_nat (length found) ≤ k)%Z
     ∧ (∀ h, h ∈ found →
          ∃ e, s !! h.1 = Some e
               ∧ h.2 = similarity q (VectorStore.entry_vector e))
     ∧ (∀ i j h1 h2,
          i < j → found !! i = Some h1 → found !! j = Some h2 →
          score_le h2.2 h1.2 ∧ (h1.2 = h2.2 → h1.1 < h2.1)))
  ∧ ((k ≤ 0)%Z →
     VectorStore.query similarity score_le q k flt s = inl InvalidArgument).
Proof.
  unfold VectorStore.query. split; intros Hk.
  - rewrite decide_False by lia. eexists. split; [reflexivity|].
    split_and!.
    + rewrite length_take. lia.
    + intros h Hh. apply (elem_of_hits similarity q flt s).
      apply subseteq_take in Hh.
      by rewrite merge_sort_Permutation in Hh.
    + intros i j h1 h2 Hij H1 H2.
      assert (h1.1 ≠ h2.1) as Hne.
      { intros Heq.
        pose proof (NoDup_found similarity score_le q (Z.to_nat k) flt s) as Hnd.
        assert (i = j); [|lia].
        apply (NoDup_lookup _ i j h1.1 Hnd); rewrite list_lookup_fmap.
        - by rewrite H1.
        - by rewrite H2, Heq. }
      cut (score_le h2.2 h1.2 ∧ (h1.2 = h2.2 → h1.1 ≤ h2.1)).
      { intros [Hs Ht]. split; [done|]. intros E. specialize (Ht E). lia. }
      apply (hit_le_scores score_le).
      eapply StronglySorted_lookup_lt with (i := i) (j := j); [|done..].
      pose proof (sorted_hits score_le (VectorStore.hits similarity q flt s)) as Hs.
      rewrite <- (take_drop (Z.to_nat k)) in Hs.
      by apply StronglySorted_app_1_l in Hs.
  - by rewrite decide_True.
Qed.

Lemma query_returns_top_k_witness :
  ((0 < 2)%Z →
   ∃ found,
     VectorStore.query dot Z.le [1; 0]%Z 2 None store0 = inr found
     ∧ (Z.of_nat (length found) ≤ 2)%Z
     ∧ (∀ h, h ∈ found →
          ∃ e, store0 !! h.1 = Some e
               ∧ h.2 = dot [1; 0]%Z (VectorStore.entry_vector e))
     ∧ (∀ i j h1 h2,
          i < j → found !! i = Some h1 → found !! j = Some h2 →
          (h2.2 ≤ h1.2)%Z ∧ (h1.2 = h2.2 → h1.1 < h2.1)))
  ∧ ((2 ≤ 0)%Z →
     VectorStore.query dot Z.le [1; 0]%Z 2 None store0 = inl InvalidArgument).
Proof. exact (query_returns_top_k dot Z.le [1; 0]%Z 2 None store0). Defined.

(** Chunks 1 and 3 are equally similar to the query: the lower id comes
    first; chunk 2 is cut off by [k = 2]; [k = 0] is refused. *)
Example query_store0 :
  VectorStore.query dot Z.le [1; 0]%Z 2 None store0 = inr [(1, 1%Z); (3, 1%Z)]
  ∧ VectorStore.query dot Z.le [1; 0]%Z 0 None store0 = inl InvalidArgument.
Proof. split; reflexivity. Qed.

Lemma chunk_bounded_and_overlapping_witness :
  ∃ c1 c2 c3,
    Chunker.chunk two_paragraphs 4 1 = inr [c1; c2; c3]
    ∧ length (Chunker.chunk_tokens c1) ≤ 4
    ∧ length (Chunker.chunk_tokens c2) ≤ 4
    ∧ length (Chunker.chunk_tokens c3) ≤ 4
    ∧ Chunker.shares 1 c1 c2
    ∧ Chunker.shares 1 c2 c3.
Proof.
  destruct (chunk_bounded_and_overlapping two_paragraphs 4 1)
    as (chunks & Hchunks & _ & Hlength & Hshares); [lia|].
  vm_compute in Hchunks. injection Hchunks as <-.
  do 3 eexists. split; [reflexivity|].
  split_and!;
    [apply Hlength; set_solver..
    |by apply (Hshares 0)
    |by apply (Hshares 1)].
Defined.

(** Eight tokens, at most four per chunk, one shared: the first two chunks
    are cut on the boundaries after "c" and "e", the third takes what is
    left; without boundaries the cuts are hard, every four tokens. *)
Example chunk_two_paragraphs :
  Chunker.chunk two_paragraphs 4 1
  = inr [{| Chunker.chunk_tokens := [word "a"; word "b"; stop "c"];
            Chunker.chunk_start := 0 |};
         {| Chunker.chunk_tokens := [stop "c"; word "d"; stop "e"];
            Chunker.chunk_start := 2 |};
         {| Chunker.chunk_tokens := [stop "e"; word "f"; word "g"; stop "h"];
            Chunker.chunk_start := 4 |}]
  ∧ Chunker.chunk_from 8 4 1 0 (word <$> ["a"; "b"; "c"; "d"; "e"; "f"; "g"; "h"])
    = [{| Chunker.chunk_tokens := word <$> ["a"; "b"; "c"; "d"];
          Chunker.chunk_start := 0 |};
       {| Chunker.chunk_tokens := word <$> ["d"; "e"; "f"; "g"];
          Chunker.chunk_start := 3 |};
       {| Chunker.chunk_tokens := word <$> ["g"; "h"];
          Chunker.chunk_start := 6 |}].
Proof. split; reflexivity. Qed.

(** A configuration whose overlap is not below the target is refused. *)
Example chunk_invalid_configuration :
  Chunker.chunk two_paragraphs 4 4 = inl InvalidConfiguration.
Proof. reflexivity. Qed.

(** * Sanity checks of the embedding *)

(** The string helpers on the routes the handlers test. *)
Example string_helpers :
  endsWith "/api/query/ask" "/ask" = true
  ∧ endsWith "/ask" "/api/query/ask" = false
  ∧ includes "/api/documents/delete/a.pdf" "/delete/" = true
  ∧ split_second "/delete/" "/api/documents/delete/a.pdf" = Some "a.pdf"
  ∧ split_second "/delete/" "/x/delete/a/delete/b" = Some "a"
  ∧ split_second "/delete/" "/api/documents/upload" = None.
Proof. repeat split; reflexivity. Qed.

(** Property reads: a later binding wins, a missing property is
    [undefined], reading a property of [null] throws. *)
Example property_reads :
  get (Obj [("query", Str "a"); ("query", Str "b")]) "query" = Some (Str "b")
  ∧ get (Obj []) "query" = Some Undefined
  ∧ get (Str "text") "query" = Some Undefined
  ∧ get Null "query" = None
  ∧ get_index (Arr [Num 1; Num 2]) 0 = Some (Num 1)
  ∧ get_index (Str "abc") 0 = Some (Str "a").
Proof. repeat split; reflexivity. Qed.

(** The ways a call to the generation service fails: the request is
    rejected, the status is not OK, the answer has no candidate. *)
Example callGeminiAPI_failures (eng : engine) :
  (QueryApi.callGeminiAPI eng (world_of (λ _, gemini_down)) [] "hello" (Str "coach")).1
  = inl (Error "fetch failed")
  ∧ (QueryApi.callGeminiAPI eng
       (world_of (λ _, FetchResponse false 503 (inr "overloaded") (inr Null)))
       [] "hello" (Str "coach")).1
    = inl (Error "Gemini API error: 503 - overloaded")
  ∧ (QueryApi.callGeminiAPI eng
       (world_of (λ _, FetchResponse true 200 (inr "") (inr (Obj [("candidates", Arr [])]))))
       [] "hello" (Str "coach")).1
    = inl (Error "Invalid response from Gemini API").
Proof. repeat split; reflexivity. Qed.

(** A well-formed answer is handed back with the agent and the model. *)
Example callGeminiAPI_answers (eng : engine) :
  (QueryApi.callGeminiAPI eng world_up [] "hello" (Str "strategist")).1
  = inr (Obj [("content", Str "Hello!");
              ("agent", Str "strategist");
              ("metadata",
                Obj [("model", Str "gemini-pro");
                     ("timestamp", Str "2023-11-14T22:13:20.000Z");
                     ("usage", Obj [])])]).
Proof. reflexivity. Qed.

(** The search route the front end calls has no branch in the query
    handler: it is answered 404. *)
Example search_route_is_not_found (eng : engine) (w : world) (b : value) :
  QueryApi.handler eng w (post "/api/query/search" b)
  = (json_response QueryApi.allow_methods 404 QueryApi.not_found, []).
Proof. reflexivity. Qed.

(** * Property lists and maps *)

Lemma own_app (k : string) (l1 l2 : list (string * value)) :
  own k (l1 ++ l2) = match own k l2 with
                     | Some x => Some x
                     | None => own k l1
                     end.
Proof.
  induction l1 as [|[k1 v1] l1 IH]; cbn.
  - by destruct (own k l2).
  - rewrite IH. by destruct (own k l2).
Qed.

Lemma own_Some_elem_of (k : string) (l : list (string * value)) (v : value) :
  own k l = Some v → (k, v) ∈ l.
Proof.
  induction l as [|[k1 v1] l IH]; cbn; [done|].
  destruct (own k l) as [x|].
  - intros [= ->]. right. by apply IH.
  - destruct (String.eqb_spec k1 k) as [->|]; [|done]. intros [= ->]. left.
Qed.

Lemma own_None_not_elem_of (k : string) (l : list (string * value)) :
  own k l = None ↔ k ∉ l.*1.
Proof.
  induction l as [|[k1 v1] l IH]; cbn.
  - split; [intros _; apply not_elem_of_nil|done].
  - rewrite not_elem_of_cons. destruct (own k l) as [x|].
    + split; [done|]. intros [_ H]. by apply IH in H.
    + destruct (String.eqb_spec k1 k) as [->|Hne].
      * split; [discriminate|]. by intros [H _].
      * split; [|done]. intros _. split; [congruence|]. by apply IH.
Qed.

(** On a property list without repeated names, [own] is membership. *)
Lemma own_NoDup (k : string) (l : list (string * value)) (v : value) :
  NoDup l.*1 → (k, v) ∈ l → own k l = Some v.
Proof.
  induction l as [|[k1 v1] l IH]; intros Hnd Hin; [by apply elem_of_nil in Hin|].
  rewrite fmap_cons in Hnd. cbn [fst own] in *.
  apply NoDup_cons in Hnd as [Hk1 Hnd]. apply elem_of_cons in Hin as [[= -> ->]|Hin].
  - apply own_None_not_elem_of in Hk1. rewrite Hk1. by rewrite String.eqb_refl.
  - by rewrite (IH Hnd Hin).
Qed.

(** The properties of a section read back from its property list. *)
Lemma own_map_to_list (k : string) (m : gmap string value) :
  own k (map_to_list m) = m !! k.
Proof.
  destruct (m !! k) as [v|] eqn:E.
  - apply own_NoDup; [apply NoDup_fst_map_to_list|]. by apply elem_of_map_to_list.
  - apply own_None_not_elem_of. intros Hin.
    apply list_elem_of_fmap in Hin as ([k' v] & -> & Hin).
    apply elem_of_map_to_list in Hin. cbn in *. congruence.
Qed.

(** What [JSON.stringify] keeps of an object's properties, read by name. *)
Lemma own_jsonify_fields (k : string) (l : list (string * value)) :
  NoDup l.*1 →
  own k (List.flat_map
           (λ kv, match kv with
                  | (_, Undefined) => []
                  | (k, x) => [(k, jsonify x)]
                  end) l)
  = match own k l with
    | Some Undefined | None => None
    | Some v => Some (jsonify v)
    end.
Proof.
  induction l as [|[k1 v1] l IH]; intros Hnd; [done|].
  rewrite fmap_cons in Hnd. cbn [fst] in Hnd.
  apply NoDup_cons in Hnd as [Hk1 Hnd]. specialize (IH Hnd).
  cbn [List.flat_map]. rewrite own_app, IH. cbn [own].
  destruct (own k l) as [x|] eqn:E.
  - assert (k1 ≠ k) as Hne.
    { intros ->. apply Hk1. apply own_Some_elem_of in E.
      apply list_elem_of_fmap. by exists (k, x). }
    apply String.eqb_neq in Hne.
    destruct x; try done; destruct v1; cbn; by rewrite ?Hne.
  - destruct v1; cbn; by destruct (String.eqb k1 k).
Qed.

(** * The settings API *)

Section settings_api.

Import SettingsHandler.

Variable eng : engine.
Variable units : string → list string.
Variable w : world.

(** A property of the merged section is the source's when the source has
    it, the target's otherwise. *)
Lemma copy_lookup (target : gmap string value) (fields : list (string * value))
    (k : string) :
  k ≠ "__proto__" →
  foldl (λ acc kv, if String.eqb kv.1 "__proto__" then acc else <[kv.1 := kv.2]> acc)
    target fields !! k
  = match own k fields with
    | Some v => Some v
    | None => target !! k
    end.
Proof.
  intros Hk.
  revert target. induction fields as [|[k1 v1] fields IH]; intros target; [done|].
  cbn [foldl own fst snd]. rewrite IH.
  destruct (own k fields) as [x|]; [done|].
  destruct (String.eqb_spec k1 k) as [->|Hne].
  - apply String.eqb_neq in Hk. rewrite Hk. apply lookup_insert_eq.
  - destruct (String.eqb k1 "__proto__"); [done|]. by apply lookup_insert_ne.
Qed.

(** Setting [__proto__] touches no property of another name. *)
Lemma set_proto_lookup (target : object) (v : value) (k : string) :
  k ≠ "__proto__" →
  own_properties (set_proto target v) !! k = own_properties target !! k.
Proof.
  intros Hk. unfold set_proto.
  destruct (own_properties target !! "__proto__"), (inherits_setter target);
    cbn [own_properties]; by rewrite ?lookup_insert_ne.
Qed.

Lemma assign_lookup (target : object) (fields : list (string * value))
    (k : string) :
  k ≠ "__proto__" →
  own_properties (assign units target (Obj fields)) !! k
  = match own k fields with
    | Some v => Some v
    | None => own_properties target !! k
    end.
Proof.
  intros Hk. unfold assign. cbn [own_entries].
  destruct (own "__proto__" fields);
    rewrite ?set_proto_lookup by done; cbn [own_properties];
    by apply copy_lookup.
Qed.

Lemma section_of_with_section_eq (s : section_name) (m : object)
    (st : settings) :
  section_of s (with_section s m st) = m.
Proof. by destruct s. Qed.

Lemma section_of_with_section_ne (s s' : section_name) (m : object)
    (st : settings) :
  s' ≠ s → section_of s' (with_section s m st) = section_of s' st.
Proof. by destruct s, s'. Qed.

Lemma with_section_same (s : section_name) (st : settings) :
  with_section s (section_of s st) st = st.
Proof. by destruct s, st. Qed.

Lemma handler_post (st : settings) (s : section_name) (r : request) :
  method r = "POST" → section_url s (url r) →
  handler eng units w st r = post_section eng units s st r.
Proof.
  intros Hm Hu. unfold handler, is_get, is_post, is_database_stats,
    is_database_reset, is_export.
  rewrite Hm. destruct s, Hu as [-> | ->]; reflexivity.
Qed.

Lemma handler_get (st : settings) (s : section_name) (r : request) :
  method r = "GET" → section_url s (url r) →
  handler eng units w st r = get_section (own_properties (section_of s st)) st.
Proof.
  intros Hm Hu. unfold handler, is_get, is_post, is_database_stats,
    is_database_reset, is_export.
  rewrite Hm. destruct s, Hu as [-> | ->]; reflexivity.
Qed.

End settings_api.

Section settings_properties.

Import SettingsHandler.

Variable eng : engine.
Variable units : string → list string.

(** What a GET of a section shows of one property. *)
Lemma get_section_field (m : gmap string value) (st : settings) (k : string) :
  body_field k (get_section m st).1
  = match m !! k with
    | Some Undefined | None => None
    | Some v => Some (jsonify v)
    end.
Proof.
  unfold get_section, body_field, json_response, section_json. cbn.
  rewrite own_jsonify_fields by apply NoDup_fst_map_to_list.
  by rewrite own_map_to_list.
Qed.

(** Every branch but the POST branches and the reset leaves the settings
    as they are; a POST branch is the only one to answer 400. *)
Lemma handler_cases (w : world) (st : settings) (r : request) :
  ((handler eng units w st r).2 = st
   ∧ (status (handler eng units w st r).1 = 200%Z
      ∨ status (handler eng units w st r).1 = 404%Z))
  ∨ (method r = "POST"
     ∧ ∃ s, handler eng units w st r = post_section eng units s st r)
  ∨ (method r = "POST"
     ∧ status (handler eng units w st r).1 = 200%Z
     ∧ ∀ s, section_of s (handler eng units w st r).2 = section_of s st).
Proof.
  set (Q := λ out : response * settings,
         (out.2 = st ∧ (status out.1 = 200%Z ∨ status out.1 = 404%Z))
         ∨ (method r = "POST" ∧ ∃ s, out = post_section eng units s st r)
         ∨ (method r = "POST" ∧ status out.1 = 200%Z
            ∧ ∀ s, section_of s out.2 = section_of s st)).
  change (Q (handler eng units w st r)). unfold handler.
  assert (∀ n, is_post n r = true → method r = "POST") as Hpost.
  { intros n E. apply andb_prop in E as [E _]. by apply String.eqb_eq in E. }
  assert (is_database_reset r = true → method r = "POST") as Hreset.
  { intros E. apply andb_prop in E as [E _]. by apply String.eqb_eq in E. }
  repeat match goal with
         | |- Q (if ?c then _ else _) => let E := fresh "E" in destruct c eqn:E
         end;
    subst Q; cbn beta;
    first [ left; cbn; by eauto
          | right; left; by eauto
          | right; right; split_and!; [by eauto|done|by intros []] ].
Qed.

End settings_properties.

(** X1.  Settings round trip: after a POST that merges an object into a
    section, a GET of that section shows, for every property name other
    than [__proto__], the posted value when the body has the property (an
    [undefined] value hides it) and what the GET showed before otherwise. *)
Theorem settings_update_round_trip
    (eng : engine) (units : string → list string) (w w' : world)
    (st : SettingsHandler.settings) (s : SettingsHandler.section_name)
    (update read : request) (fields : list (string * value)) (k : string) :
  method update = "POST" →
  SettingsHandler.section_url s (url update) →
  SettingsHandler.read_body eng update = inr (Obj fields) →
  method read = "GET" →
  SettingsHandler.section_url s (url read) →
  k ≠ "__proto__" →
  body_field k
    (SettingsHandler.handler eng units w'
       (SettingsHandler.handler eng units w st update).2 read).1
  = match own k fields with
    | Some Undefined => None
    | Some v => Some (jsonify v)
    | None => body_field k (SettingsHandler.handler eng units w' st read).1
    end.
Proof.
  intros Hm Hu Hb Hm' Hu' Hk.
  rewrite (handler_post eng units w st s update Hm Hu).
  rewrite !(handler_get eng units w' _ s read Hm' Hu').
  unfold SettingsHandler.post_section. rewrite Hb. cbn [snd].
  rewrite !get_section_field, section_of_with_section_eq.
  rewrite (assign_lookup units _ fields k Hk).
  by destruct (own k fields).
Qed.

Lemma settings_update_round_trip_witness :
  body_field "overlap_size"
    (SettingsHandler.handler engine0 units0 world_up
       (SettingsHandler.handler engine0 units0 world_up
          SettingsHandler.mockSettings post_documents).2 get_documents).1
  = match own "overlap_size" [("chunk_size", Num 256); ("overlap_size", Num 300)] with
    | Some Undefined => None
    | Some v => Some (jsonify v)
    | None =>
        body_field "overlap_size"
          (SettingsHandler.handler engine0 units0 world_up
             SettingsHandler.mockSettings get_documents).1
    end.
Proof.
  apply (settings_update_round_trip engine0 units0 world_up world_up
           SettingsHandler.mockSettings SettingsHandler.Documents
           post_documents get_documents).
  - reflexivity.
  - by left.
  - reflexivity.
  - reflexivity.
  - by right.
  - discriminate.
Defined.

(** The document settings are stored as posted, an overlap above the chunk
    size included. *)
Example settings_accept_any_chunking :
  body_field "chunk_size"
    (SettingsHandler.handler engine0 units0 world_up
       (SettingsHandler.handler engine0 units0 world_up
          SettingsHandler.mockSettings post_documents).2 get_documents).1
  = Some (Num 256)
  ∧ body_field "overlap_size"
      (SettingsHandler.handler engine0 units0 world_up
         (SettingsHandler.handler engine0 units0 world_up
            SettingsHandler.mockSettings post_documents).2 get_documents).1
    = Some (Num 300)
  ∧ body_field "auto_ocr"
      (SettingsHandler.handler engine0 units0 world_up
         (SettingsHandler.handler engine0 units0 world_up
            SettingsHandler.mockSettings post_documents).2 get_documents).1
    = Some (Bool true).
Proof. repeat split; vm_compute; reflexivity. Qed.

(** X2.  A settings update is local: a POST to a section, whatever the
    body, is answered 200 with the section's success message, the section
    becomes [Object.assign(section, body)] (a [__proto__] property of the
    body goes to the prototype setter while the section inherits it, and
    becomes an own property once it does not), and every other section and
    the database statistics stay as they were. *)
Theorem settings_update_is_local
    (eng : engine) (units : string → list string) (w : world)
    (st : SettingsHandler.settings) (s : SettingsHandler.section_name)
    (r : request) (b : value) :
  method r = "POST" →
  SettingsHandler.section_url s (url r) →
  SettingsHandler.read_body eng r = inr b →
  let out := SettingsHandler.handler eng units w st r in
  status out.1 = 200%Z
  ∧ body_field "success" out.1 = Some (Bool true)
  ∧ body_field "message" out.1 = Some (Str (SettingsHandler.updated s))
  ∧ SettingsHandler.section_of s out.2
    = SettingsHandler.assign units (SettingsHandler.section_of s st) b
  ∧ (∀ s', s' ≠ s →
       SettingsHandler.section_of s' out.2 = SettingsHandler.section_of s' st)
  ∧ SettingsHandler.database_stats out.2 = SettingsHandler.database_stats st.
Proof.
  intros Hm Hu Hb. cbv zeta. rewrite (handler_post eng units w st s r Hm Hu).
  unfold SettingsHandler.post_section. rewrite Hb. cbn [fst snd].
  split_and!; try done.
  - apply section_of_with_section_eq.
  - intros s' Hne. by apply section_of_with_section_ne.
Qed.

Lemma settings_update_is_local_witness :
  let out := SettingsHandler.handler engine0 units0 world_up
               SettingsHandler.mockSettings post_documents in
  status out.1 = 200%Z
  ∧ body_field "success" out.1 = Some (Bool true)
  ∧ body_field "message" out.1
    = Some (Str (SettingsHandler.updated SettingsHandler.Documents))
  ∧ SettingsHandler.section_of SettingsHandler.Documents out.2
    = SettingsHandler.assign units0
        (SettingsHandler.section_of SettingsHandler.Documents
           SettingsHandler.mockSettings)
        (Obj [("chunk_size", Num 256); ("overlap_size", Num 300)])
  ∧ (∀ s', s' ≠ SettingsHandler.Documents →
       SettingsHandler.section_of s' out.2
       = SettingsHandler.section_of s' SettingsHandler.mockSettings)
  ∧ SettingsHandler.database_stats out.2
    = SettingsHandler.database_stats SettingsHandler.mockSettings.
Proof.
  apply (settings_update_is_local engine0 units0 world_up
           SettingsHandler.mockSettings SettingsHandler.Documents post_documents).
  - reflexivity.
  - by left.
  - reflexivity.
Defined.

(** What [__proto__] in a posted body does.  Posted to the profile as
    loaded, [{"__proto__": "x", "language": "fr"}] sets the language and
    creates no [__proto__] property.  After [{"__proto__": null}], which
    leaves what a GET serves as it was but takes the prototype away, the
    same body creates an own [__proto__] property, and the GET serves
    it. *)
Example proto_in_a_posted_body :
  let post_to st r := (SettingsHandler.handler engine0 units0 world_up st r).2 in
  let served st := (SettingsHandler.handler engine0 units0 world_up st get_profile).1 in
  let st1 := post_to SettingsHandler.mockSettings post_profile_no_prototype in
  body_field "__proto__" (served (post_to SettingsHandler.mockSettings post_profile_proto))
  = None
  ∧ body_field "language" (served (post_to SettingsHandler.mockSettings post_profile_proto))
    = Some (Str "fr")
  ∧ body (served st1) = body (served SettingsHandler.mockSettings)
  ∧ SettingsHandler.inherits_setter (SettingsHandler.profile st1) = false
  ∧ body_field "__proto__" (served (post_to st1 post_profile_proto)) = Some (Str "x")
  ∧ body_field "language" (served (post_to st1 post_profile_proto)) = Some (Str "fr").
Proof. repeat split; vm_compute; reflexivity. Qed.

(** X3.  A settings update whose body cannot be read or parsed is answered
    400 with [success: false] and a [detail] made of the section's prefix
    and the error's message; the settings are left untouched. *)
Theorem settings_update_invalid_body
    (eng : engine) (units : string → list string) (w : world)
    (st : SettingsHandler.settings) (s : SettingsHandler.section_name)
    (r : request) (e : js_error) :
  method r = "POST" →
  SettingsHandler.section_url s (url r) →
  SettingsHandler.read_body eng r = inl e →
  let out := SettingsHandler.handler eng units w st r in
  status out.1 = 400%Z
  ∧ body_field "success" out.1 = Some (Bool false)
  ∧ body_field "detail" out.1 = Some (Str (SettingsHandler.invalid s ++ message e))
  ∧ out.2 = st.
Proof.
  intros Hm Hu Hb. cbv zeta. rewrite (handler_post eng units w st s r Hm Hu).
  unfold SettingsHandler.post_section. by rewrite Hb.
Qed.

Lemma settings_update_invalid_body_witness :
  let out := SettingsHandler.handler engine0 units0 world_up
               SettingsHandler.mockSettings post_profile_garbage in
  status out.1 = 400%Z
  ∧ body_field "success" out.1 = Some (Bool false)
  ∧ body_field "detail" out.1
    = Some (Str (SettingsHandler.invalid SettingsHandler.Profile
                 ++ message (Error "Unexpected end of JSON input")))
  ∧ out.2 = SettingsHandler.mockSettings.
Proof.
  apply (settings_update_invalid_body engine0 units0 world_up
           SettingsHandler.mockSettings SettingsHandler.Profile
           post_profile_garbage (Error "Unexpected end of JSON input")).
  - reflexivity.
  - by left.
  - reflexivity.
Defined.

(** X4.  A settings update whose body is [null], a number or a boolean is
    accepted: it is answered 200 with [success: true] and changes
    nothing. *)
Theorem settings_update_primitive_body
    (eng : engine) (units : string → list string) (w : world)
    (st : SettingsHandler.settings) (s : SettingsHandler.section_name)
    (r : request) (b : value) :
  method r = "POST" →
  SettingsHandler.section_url s (url r) →
  SettingsHandler.read_body eng r = inr b →
  (b = Null ∨ (∃ x, b = Num x) ∨ (∃ c, b = Bool c)) →
  let out := SettingsHandler.handler eng units w st r in
  status out.1 = 200%Z
  ∧ body_field "success" out.1 = Some (Bool true)
  ∧ out.2 = st.
Proof.
  intros Hm Hu Hb Hkind. cbv zeta. rewrite (handler_post eng units w st s r Hm Hu).
  unfold SettingsHandler.post_section. rewrite Hb. cbn [fst snd].
  split_and!; try done.
  assert (SettingsHandler.assign units (SettingsHandler.section_of s st) b
          = SettingsHandler.section_of s st) as ->.
  { destruct (SettingsHandler.section_of s st).
    by destruct Hkind as [->|[[x ->]|[c ->]]]. }
  apply with_section_same.
Qed.

Lemma settings_update_primitive_body_witness :
  let out := SettingsHandler.handler engine0 units0 world_up
               SettingsHandler.mockSettings post_profile_null in
  status out.1 = 200%Z
  ∧ body_field "success" out.1 = Some (Bool true)
  ∧ out.2 = SettingsHandler.mockSettings.
Proof.
  apply (settings_update_primitive_body engine0 units0 world_up
           SettingsHandler.mockSettings SettingsHandler.Profile
           post_profile_null Null).
  - reflexivity.
  - by left.
  - reflexivity.
  - by left.
Defined.

(** X5.  The settings handler answers 200, 400 or 404 and nothing else;
    it answers 400 only to a POST whose body cannot be read or parsed, and
    whenever the settings change the request was a POST. *)
Theorem settings_statuses
    (eng : engine) (units : string → list string) (w : world)
    (st : SettingsHandler.settings) (r : request) :
  let out := SettingsHandler.handler eng units w st r in
  (status out.1 = 200%Z ∨ status out.1 = 400%Z ∨ status out.1 = 404%Z)
  ∧ (status out.1 = 400%Z →
     method r = "POST" ∧ ∃ e, SettingsHandler.read_body eng r = inl e)
  ∧ (out.2 ≠ st → method r = "POST").
Proof.
  cbv zeta.
  destruct (handler_cases eng units w st r)
    as [[Hst Hcode]|[[Hm [s Hs]]|(Hm & Hcode & _)]].
  - split_and!; [destruct Hcode; auto| |done].
    intros H400. destruct Hcode as [H|H]; rewrite H in H400; discriminate.
  - rewrite Hs. unfold SettingsHandler.post_section.
    destruct (SettingsHandler.read_body eng r) as [e|b]; cbn.
    + split_and!; [auto|eauto|done].
    + split_and!; [auto|discriminate|done].
  - split_and!; [auto| |done]. intros H400. rewrite Hcode in H400. discriminate.
Qed.

(** X6.  GET and OPTIONS requests are safe: whatever the URL, they leave
    the settings, and the documents state of either documents handler, as
    they were. *)
Theorem get_and_options_change_nothing
    (eng : engine) (units : string → list string) (w : world) (r : request)
    (settings : SettingsHandler.settings) (docs : DocumentsApi.state) :
  method r = "GET" ∨ method r = "OPTIONS" →
  (SettingsHandler.handler eng units w settings r).2 = settings
  ∧ (DocumentsApi.handler eng w docs r).2 = docs
  ∧ (DocumentsApiStatic.handler eng w docs r).2 = docs.
Proof.
  intros Hm. split_and!.
  - destruct (handler_cases eng units w settings r)
      as [[Hst _]|[[Hp _]|(Hp & _)]]; [done|..];
      destruct Hm as [Hm|Hm]; congruence.
  - unfold DocumentsApi.handler, DocumentsApi.is_upload, DocumentsApi.is_delete.
    destruct Hm as [-> | ->]; cbn;
      repeat match goal with |- context [if ?c then _ else _] => destruct c end;
      reflexivity.
  - unfold DocumentsApiStatic.handler, DocumentsApi.is_upload, DocumentsApi.is_delete.
    destruct Hm as [-> | ->]; cbn;
      repeat match goal with |- context [if ?c then _ else _] => destruct c end;
      reflexivity.
Qed.

Lemma get_and_options_change_nothing_witness :
  (SettingsHandler.handler engine0 units0 world_up SettingsHandler.mockSettings
     get_documents).2 = SettingsHandler.mockSettings
  ∧ (DocumentsApi.handler engine0 world_up state0 get_documents).2 = state0
  ∧ (DocumentsApiStatic.handler engine0 world_up state0 get_documents).2 = state0.
Proof.
  apply (get_and_options_change_nothing engine0 units0 world_up get_documents).
  by left.
Defined.

Section settings_database.

Import SettingsHandler.

Variable eng : engine.
Variable units : string → list string.

Lemma handler_reset (w : world) (st : settings) (r : request) :
  method r = "POST" →
  url r = "/api/settings/database/reset" ∨ url r = "/settings/database/reset" →
  handler eng units w st r
  = (json_response allow_methods 200
       (Obj [("success", Bool true); ("message", Str "Database reset successfully")]),
     {| profile := profile st; ai_config := ai_config st; documents := documents st;
        integrations := integrations st; security := security st;
        notifications := notifications st; database_stats := reset_stats;
        backup := backup st |}).
Proof.
  intros Hm Hu. unfold handler, is_get, is_post, is_database_stats,
    is_database_reset, is_export.
  rewrite Hm. by destruct Hu as [-> | ->].
Qed.

Lemma handler_database_stats (w : world) (st : settings) (r : request) :
  method r = "GET" →
  url r = "/api/settings/database/stats" ∨ url r = "/settings/database/stats" →
  handler eng units w st r = get_section (database_stats st) st.
Proof.
  intros Hm Hu. unfold handler, is_get, is_post, is_database_stats,
    is_database_reset, is_export.
  rewrite Hm. by destruct Hu as [-> | ->].
Qed.

Lemma handler_all (w : world) (st : settings) (r : request) :
  method r = "GET" →
  url r = "/api/settings/all" ∨ url r = "/settings/all" →
  handler eng units w st r = (json_response allow_methods 200 (all_json st), st).
Proof.
  intros Hm Hu. unfold handler, is_get. rewrite Hm. by destruct Hu as [-> | ->].
Qed.

End settings_database.

(** X7.  Resetting the database statistics: the POST is answered 200,
    replaces the statistics by the zeroed record whatever they were, and
    touches no section; a second reset changes nothing more; and the
    statistics then served are 0 documents, 0 embeddings, "0 MB",
    "Never". *)
Theorem database_reset_zeroes_stats
    (eng : engine) (units : string → list string) (w w' : world)
    (st : SettingsHandler.settings) (reset read : request) :
  method reset = "POST" →
  url reset = "/api/settings/database/reset" ∨ url reset = "/settings/database/reset" →
  method read = "GET" →
  url read = "/api/settings/database/stats" ∨ url read = "/settings/database/stats" →
  let out := SettingsHandler.handler eng units w st reset in
  let served := (SettingsHandler.handler eng units w' out.2 read).1 in
  status out.1 = 200%Z
  ∧ SettingsHandler.database_stats out.2 = SettingsHandler.reset_stats
  ∧ (∀ s, SettingsHandler.section_of s out.2 = SettingsHandler.section_of s st)
  ∧ (SettingsHandler.handler eng units w' out.2 reset).2 = out.2
  ∧ body_field "total_documents" served = Some (Num 0)
  ∧ body_field "total_embeddings" served = Some (Num 0)
  ∧ body_field "database_size" served = Some (Str "0 MB")
  ∧ body_field "last_backup" served = Some (Str "Never").
Proof.
  intros Hm Hu Hm' Hu'. cbv zeta.
  rewrite !(handler_reset eng units _ _ reset Hm Hu).
  rewrite (handler_database_stats eng units w' _ read Hm' Hu').
  cbn [fst snd]. rewrite !get_section_field.
  split_and!; try done; by intros [].
Qed.

Lemma database_reset_zeroes_stats_witness :
  let out := SettingsHandler.handler engine0 units0 world_up
               SettingsHandler.mockSettings post_reset in
  let served := (SettingsHandler.handler engine0 units0 world_up out.2
                   get_database_stats).1 in
  status out.1 = 200%Z
  ∧ SettingsHandler.database_stats out.2 = SettingsHandler.reset_stats
  ∧ (∀ s, SettingsHandler.section_of s out.2
          = SettingsHandler.section_of s SettingsHandler.mockSettings)
  ∧ (SettingsHandler.handler engine0 units0 world_up out.2 post_reset).2 = out.2
  ∧ body_field "total_documents" served = Some (Num 0)
  ∧ body_field "total_embeddings" served = Some (Num 0)
  ∧ body_field "database_size" served = Some (Str "0 MB")
  ∧ body_field "last_backup" served = Some (Str "Never").
Proof.
  apply (database_reset_zeroes_stats engine0 units0 world_up world_up
           SettingsHandler.mockSettings post_reset get_database_stats).
  - reflexivity.
  - by left.
  - reflexivity.
  - by left.
Defined.

(** X8.  The two views of the settings agree: what [GET /all] serves under
    a section's name is what a GET of that section serves, and what it
    serves under [database_stats] is what [GET /database/stats] serves. *)
Theorem all_settings_agree_with_sections
    (eng : engine) (units : string → list string) (w : world)
    (st : SettingsHandler.settings) (s : SettingsHandler.section_name)
    (all one stats : request) :
  method all = "GET" →
  url all = "/api/settings/all" ∨ url all = "/settings/all" →
  method one = "GET" →
  SettingsHandler.section_url s (url one) →
  method stats = "GET" →
  url stats = "/api/settings/database/stats" ∨ url stats = "/settings/database/stats" →
  body_field (SettingsHandler.json_key s) (SettingsHandler.handler eng units w st all).1
  = body (SettingsHandler.handler eng units w st one).1
  ∧ body_field "database_stats" (SettingsHandler.handler eng units w st all).1
    = body (SettingsHandler.handler eng units w st stats).1.
Proof.
  intros Hma Hua Hmo Huo Hms Hus.
  rewrite (handler_all eng units w st all Hma Hua).
  rewrite (handler_get eng units w st s one Hmo Huo).
  rewrite (handler_database_stats eng units w st stats Hms Hus).
  split; [by destruct s|done].
Qed.

Lemma all_settings_agree_with_sections_witness :
  body_field (SettingsHandler.json_key SettingsHandler.Documents)
    (SettingsHandler.handler engine0 units0 world_up SettingsHandler.mockSettings
       get_all).1
  = body (SettingsHandler.handler engine0 units0 world_up
            SettingsHandler.mockSettings get_documents).1
  ∧ body_field "database_stats"
      (SettingsHandler.handler engine0 units0 world_up SettingsHandler.mockSettings
         get_all).1
    = body (SettingsHandler.handler engine0 units0 world_up
              SettingsHandler.mockSettings get_database_stats).1.
Proof.
  apply (all_settings_agree_with_sections engine0 units0 world_up
           SettingsHandler.mockSettings SettingsHandler.Documents
           get_all get_documents get_database_stats).
  - reflexivity.
  - by left.
  - reflexivity.
  - by right.
  - reflexivity.
  - by left.
Defined.

(** * The documents API: what changes the state, and how *)

Section documents_runs.

Import DocumentsRuns.

Variable eng : engine.

(** Only the upload branch changes the documents state. *)
Lemma handler_not_upload (w : world) (st : DocumentsApi.state) (r : request) :
  DocumentsApi.is_upload r = false → (DocumentsApi.handler eng w st r).2 = st.
Proof.
  intros H. unfold DocumentsApi.handler. rewrite H.
  repeat match goal with |- context [if ?c then _ else _] => destruct c end;
    try reflexivity.
  by destruct (DocumentsApi.delete_try eng r).
Qed.

(** One request: the upload branch puts its document in front, every
    other branch leaves the state. *)
Lemma handler_step (w : world) (st : DocumentsApi.state) (r : request) :
  (DocumentsApi.handler eng w st r).2
  = if DocumentsApi.is_upload r then DocumentsApi.upload_state eng w st else st.
Proof.
  destruct (DocumentsApi.is_upload r) eqn:E.
  - by rewrite (handler_upload eng w st r E).
  - by apply handler_not_upload.
Qed.

Lemma upload_state_consistent (w : world) (st : DocumentsApi.state) :
  consistent st → consistent (DocumentsApi.upload_state eng w st).
Proof.
  intros (Htot & Hstats & Htypes). unfold consistent. cbn.
  split_and!; [done..|].
  unfold DocumentsApi.count_file_type. rewrite Htypes, lookup_singleton_eq. cbn.
  rewrite insert_singleton_eq. f_equal. rewrite Htot. lia.
Qed.

Lemma run_consistent (st : DocumentsApi.state) (rs : list (world * request)) :
  consistent st → consistent (DocumentsApi.run eng st rs).
Proof.
  revert st. induction rs as [|[w r] rs IH]; intros st Hst; [done|].
  cbn. apply IH. rewrite handler_step.
  destruct (DocumentsApi.is_upload r); [by apply upload_state_consistent|done].
Qed.

Lemma run_upload_files (st : DocumentsApi.state) (rs : list (world * request)) :
  DocumentsApi.upload_files (DocumentsApi.mockDocuments (DocumentsApi.run eng st rs))
  = (rev (DocumentsApi.newDocument eng <$> upload_worlds rs)
     ++ DocumentsApi.upload_files (DocumentsApi.mockDocuments st))%list
  ∧ DocumentsApi.scraped_files (DocumentsApi.mockDocuments (DocumentsApi.run eng st rs))
    = DocumentsApi.scraped_files (DocumentsApi.mockDocuments st).
Proof.
  revert st. induction rs as [|[w r] rs IH]; intros st; [done|].
  cbn [DocumentsApi.run]. destruct (IH (DocumentsApi.handler eng w st r).2) as [-> ->].
  rewrite handler_step. unfold upload_worlds. cbn [List.filter snd].
  destruct (DocumentsApi.is_upload r); [|done].
  rewrite !fmap_cons. cbn [rev fst]. rewrite <- app_assoc. by cbn.
Qed.

End documents_runs.

(** X9.  The listing keeps every upload, newest first: after any sequence
    of requests to the freshly loaded documents handler, [upload_files] is
    the documents of the upload requests in reverse order of arrival
    followed by the sample document, and [scraped_files] is still the one
    scraped document.  No request removes a document. *)
Theorem uploads_are_listed_newest_first
    (eng : engine) (loaded : float) (rs : list (world * request)) :
  let st := DocumentsApi.run eng (DocumentsApi.initial loaded) rs in
  DocumentsApi.upload_files (DocumentsApi.mockDocuments st)
  = (rev (DocumentsApi.newDocument eng <$> DocumentsRuns.upload_worlds rs)
     ++ DocumentsApi.upload_files
          (DocumentsApi.mockDocuments (DocumentsApi.initial loaded)))%list
  ∧ DocumentsApi.scraped_files (DocumentsApi.mockDocuments st)
    = DocumentsApi.scraped_files (DocumentsApi.mockDocuments (DocumentsApi.initial loaded)).
Proof. apply run_upload_files. Qed.

(** X10.  The counters stay right in every reachable state: after any
    sequence of requests to the freshly loaded documents handler the
    listing's [total_files] is 2 plus the number of uploads, it is the
    number of files listed, the statistics carry the same total, [pdf] is
    the only file type counted and its count is that total, and the totals
    served by [GET /processed] and [GET /stats] are equal. *)
Theorem document_counters_stay_consistent
    (eng : engine) (loaded : float) (rs : list (world * request)) (w w' : world) :
  let st := DocumentsApi.run eng (DocumentsApi.initial loaded) rs in
  DocumentsApi.total_files (DocumentsApi.mockDocuments st)
  = (2 + Z.of_nat (length (DocumentsRuns.upload_worlds rs)))%Z
  ∧ DocumentsRuns.consistent st
  ∧ body_field "total_files" (DocumentsApi.handler eng w st get_processed).1
    = body_field "total_files" (DocumentsApi.handler eng w' st DocumentsRuns.get_stats).1.
Proof.
  cbv zeta.
  assert (DocumentsRuns.consistent
            (DocumentsApi.run eng (DocumentsApi.initial loaded) rs))
    as Hc by (by apply run_consistent).
  split_and!; [|done|].
  - destruct Hc as (-> & _).
    destruct (run_upload_files eng (DocumentsApi.initial loaded) rs) as [-> ->].
    cbn. rewrite length_app, length_rev, length_fmap. cbn. lia.
  - destruct Hc as (_ & Hs & _).
    change (Some (jsonify (Num (DocumentsApi.Z_to_float
              (DocumentsApi.total_files
                 (DocumentsApi.mockDocuments
                    (DocumentsApi.run eng (DocumentsApi.initial loaded) rs))))))
            = body_field "total_files"
                (DocumentsApi.handler eng w'
                   (DocumentsApi.run eng (DocumentsApi.initial loaded) rs)
                   DocumentsRuns.get_stats).1).
    by rewrite <- Hs.
Qed.

(** * The delete branch *)

Lemma substring_all (s : string) : String.substring 0 (String.length s) s = s.
Proof. induction s as [|c s IH]; cbn; [done|]. by rewrite IH. Qed.

(** The file name the delete branch cuts out of [/api/documents/delete/<name>]
    is [<name>], as long as [<name>] does not itself contain [/delete/]. *)
Lemma split_second_delete (name : string) :
  includes name "/delete/" = false →
  split_second "/delete/" ("/api/documents/delete/" ++ name) = Some name.
Proof.
  unfold includes, split_second. intros H.
  assert (String.index 0 "/delete/" ("/api/documents/delete/" ++ name) = Some 14)
    as -> by (by destruct name).
  change (String.substring (14 + String.length "/delete/")
            (String.length ("/api/documents/delete/" ++ name)
             - (14 + String.length "/delete/"))
            ("/api/documents/delete/" ++ name))
    with (String.substring 0 (String.length name - 0) name).
  rewrite Nat.sub_0_r, substring_all.
  by destruct (String.index 0 "/delete/" name).
Qed.

(** X11.  Deleting by URL: for [DELETE /api/documents/delete/<name>], where
    [<name>] does not contain [/delete/], the handler decodes exactly
    [<name>]; when decoding succeeds it answers 200 with the message
    "Document <decoded name> deleted successfully", when decoding throws it
    answers 500 with "Delete failed: " and the error's message; in both
    cases the documents state is left as it was. *)
Theorem delete_names_the_decoded_file
    (eng : engine) (w : world) (st : DocumentsApi.state) (r : request) (name : string) :
  method r = "DELETE" →
  url r = "/api/documents/delete/" ++ name →
  includes name "/delete/" = false →
  let out := DocumentsApi.handler eng w st r in
  out.2 = st
  ∧ match decodeURIComponent eng name with
    | inr decoded =>
        status out.1 = 200%Z
        ∧ body_field "success" out.1 = Some (Bool true)
        ∧ body_field "message" out.1
          = Some (Str ("Document " ++ decoded ++ " deleted successfully"))
    | inl e =>
        status out.1 = 500%Z
        ∧ body_field "success" out.1 = Some (Bool false)
        ∧ body_field "detail" out.1 = Some (Str ("Delete failed: " ++ message e))
    end.
Proof.
  intros Hm Hu Hname. cbv zeta.
  assert (DocumentsApi.is_delete r = true) as Hdel.
  { unfold DocumentsApi.is_delete, includes. rewrite Hm, Hu. by destruct name. }
  split; [by apply handler_delete_state|].
  unfold DocumentsApi.handler, DocumentsApi.is_processed, DocumentsApi.is_stats,
    DocumentsApi.is_upload. rewrite Hdel, Hm. cbn [String.eqb Ascii.eqb Bool.eqb andb].
  unfold DocumentsApi.delete_try. rewrite Hu, (split_second_delete name Hname).
  cbn [default from_option id].
  by destruct (decodeURIComponent eng name).
Qed.

Lemma delete_names_the_decoded_file_witness :
  let out := DocumentsApi.handler engine0 world_up state0 delete_sample in
  out.2 = state0
  ∧ match decodeURIComponent engine0 "sample-document.pdf" with
    | inr decoded =>
        status out.1 = 200%Z
        ∧ body_field "success" out.1 = Some (Bool true)
        ∧ body_field "message" out.1
          = Some (Str ("Document " ++ decoded ++ " deleted successfully"))
    | inl e =>
        status out.1 = 500%Z
        ∧ body_field "success" out.1 = Some (Bool false)
        ∧ body_field "detail" out.1 = Some (Str ("Delete failed: " ++ message e))
    end.
Proof.
  apply (delete_names_the_decoded_file engine0 world_up state0 delete_sample
           "sample-document.pdf"); reflexivity.
Defined.

(** A name that cannot be decoded is answered 500; a name that contains
    [/delete/] is cut at its second occurrence. *)
Example delete_edge_cases :
  status (DocumentsApi.handler engine0 world_up state0
            {| method := "DELETE"; url := "/api/documents/delete/100%";
               req_body := Undefined; raw_body := inr "" |}).1 = 500%Z
  ∧ body_field "message"
      (DocumentsApi.handler engine0 world_up state0
         {| method := "DELETE"; url := "/api/documents/delete/a/delete/b.pdf";
            req_body := Undefined; raw_body := inr "" |}).1
    = Some (Str "Document a deleted successfully").
Proof. split; reflexivity. Qed.

(** X12.  The two documents handlers differ in the upload branch only: on
    every request that is not a POST on the upload route they give the
    same response and the same state; on the upload route both answer 200
    with [success: true] and [processed: true], but the static variant
    leaves the state as it was, so its listing never grows. *)
Theorem documents_variants_agree
    (eng : engine) (w : world) (st : DocumentsApi.state) (r : request) :
  (DocumentsApi.is_upload r = false →
   DocumentsApiStatic.handler eng w st r = DocumentsApi.handler eng w st r)
  ∧ (DocumentsApi.is_upload r = true →
     status (DocumentsApiStatic.handler eng w st r).1 = 200%Z
     ∧ body_field "success" (DocumentsApiStatic.handler eng w st r).1 = Some (Bool true)
     ∧ body_field "processed" (DocumentsApiStatic.handler eng w st r).1
       = Some (Bool true)
     ∧ body_field "filename" (DocumentsApiStatic.handler eng w st r).1
       = Some (Str "demo-file.pdf")
     ∧ status (DocumentsApi.handler eng w st r).1 = 200%Z
     ∧ body_field "success" (DocumentsApi.handler eng w st r).1 = Some (Bool true)
     ∧ body_field "processed" (DocumentsApi.handler eng w st r).1 = Some (Bool true)
     ∧ DocumentsApi.upload_files
         (DocumentsApi.mockDocuments (DocumentsApi.handler eng w st r).2)
       = DocumentsApi.newDocument eng w
           :: DocumentsApi.upload_files (DocumentsApi.mockDocuments st))
  ∧ (DocumentsApiStatic.handler eng w st r).2 = st.
Proof.
  split_and!.
  - unfold DocumentsApiStatic.handler, DocumentsApi.handler. by intros ->.
  - intros Hup. rewrite (handler_upload eng w st r Hup).
    unfold DocumentsApiStatic.handler.
    pose proof Hup as Hpost. unfold DocumentsApi.is_upload in Hpost.
    apply andb_prop in Hpost as [Hpost _]. apply String.eqb_eq in Hpost.
    unfold DocumentsApi.is_processed, DocumentsApi.is_stats.
    by rewrite Hup, Hpost.
  - unfold DocumentsApiStatic.handler.
    repeat match goal with |- context [if ?c then _ else _] => destruct c end;
      try reflexivity.
    by destruct (DocumentsApi.delete_try eng r).
Qed.

(** * The query API: when the generation service is called, and what is
    relayed *)

(** X13.  The generation service is called for a valid question only:
    whenever the query handler issues a call, the request was a POST on
    the ask route whose [query] is a non-empty string, exactly one call
    was issued, and it carries that query and the request's agent type
    ("coach" when none is given). *)
Theorem generation_service_called_only_for_a_question
    (eng : engine) (w : world) (r : request) :
  (QueryApi.handler eng w r).2 ≠ [] →
  QueryApi.is_ask r = true
  ∧ ∃ q a,
      QueryApi.ask_query eng r = inr (Str q)
      ∧ q ≠ ""
      ∧ QueryApi.ask_agent_type eng r = inr a
      ∧ a ≠ Undefined
      ∧ (QueryApi.handler eng w r).2 = [{| call_agent := a; call_query := q |}].
Proof.
  unfold QueryApi.handler.
  destruct (String.eqb (method r) "OPTIONS"); [done|].
  destruct (QueryApi.is_ask r); [|by destruct (QueryApi.is_agents r)].
  rewrite ask_try_fields. intros Hcalls. split; [done|].
  unfold QueryApi.ask_query, QueryApi.ask_agent_type.
  destruct (QueryApi.ask_fields eng r) as [e|[[q a] k]] eqn:Hf; [done|].
  cbn [JS.bind fst snd].
  destruct (ask_fields_agent_type eng r q a k Hf) as [_ Ha].
  destruct q as [| |c|x|s|items|fields]; cbn [truthy is_string negb orb] in *;
    try done; try (by destruct c); try (by rewrite orb_true_r in Hcalls).
  destruct (String.eqb_spec s "") as [->|Hne]; [done|]. cbn [negb orb] in *.
  exists s, a. split_and!; [done|done|done|done|].
  cbn [QueryApi.query_text] in *.
  destruct (QueryApi.prompt_key eng a); [done|].
  by destruct (QueryApi.read_answer eng w a (gemini w 0)).
Qed.

Lemma generation_service_called_only_for_a_question_witness :
  QueryApi.is_ask ask_hello = true
  ∧ ∃ q a,
      QueryApi.ask_query engine0 ask_hello = inr (Str q)
      ∧ q ≠ ""
      ∧ QueryApi.ask_agent_type engine0 ask_hello = inr a
      ∧ a ≠ Undefined
      ∧ (QueryApi.handler engine0 world_up ask_hello).2
        = [{| call_agent := a; call_query := q |}].
Proof.
  apply (generation_service_called_only_for_a_question engine0 world_up ask_hello).
  vm_compute. discriminate.
Defined.

(** X14.  An empty question is refused like a missing one: when the
    [query] of an ask request is the empty string, or any value that is
    falsy or not a string, the handler answers 400 with "Query is required
    and must be a string" and calls nothing. *)
Theorem ask_rejects_empty_query
    (eng : engine) (w : world) (r : request) (q : value) :
  QueryApi.is_ask r = true →
  QueryApi.ask_query eng r = inr q →
  truthy q && is_string q = false →
  (QueryApi.handler eng w r).2 = []
  ∧ status (QueryApi.handler eng w r).1 = 400%Z
  ∧ body_field "success" (QueryApi.handler eng w r).1 = Some (Bool false)
  ∧ body_field "error" (QueryApi.handler eng w r).1
    = Some (Str "Query is required and must be a string").
Proof.
  intros Hask Hq Hbad. rewrite (handler_ask eng w r Hask), ask_try_fields.
  unfold QueryApi.ask_query in Hq.
  destruct (QueryApi.ask_fields eng r) as [e|[[q' a] k]]; [done|].
  cbn [JS.bind fst] in Hq. injection Hq as ->.
  assert (negb (truthy q) || negb (is_string q) = true) as ->.
  { by destruct (truthy q), (is_string q). }
  done.
Qed.

Lemma ask_rejects_empty_query_witness :
  (QueryApi.handler engine0 world_up
     (post "/api/query/ask" (Obj [("query", Str "")]))).2 = []
  ∧ status (QueryApi.handler engine0 world_up
              (post "/api/query/ask" (Obj [("query", Str "")]))).1 = 400%Z
  ∧ body_field "success"
      (QueryApi.handler engine0 world_up
         (post "/api/query/ask" (Obj [("query", Str "")]))).1 = Some (Bool false)
  ∧ body_field "error"
      (QueryApi.handler engine0 world_up
         (post "/api/query/ask" (Obj [("query", Str "")]))).1
    = Some (Str "Query is required and must be a string").
Proof.
  apply (ask_rejects_empty_query engine0 world_up
           (post "/api/query/ask" (Obj [("query", Str "")])) (Str ""));
    reflexivity.
Defined.

(** X15.  The answer is relayed unchanged: when the question is valid,
    the agent type can be converted to a property name (so that the system
    prompt is looked up and the call is issued), and the service answers
    with an OK response whose JSON has a truthy first candidate with a
    truthy [content] whose first part has the string [text], the handler
    answers 200 with [success: true], that very text as
    [response.content], the request's agent type as [response.agent] and as
    [agent_used], and "gemini-pro" as the model. *)
Theorem answer_is_relayed
    (eng : engine) (w : world) (r : request) (q : string) (a : value)
    (key : string)
    (code : Z) (raw : throws string) (data c content p : value)
    (cs ps : list value) (text : string) :
  QueryApi.is_ask r = true →
  QueryApi.ask_query eng r = inr (Str q) →
  q ≠ "" →
  QueryApi.ask_agent_type eng r = inr a →
  QueryApi.prompt_key eng a = inr key →
  gemini w 0 = FetchResponse true code raw (inr data) →
  get data "candidates" = Some (Arr (c :: cs)) →
  truthy c = true →
  get c "content" = Some content →
  truthy content = true →
  get content "parts" = Some (Arr (p :: ps)) →
  get p "text" = Some (Str text) →
  let res := (QueryApi.handler eng w r).1 in
  status res = 200%Z
  ∧ body_field "success" res = Some (Bool true)
  ∧ (body_field "response" res ≫= λ v, get v "content") = Some (Str text)
  ∧ (body_field "response" res ≫= λ v, get v "agent") = Some (jsonify a)
  ∧ body_field "agent_used" res = Some (jsonify a)
  ∧ (body_field "response" res ≫= λ v, get v "metadata" ≫= λ m, get m "model")
    = Some (Str "gemini-pro").
Proof.
  intros Hask Hq Hne Ha Hkey Hg Hcand Hc Hcontent Htc Hparts Htext. cbv zeta.
  rewrite (handler_ask eng w r Hask), ask_try_fields.
  unfold QueryApi.ask_query, QueryApi.ask_agent_type in Hq, Ha.
  destruct (QueryApi.ask_fields eng r) as [e'|[[q' a'] k]] eqn:Hf; [discriminate|].
  cbn [JS.bind fst snd] in *.
  injection Hq as ->. injection Ha as ->.
  assert (truthy (Str q) = true) as Ht.
  { cbn. by destruct (String.eqb_spec q ""). }
  rewrite Ht, Hkey. cbn [negb orb is_string QueryApi.query_text].
  unfold QueryApi.read_answer. rewrite Hg.
  cbn [negb JS.bind]. rewrite Hcand. cbn [QueryApi.access JS.bind truthy negb get_index nth].
  rewrite Hc, Hcontent. cbn [QueryApi.access JS.bind negb].
  rewrite Htc, Hparts. cbn [QueryApi.access JS.bind negb get_index nth].
  rewrite Htext. cbn [QueryApi.access JS.bind].
  assert (∃ usage, get data "usageMetadata" = Some usage) as [usage ->].
  { destruct data; try done; cbn; eauto. }
  cbn [QueryApi.access JS.bind].
  destruct (ask_fields_agent_type eng r _ a k Hf) as [_ Hau].
  assert (or_else usage (Obj []) ≠ Undefined) as Hu.
  { unfold or_else. destruct (truthy usage) eqn:E; [|done]. by destruct usage. }
  destruct (or_else usage (Obj [])); [by destruct Hu|..];
    destruct a, (truthy k); first [by destruct Hau | by split_and!].
Qed.

Lemma answer_is_relayed_witness :
  let res := (QueryApi.handler engine0 world_up ask_hello).1 in
  status res = 200%Z
  ∧ body_field "success" res = Some (Bool true)
  ∧ (body_field "response" res ≫= λ v, get v "content") = Some (Str "Hello!")
  ∧ (body_field "response" res ≫= λ v, get v "agent") = Some (jsonify (Str "coach"))
  ∧ body_field "agent_used" res = Some (jsonify (Str "coach"))
  ∧ (body_field "response" res ≫= λ v, get v "metadata" ≫= λ m, get m "model")
    = Some (Str "gemini-pro").
Proof.
  apply (answer_is_relayed engine0 world_up ask_hello "hello" (Str "coach") "coach"
           200 (inr "")
           (Obj [("candidates",
                   Arr [Obj [("content",
                               Obj [("parts", Arr [Obj [("text", Str "Hello!")]])])]])])
           (Obj [("content", Obj [("parts", Arr [Obj [("text", Str "Hello!")]])])])
           (Obj [("parts", Arr [Obj [("text", Str "Hello!")]])])
           (Obj [("text", Str "Hello!")]) [] [] "Hello!");
    first [reflexivity | discriminate].
Defined.

(** X16.  Every response carries the CORS headers: whatever the request
    and whatever branch answers it, the query, documents and settings
    handlers allow every origin, the [Content-Type] and [Authorization]
    headers, and their own list of methods. *)
Theorem every_response_carries_cors_headers
    (eng : engine) (units : string → list string) (w : world) (r : request)
    (docs : DocumentsApi.state) (settings : SettingsHandler.settings) :
  headers (QueryApi.handler eng w r).1 = cors "GET, POST, OPTIONS"
  ∧ headers (DocumentsApi.handler eng w docs r).1 = cors "GET, POST, DELETE, OPTIONS"
  ∧ headers (DocumentsApiStatic.handler eng w docs r).1
    = cors "GET, POST, DELETE, OPTIONS"
  ∧ headers (SettingsHandler.handler eng units w settings r).1
    = cors "GET, POST, OPTIONS".
Proof.
  split_and!.
  - unfold QueryApi.handler.
    repeat match goal with |- context [if ?c then _ else _] => destruct c end;
      try reflexivity.
    destruct (ask_try_cases eng w r)
      as [[e ->]|[->|[(e & call & ->)|(? & ? & ? & ? & ? & _ & _ & ->)]]];
      reflexivity.
  - unfold DocumentsApi.handler.
    repeat match goal with |- context [if ?c then _ else _] => destruct c end;
      try reflexivity.
    unfold DocumentsApi.delete_try.
    by destruct (decodeURIComponent eng _).
  - unfold DocumentsApiStatic.handler.
    repeat match goal with |- context [if ?c then _ else _] => destruct c end;
      try reflexivity.
    unfold DocumentsApi.delete_try.
    by destruct (decodeURIComponent eng _).
  - unfold SettingsHandler.handler, SettingsHandler.post_section.
    repeat match goal with |- context [if ?c then _ else _] => destruct c end;
      try reflexivity;
      by destruct (SettingsHandler.read_body eng r).
Qed.

(** * The authentication API *)

Lemma demo_user_cases (key pw : string) :
  AuthApi.DEMO_USERS !! key = Some pw →
  (key, pw) ∈ [("admin@entrepedia.ai", "admin123"); ("admin", "admin123");
               ("testuser", "test123"); ("test@example.com", "test123")].
Proof. apply elem_of_list_to_map_2. Qed.

Lemma demo_user_nonempty (key pw : string) :
  AuthApi.DEMO_USERS !! key = Some pw → key ≠ "" ∧ pw ≠ "".
Proof.
  intros H%demo_user_cases.
  rewrite !elem_of_cons, elem_of_nil in H.
  destruct H as [H|[H|[H|[H|[]]]]]; by simplify_eq.
Qed.

Lemma truthy_Str (s : string) : s ≠ "" → truthy (Str s) = true.
Proof. intros H. cbn. by destruct s. Qed.

Lemma handler_login (eng : engine) (plat : AuthApi.platform) (w : world) (r : request) :
  AuthApi.is_login r = true →
  AuthApi.handler eng plat w r
  = match AuthApi.login_try eng plat w r with
    | inr res => res
    | inl e => AuthApi.login_catch e
    end.
Proof.
  intros H. unfold AuthApi.handler. rewrite H.
  apply andb_prop in H as [->%String.eqb_eq _]. reflexivity.
Qed.

(** X17.  A token is issued only for demo credentials: when a response
    carries an [access_token], the request was a POST to a login URL, the
    user name of its body, converted to a property name, is one of the
    demo users, the password of its body is that user's password as a
    string, and the token is what signing [{ sub, user_id: 1, exp }]
    returned. *)
Theorem token_only_for_demo_credentials
    (eng : engine) (plat : AuthApi.platform) (w : world) (r : request) (t : value) :
  body_field "access_token" (AuthApi.handler eng plat w r) = Some t →
  ∃ username key pw token,
    AuthApi.is_login r = true
    ∧ get (req_body r) "username" = Some username
    ∧ Coercion.to_string eng (AuthApi.not_primitive plat) username = inr key
    ∧ AuthApi.DEMO_USERS !! key = Some pw
    ∧ get (req_body r) "password" = Some (Str pw)
    ∧ AuthApi.createAccessToken plat w [("sub", username); ("user_id", Num 1)]
      = inr token
    ∧ t = Str token
    ∧ status (AuthApi.handler eng plat w r) = 200%Z.
Proof.
  unfold AuthApi.handler.
  destruct (String.eqb (method r) "OPTIONS"); [discriminate|].
  destruct (String.eqb (method r) "GET"); [discriminate|].
  destruct (AuthApi.is_login r) eqn:Hlogin;
    [|destruct (AuthApi.is_logout r); discriminate].
  unfold AuthApi.login_try, AuthApi.granted.
  destruct (get (req_body r) "username") as [username|]; [|discriminate].
  destruct (get (req_body r) "password") as [password|]; [|discriminate].
  cbn [QueryApi.access JS.bind].
  destruct (truthy username && truthy password); [|discriminate].
  destruct (Coercion.to_string eng _ username) as [e|key] eqn:Hkey; [discriminate|].
  cbn [JS.bind]. unfold AuthApi.is_demo_password.
  destruct (AuthApi.DEMO_USERS !! key) as [pw|] eqn:Hpw; [|discriminate].
  destruct password as [| |b|x|s|items|fields]; try discriminate.
  destruct (String.eqb pw s) eqn:Hs; [|discriminate].
  apply String.eqb_eq in Hs as <-.
  destruct (AuthApi.createAccessToken plat w _) as [e|token] eqn:Htoken;
    [discriminate|].
  cbn. intros [= <-]. by exists username, key, pw, token.
Qed.

Lemma token_only_for_demo_credentials_witness :
  ∃ username key pw token,
    AuthApi.is_login login_admin = true
    ∧ get (req_body login_admin) "username" = Some username
    ∧ Coercion.to_string engine0 (AuthApi.not_primitive platform0) username = inr key
    ∧ AuthApi.DEMO_USERS !! key = Some pw
    ∧ get (req_body login_admin) "password" = Some (Str pw)
    ∧ AuthApi.createAccessToken platform0 world_up [("sub", username); ("user_id", Num 1)]
      = inr token
    ∧ Str "header.payload.signature" = Str token
    ∧ status (AuthApi.handler engine0 platform0 world_up login_admin) = 200%Z.
Proof.
  apply (token_only_for_demo_credentials engine0 platform0 world_up login_admin).
  reflexivity.
Defined.

(** X18.  Login with a user name and a password that are strings: the
    handler signs a token exactly when the pair is one of the demo users;
    it answers 200 with the token, 500 when signing throws, and 401 with
    no token for every other pair. *)
Theorem login_with_string_credentials
    (eng : engine) (plat : AuthApi.platform) (w : world) (r : request)
    (u p : string) :
  AuthApi.is_login r = true →
  get (req_body r) "username" = Some (Str u) →
  get (req_body r) "password" = Some (Str p) →
  AuthApi.handler eng plat w r
  = if decide (AuthApi.DEMO_USERS !! u = Some p) then
      match AuthApi.createAccessToken plat w [("sub", Str u); ("user_id", Num 1)] with
      | inr token =>
          json_response AuthApi.allow_methods 200
            (Obj [("access_token", Str token); ("token_type", Str "bearer")])
      | inl e => AuthApi.login_catch e
      end
    else
      json_response AuthApi.allow_methods 401
        (Obj [("detail", Str "Incorrect username or password")]).
Proof.
  intros Hlogin Hu Hp. rewrite (handler_login _ _ _ _ Hlogin).
  unfold AuthApi.login_try, AuthApi.granted. rewrite Hu, Hp.
  cbn [QueryApi.access JS.bind Coercion.to_string].
  case_decide as Hdemo.
  - destruct (demo_user_nonempty _ _ Hdemo) as [Hu0 Hp0].
    rewrite !truthy_Str by done. cbn [andb JS.bind].
    unfold AuthApi.is_demo_password. rewrite Hdemo, String.eqb_refl.
    by destruct (AuthApi.createAccessToken plat w _).
  - destruct (truthy (Str u) && truthy (Str p)); [|done].
    cbn [JS.bind]. unfold AuthApi.is_demo_password.
    destruct (AuthApi.DEMO_USERS !! u) as [pw|] eqn:Hpw; [|done].
    destruct (String.eqb pw p) eqn:Hs; [|done].
    apply String.eqb_eq in Hs as ->. done.
Qed.

Lemma login_with_string_credentials_witness :
  AuthApi.handler engine0 platform0 world_up login_wrong
  = if decide (AuthApi.DEMO_USERS !! "admin" = Some "hunter2") then
      match AuthApi.createAccessToken platform0 world_up
              [("sub", Str "admin"); ("user_id", Num 1)] with
      | inr token =>
          json_response AuthApi.allow_methods 200
            (Obj [("access_token", Str token); ("token_type", Str "bearer")])
      | inl e => AuthApi.login_catch e
      end
    else
      json_response AuthApi.allow_methods 401
        (Obj [("detail", Str "Incorrect username or password")]).
Proof.
  apply (login_with_string_credentials engine0 platform0 world_up login_wrong
           "admin" "hunter2"); reflexivity.
Defined.

(** X19.  The login and logout calls of the front end do not reach the
    login branch: [authApi.login] and [authApi.logout] post to [/api/auth]
    (the latter with [?action=logout]), a URL that contains neither
    [/login] nor [/logout]; whatever the body, the handler answers 404
    with [{ error: "Not found" }] and issues no token. *)
Theorem client_auth_calls_are_not_found
    (eng : engine) (plat : AuthApi.platform) (w : world) (r : request) :
  method r = "POST" →
  url r = ApiClient.auth_url ∨ url r = ApiClient.auth_url ++ "?action=logout" →
  AuthApi.handler eng plat w r
  = json_response AuthApi.allow_methods 404 AuthApi.not_found
  ∧ body_field "access_token" (AuthApi.handler eng plat w r) = None.
Proof.
  intros Hm Hu. unfold AuthApi.handler, AuthApi.is_login, AuthApi.is_logout.
  rewrite Hm. destruct Hu as [-> | ->]; by vm_compute.
Qed.

Lemma client_auth_calls_are_not_found_witness :
  AuthApi.handler engine0 platform0 world_up login_client
  = json_response AuthApi.allow_methods 404 AuthApi.not_found
  ∧ body_field "access_token" (AuthApi.handler engine0 platform0 world_up login_client)
    = None.
Proof.
  apply (client_auth_calls_are_not_found engine0 platform0 world_up login_client).
  - reflexivity.
  - by left.
Defined.

(** * The API client *)

(** X20.  A 401 logs the client out: when the response of the failed
    call has status 401, the error handler removes the stored token and
    nothing else from [localStorage], sends the browser to [/login], and
    still rejects with the same error; the request interceptor then adds
    no [Authorization] header to the next call. *)
Theorem unauthorized_response_logs_out
    (eng : engine) (b : ApiClient.browser) (error response : value) :
  get error "response" = Some response →
  get response "status" = Some (Num 401) →
  let out := ApiClient.on_rejected eng b error in
  out.2 = inr error
  ∧ ApiClient.location_href out.1 = "/login"
  ∧ ApiClient.localStorage out.1 !! "access_token" = None
  ∧ (∀ k, k ≠ "access_token" →
       ApiClient.localStorage out.1 !! k = ApiClient.localStorage b !! k)
  ∧ ∀ headers, ApiClient.on_request out.1 headers = headers.
Proof.
  intros He Hs. cbv zeta.
  unfold ApiClient.on_rejected, ApiClient.is_unauthorized.
  rewrite He. cbn [QueryApi.access JS.bind]. rewrite Hs.
  assert (PrimFloat.eqb 401 401 = true) as -> by reflexivity.
  destruct response; try discriminate; cbn [fst snd ApiClient.localStorage
    ApiClient.location_href]; unfold ApiClient.on_request;
    cbn [ApiClient.localStorage]; rewrite lookup_delete_eq;
    (split_and!; [done|done|done| |done]);
    intros k Hk; by rewrite lookup_delete_ne.
Qed.

Lemma unauthorized_response_logs_out_witness :
  let out := ApiClient.on_rejected engine0 browser0 (axios_error 401) in
  out.2 = inr (axios_error 401)
  ∧ ApiClient.location_href out.1 = "/login"
  ∧ ApiClient.localStorage out.1 !! "access_token" = None
  ∧ (∀ k, k ≠ "access_token" →
       ApiClient.localStorage out.1 !! k = ApiClient.localStorage browser0 !! k)
  ∧ ∀ headers, ApiClient.on_request out.1 headers = headers.
Proof.
  apply (unauthorized_response_logs_out engine0 browser0 (axios_error 401)
           (Obj [("status", Num 401); ("data", Obj [])])); reflexivity.
Defined.

(** X21.  Only a 401 logs the client out: if the error handler changes
    anything of the browser, the error has a response whose status is the
    number 401.  An error without a response, or with any other status,
    leaves the token and the location alone. *)
Theorem browser_changes_only_on_401
    (eng : engine) (b : ApiClient.browser) (error : value) :
  (ApiClient.on_rejected eng b error).1 ≠ b →
  ∃ response x,
    get error "response" = Some response
    ∧ get response "status" = Some (Num x)
    ∧ PrimFloat.eqb x 401 = true.
Proof.
  unfold ApiClient.on_rejected, ApiClient.is_unauthorized.
  destruct (get error "response") as [response|]; [|done].
  cbn [QueryApi.access JS.bind].
  destruct (get response "status") as [[| | |x| | |]|] eqn:Hs;
    try (by destruct response).
  destruct (PrimFloat.eqb x 401) eqn:Hx; [|by destruct response].
  intros _. by exists response, x.
Qed.

Lemma browser_changes_only_on_401_witness :
  ∃ response x,
    get (axios_error 401) "response" = Some response
    ∧ get response "status" = Some (Num x)
    ∧ PrimFloat.eqb x 401 = true.
Proof.
  apply (browser_changes_only_on_401 engine0 browser0 (axios_error 401)).
  intros H. apply (f_equal ApiClient.location_href) in H. discriminate H.
Defined.

(** * The settings client *)

(** X22.  What the settings client makes of the settings handler's
    answers: for every request but a preflight, either the handler
    answered 200 and [request] resolves to the body of the response, or it
    answered another status, the body has a [detail] string, and [request]
    rejects with an [Error] whose message is that string. *)
Theorem settings_client_sees_handler_outcome
    (eng : engine) (units : string → list string) (w : world)
    (st : SettingsHandler.settings) (r : request) (not_primitive : js_error) :
  method r ≠ "OPTIONS" →
  let res := (SettingsHandler.handler eng units w st r).1 in
  (status res = 200%Z
   ∧ ∃ v, body res = Some v
          ∧ SettingsClient.request_result eng not_primitive res = inr v)
  ∨ (status res ≠ 200%Z
     ∧ ∃ d, body_field "detail" res = Some (Str d)
            ∧ SettingsClient.request_result eng not_primitive res = inl (Error d)).
Proof.
  intros Hm. cbv zeta.
  set (Q := λ out : response * SettingsHandler.settings,
         (status out.1 = 200%Z
          ∧ ∃ v, body out.1 = Some v
                 ∧ SettingsClient.request_result eng not_primitive out.1 = inr v)
         ∨ (status out.1 ≠ 200%Z
            ∧ ∃ d, body_field "detail" out.1 = Some (Str d)
                   ∧ SettingsClient.request_result eng not_primitive out.1
                     = inl (Error d))).
  change (Q (SettingsHandler.handler eng units w st r)).
  assert (∀ s, Q (SettingsHandler.post_section eng units s st r)) as Hpost.
  { intros s. subst Q. cbn beta. unfold SettingsHandler.post_section.
    destruct (SettingsHandler.read_body eng r) as [e|b].
    - right. split; [done|]. exists (SettingsHandler.invalid s ++ message e).
      by destruct s.
    - left. split; [done|]. by eexists. }
  unfold SettingsHandler.handler.
  destruct (String.eqb (method r) "OPTIONS") eqn:E0.
  { by apply String.eqb_eq in E0. }
  repeat match goal with
         | |- Q (if ?c then _ else _) => destruct c
         end;
    try apply Hpost;
    subst Q; cbn beta;
    first [ left; split; [done|]; by eexists
          | right; split; [done|]; by eexists ].
Qed.

Lemma settings_client_sees_handler_outcome_witness :
  let res :=
    (SettingsHandler.handler engine0 units0 world_up SettingsHandler.mockSettings
       post_profile_garbage).1 in
  (status res = 200%Z
   ∧ ∃ v, body res = Some v
          ∧ SettingsClient.request_result engine0 (Error "") res = inr v)
  ∨ (status res ≠ 200%Z
     ∧ ∃ d, body_field "detail" res = Some (Str d)
            ∧ SettingsClient.request_result engine0 (Error "") res = inl (Error d)).
Proof.
  apply (settings_client_sees_handler_outcome engine0 units0 world_up
           SettingsHandler.mockSettings post_profile_garbage (Error "")).
  discriminate.
Defined.

(** * The file icons *)

Lemma lower_dot (c : ascii) :
  Ascii.eqb (FileIcons.lower c) "." = Ascii.eqb c ".".
Proof. by destruct c as [[] [] [] [] [] [] [] []]. Qed.

Lemma after_last_dot_lower (s : string) :
  FileIcons.after_last_dot (FileIcons.toLowerCase s)
  = FileIcons.toLowerCase <$> FileIcons.after_last_dot s.
Proof.
  induction s as [|c s IH]; [done|].
  cbn [FileIcons.toLowerCase FileIcons.after_last_dot]. rewrite IH, lower_dot.
  destruct (FileIcons.after_last_dot s); [done|].
  by destruct (Ascii.eqb c ".").
Qed.

Lemma after_last_dot_app (name ext : string) :
  FileIcons.after_last_dot ext = None →
  FileIcons.after_last_dot (name ++ "." ++ ext) = Some ext.
Proof.
  intros H. induction name as [|c name IH].
  - change ("" ++ "." ++ ext) with (String "." ext).
    cbn [FileIcons.after_last_dot]. by rewrite H.
  - change (String c name ++ "." ++ ext) with (String c (name ++ "." ++ ext)).
    cbn [FileIcons.after_last_dot]. by rewrite IH.
Qed.

Lemma last_segment_extension (name ext : string) :
  FileIcons.after_last_dot ext = None →
  FileIcons.last_segment (FileIcons.toLowerCase (name ++ "." ++ ext))
  = FileIcons.toLowerCase ext.
Proof.
  intros H. unfold FileIcons.last_segment.
  by rewrite after_last_dot_lower, after_last_dot_app.
Qed.

Lemma last_segment_no_dot (ext : string) :
  FileIcons.after_last_dot ext = None →
  FileIcons.last_segment (FileIcons.toLowerCase ext) = FileIcons.toLowerCase ext.
Proof.
  intros H. unfold FileIcons.last_segment.
  by rewrite after_last_dot_lower, H.
Qed.

(** X23.  The two copies of [getFileIcon] agree: for every file name the
    documents list and the upload form render the same component in the
    same colour; only the size classes differ. *)
Theorem file_icons_agree (name : string) :
  FileIcons.component (FileIcons.getFileIcon name)
  = FileIcons.component (FileIcons.getFileIcon_upload name)
  ∧ ∃ colour,
      FileIcons.className (FileIcons.getFileIcon name) = "w-5 h-5" ++ colour
      ∧ FileIcons.className (FileIcons.getFileIcon_upload name) = "w-8 h-8" ++ colour.
Proof.
  unfold FileIcons.getFileIcon, FileIcons.getFileIcon_upload.
  generalize (FileIcons.last_segment (FileIcons.toLowerCase name)) as e.
  intros e. unfold FileIcons.icon_of.
  repeat (match goal with
          | |- context [String.eqb e ?s] => destruct (String.eqb e s)
          end;
          cbn [orb FileIcons.component FileIcons.className];
          try (split; [reflexivity|eexists; split; reflexivity])).
Qed.

(** X24.  The icon is chosen by what follows the last dot of the file
    name, letter case ignored: two names whose extensions differ only in
    the case of their letters get the same icon, and so does a name that
    has no dot and is itself such an extension. *)
Theorem file_icon_depends_on_extension (name name' ext ext' : string) :
  FileIcons.after_last_dot ext = None →
  FileIcons.after_last_dot ext' = None →
  FileIcons.toLowerCase ext = FileIcons.toLowerCase ext' →
  FileIcons.getFileIcon (name ++ "." ++ ext)
  = FileIcons.getFileIcon (name' ++ "." ++ ext')
  ∧ FileIcons.getFileIcon (name ++ "." ++ ext) = FileIcons.getFileIcon ext'.
Proof.
  intros H H' Heq. unfold FileIcons.getFileIcon.
  rewrite !last_segment_extension, last_segment_no_dot by done.
  by rewrite Heq.
Qed.

Lemma file_icon_depends_on_extension_witness :
  FileIcons.getFileIcon ("Annual Report" ++ "." ++ "PDF")
  = FileIcons.getFileIcon ("notes.v2" ++ "." ++ "pdf")
  ∧ FileIcons.getFileIcon ("Annual Report" ++ "." ++ "PDF")
    = FileIcons.getFileIcon "pdf".
Proof.
  apply (file_icon_depends_on_extension "Annual Report" "notes.v2" "PDF" "pdf");
    reflexivity.
Defined.

(** * The authentication API that parses the body itself *)

Lemma is_demo_password_Str (key : string) (password : value) :
  AuthApi.is_demo_password key password = true →
  ∃ pw, AuthApi.DEMO_USERS !! key = Some pw ∧ password = Str pw.
Proof.
  unfold AuthApi.is_demo_password.
  destruct (AuthApi.DEMO_USERS !! key) as [pw|]; [|done].
  destruct password as [| |b|x|s|items|fields]; try done.
  intros <-%String.eqb_eq. by exists pw.
Qed.

(** X25.  The [action=logout] query parameter is never honoured: the
    answer does not depend on [req.query].  The logout branch consults it
    only for a POST to exactly [/api/auth], and such a request has
    already been answered by the login branch. *)
Theorem logout_action_is_never_honoured
    (eng : engine) (plat : AuthApi.platform)
    (form_get : string → string → option string) (w : world)
    (r : AuthApiParsing.auth_request) (q : value) :
  AuthApiParsing.handler eng plat form_get w
    {| AuthApiParsing.base := AuthApiParsing.base r;
       AuthApiParsing.content_type := AuthApiParsing.content_type r;
       AuthApiParsing.query := q |}
  = AuthApiParsing.handler eng plat form_get w r.
Proof.
  destruct r as [b ct q0].
  unfold AuthApiParsing.handler, AuthApiParsing.is_login, AuthApiParsing.is_logout.
  cbn [AuthApiParsing.base AuthApiParsing.content_type AuthApiParsing.query].
  destruct (String.eqb (method b) "OPTIONS"); [done|].
  destruct (String.eqb (method b) "GET"); [done|].
  destruct (String.eqb (method b) "POST"); [|done].
  destruct (includes (url b) "/login"); [done|].
  destruct (String.eqb (url b) "/api/auth"); [done|].
  cbn [andb orb]. by rewrite !orb_false_r.
Qed.

(** X26.  What the login call of the front end gets from this version:
    [authApi.login] posts [{ username, password }] to [/api/auth]; an empty
    user name or password is answered 400, a demo pair gets a token (500
    when signing throws), and every other pair 401. *)
Theorem client_login_outcomes
    (eng : engine) (plat : AuthApi.platform)
    (form_get : string → string → option string) (w : world)
    (r : AuthApiParsing.auth_request) (u p : string) :
  method (AuthApiParsing.base r) = "POST" →
  url (AuthApiParsing.base r) = ApiClient.auth_url →
  req_body (AuthApiParsing.base r) = Obj [("username", Str u); ("password", Str p)] →
  AuthApiParsing.handler eng plat form_get w r
  = if String.eqb u "" || String.eqb p "" then
      json_response AuthApi.allow_methods 400 AuthApiParsing.required
    else if decide (AuthApi.DEMO_USERS !! u = Some p) then
      match AuthApi.createAccessToken plat w [("sub", Str u); ("user_id", Num 1)] with
      | inr token =>
          json_response AuthApi.allow_methods 200
            (Obj [("access_token", Str token); ("token_type", Str "bearer")])
      | inl e => AuthApi.login_catch e
      end
    else
      json_response AuthApi.allow_methods 401
        (Obj [("detail", Str "Incorrect username or password")]).
Proof.
  intros Hm Hu Hb.
  unfold AuthApiParsing.handler, AuthApiParsing.is_login. rewrite Hm, Hu.
  change (String.eqb "POST" "OPTIONS") with false.
  change (String.eqb "POST" "GET") with false.
  change (String.eqb "POST" "POST"
          && (includes ApiClient.auth_url "/login"
              || String.eqb ApiClient.auth_url "/api/auth")) with true.
  cbv iota.
  unfold AuthApiParsing.login_try, AuthApiParsing.credentials. rewrite Hb.
  cbn [truthy]. unfold AuthApiParsing.of_body.
  assert (get (Obj [("username", Str u); ("password", Str p)]) "username"
          = Some (Str u)) as -> by reflexivity.
  assert (get (Obj [("username", Str u); ("password", Str p)]) "password"
          = Some (Str p)) as -> by reflexivity.
  cbn [QueryApi.access JS.bind truthy Coercion.to_string].
  rewrite !negb_involutive.
  destruct (String.eqb u ""); [done|].
  destruct (String.eqb p ""); [done|].
  cbn [orb]. unfold AuthApi.is_demo_password.
  case_decide as Hdemo.
  - rewrite Hdemo, String.eqb_refl.
    by destruct (AuthApi.createAccessToken plat w _).
  - destruct (AuthApi.DEMO_USERS !! u) as [pw|] eqn:Hpw; [|done].
    destruct (String.eqb pw p) eqn:Hs; [|done].
    apply String.eqb_eq in Hs as ->. done.
Qed.

Lemma client_login_outcomes_witness :
  AuthApiParsing.handler engine0 platform0 form_get0 world_up login_client_parsed
  = if String.eqb "admin" "" || String.eqb "admin123" "" then
      json_response AuthApi.allow_methods 400 AuthApiParsing.required
    else if decide (AuthApi.DEMO_USERS !! "admin" = Some "admin123") then
      match AuthApi.createAccessToken platform0 world_up
              [("sub", Str "admin"); ("user_id", Num 1)] with
      | inr token =>
          json_response AuthApi.allow_methods 200
            (Obj [("access_token", Str token); ("token_type", Str "bearer")])
      | inl e => AuthApi.login_catch e
      end
    else
      json_response AuthApi.allow_methods 401
        (Obj [("detail", Str "Incorrect username or password")]).
Proof.
  apply (client_login_outcomes engine0 platform0 form_get0 world_up
           login_client_parsed "admin" "admin123"); reflexivity.
Defined.

(** X27.  The two versions of the authentication handler compared, on a
    request whose body the platform has parsed and whose URL is not
    [/api/auth]: they give the same response, except on a login whose user
    name or password is missing or falsy, where this version answers 400
    and the plain one 401. *)
Theorem auth_versions_agree_on_parsed_bodies
    (eng : engine) (plat : AuthApi.platform)
    (form_get : string → string → option string) (w : world)
    (r : AuthApiParsing.auth_request) :
  truthy (req_body (AuthApiParsing.base r)) = true →
  url (AuthApiParsing.base r) ≠ "/api/auth" →
  AuthApiParsing.handler eng plat form_get w r
  = AuthApi.handler eng plat w (AuthApiParsing.base r)
  ∨ (AuthApiParsing.handler eng plat form_get w r
     = json_response AuthApi.allow_methods 400 AuthApiParsing.required
     ∧ AuthApi.handler eng plat w (AuthApiParsing.base r)
       = json_response AuthApi.allow_methods 401
           (Obj [("detail", Str "Incorrect username or password")])
     ∧ AuthApi.is_login (AuthApiParsing.base r) = true
     ∧ ∃ username password,
         get (req_body (AuthApiParsing.base r)) "username" = Some username
         ∧ get (req_body (AuthApiParsing.base r)) "password" = Some password
         ∧ truthy username && truthy password = false).
Proof.
  intros Hb Hu. destruct r as [b ct q]. cbn [AuthApiParsing.base] in *.
  apply String.eqb_neq in Hu.
  unfold AuthApiParsing.handler, AuthApi.handler, AuthApiParsing.is_login,
    AuthApiParsing.is_logout, AuthApi.is_login, AuthApi.is_logout.
  cbn [AuthApiParsing.base AuthApiParsing.query]. rewrite Hu.
  cbn [andb]. rewrite !orb_false_r.
  destruct (String.eqb (method b) "OPTIONS"); [by left|].
  destruct (String.eqb (method b) "GET"); [by left|].
  destruct (String.eqb (method b) "POST" && includes (url b) "/login"); [|by left].
  unfold AuthApiParsing.login_try, AuthApiParsing.credentials, AuthApi.login_try,
    AuthApi.granted, AuthApiParsing.of_body.
  cbn [AuthApiParsing.base]. rewrite Hb.
  destruct (get (req_body b) "username") as [username|] eqn:Hun;
    [|by destruct (req_body b)].
  destruct (get (req_body b) "password") as [password|] eqn:Hpw;
    [|by destruct (req_body b)].
  cbn [QueryApi.access JS.bind].
  destruct (truthy username) eqn:Htu, (truthy password) eqn:Htp;
    cbn [negb orb andb JS.bind];
    [|right; split_and!; [done|done|done|exists username, password; by rewrite Htu, Htp]..].
  left. destruct (Coercion.to_string eng _ username) as [e|key]; [done|].
  cbn [JS.bind]. by destruct (AuthApi.is_demo_password key password).
Qed.

Lemma auth_versions_agree_on_parsed_bodies_witness :
  AuthApiParsing.handler engine0 platform0 form_get0 world_up
    {| AuthApiParsing.base := login_admin;
       AuthApiParsing.content_type := None;
       AuthApiParsing.query := Undefined |}
  = AuthApi.handler engine0 platform0 world_up login_admin
  ∨ (AuthApiParsing.handler engine0 platform0 form_get0 world_up
       {| AuthApiParsing.base := login_admin;
          AuthApiParsing.content_type := None;
          AuthApiParsing.query := Undefined |}
     = json_response AuthApi.allow_methods 400 AuthApiParsing.required
     ∧ AuthApi.handler engine0 platform0 world_up login_admin
       = json_response AuthApi.allow_methods 401
           (Obj [("detail", Str "Incorrect username or password")])
     ∧ AuthApi.is_login login_admin = true
     ∧ ∃ username password,
         get (req_body login_admin) "username" = Some username
         ∧ get (req_body login_admin) "password" = Some password
         ∧ truthy username && truthy password = false).
Proof.
  apply (auth_versions_agree_on_parsed_bodies engine0 platform0 form_get0 world_up
           {| AuthApiParsing.base := login_admin;
              AuthApiParsing.content_type := None;
              AuthApiParsing.query := Undefined |}).
  - reflexivity.
  - discriminate.
Defined.

(** X28.  This version, too, issues a token only for demo credentials,
    wherever it took them from (the parsed body, a raw JSON body or a raw
    form body): when a response carries an [access_token], the user name,
    converted to a property name, is one of the demo users, the password
    is that user's password as a string, and the token is what signing
    [{ sub, user_id: 1, exp }] returned. *)
Theorem parsed_token_only_for_demo_credentials
    (eng : engine) (plat : AuthApi.platform)
    (form_get : string → string → option string) (w : world)
    (r : AuthApiParsing.auth_request) (t : value) :
  body_field "access_token" (AuthApiParsing.handler eng plat form_get w r) = Some t →
  ∃ username key pw token,
    AuthApiParsing.is_login r = true
    ∧ AuthApiParsing.credentials eng form_get r = inr (inr (username, Str pw))
    ∧ Coercion.to_string eng (AuthApi.not_primitive plat) username = inr key
    ∧ AuthApi.DEMO_USERS !! key = Some pw
    ∧ AuthApi.createAccessToken plat w [("sub", username); ("user_id", Num 1)]
      = inr token
    ∧ t = Str token
    ∧ status (AuthApiParsing.handler eng plat form_get w r) = 200%Z.
Proof.
  unfold AuthApiParsing.handler.
  destruct (String.eqb (method (AuthApiParsing.base r)) "OPTIONS"); [discriminate|].
  destruct (String.eqb (method (AuthApiParsing.base r)) "GET"); [discriminate|].
  destruct (AuthApiParsing.is_login r) eqn:Hlogin;
    [|destruct (AuthApiParsing.is_logout r); discriminate].
  unfold AuthApiParsing.login_try.
  destruct (AuthApiParsing.credentials eng form_get r) as [e|[res|[username password]]]
    eqn:Hc; [discriminate| |].
  - cbn [JS.bind]. intros Ht. exfalso. revert Hc Ht.
    unfold AuthApiParsing.credentials, AuthApiParsing.of_body, QueryApi.access,
      JS.bind.
    repeat match goal with
           | |- context [if ?c then _ else _] => destruct c
           | |- context [match ?c with inl _ => _ | inr _ => _ end] => destruct c
           | |- context [match ?c with Some _ => _ | None => _ end] => destruct c
           end; cbn [JS.bind]; intros Hc Ht; simplify_eq; discriminate Ht.
  - cbn [JS.bind].
    destruct (negb (truthy username) || negb (truthy password)); [discriminate|].
    destruct (Coercion.to_string eng _ username) as [e|key] eqn:Hkey; [discriminate|].
    cbn [JS.bind].
    destruct (AuthApi.is_demo_password key password) eqn:Hdemo; [|discriminate].
    apply is_demo_password_Str in Hdemo as (pw & Hpw & ->).
    destruct (AuthApi.createAccessToken plat w _) as [e|token] eqn:Htoken;
      [discriminate|].
    cbn. intros [= <-]. by exists username, key, pw, token.
Qed.

Lemma parsed_token_only_for_demo_credentials_witness :
  ∃ username key pw token,
    AuthApiParsing.is_login login_client_parsed = true
    ∧ AuthApiParsing.credentials engine0 form_get0 login_client_parsed
      = inr (inr (username, Str pw))
    ∧ Coercion.to_string engine0 (AuthApi.not_primitive platform0) username = inr key
    ∧ AuthApi.DEMO_USERS !! key = Some pw
    ∧ AuthApi.createAccessToken platform0 world_up
        [("sub", username); ("user_id", Num 1)]
      = inr token
    ∧ Str "header.payload.signature" = Str token
    ∧ status (AuthApiParsing.handler engine0 platform0 form_get0 world_up
                login_client_parsed) = 200%Z.
Proof.
  apply (parsed_token_only_for_demo_credentials engine0 platform0 form_get0 world_up
           login_client_parsed).
  reflexivity.
Defined.

(** * The authentication store and the two clients *)

(** X29.  Where the token of a login goes: after [login] stored a
    non-empty token, the API client sends it as a bearer token and
    [isUserAuthenticated] holds; the settings client, which reads another
    key of [localStorage], sends the same headers as before the login;
    after [logout] the API client adds no [Authorization] header and
    [isUserAuthenticated] no longer holds. *)
Theorem login_token_reaches_the_api_client_only
    (serialize : AuthStore.auth_state → string) (t : string) (u : value)
    (b : ApiClient.browser) (headers : gmap string string)
    (options_headers : list (string * string)) :
  t ≠ "" →
  let b1 := (AuthStore.login serialize t u b).1 in
  let b2 := (AuthStore.logout serialize b1).1 in
  ApiClient.on_request b1 headers = <["Authorization" := "Bearer " ++ t]> headers
  ∧ AuthStore.isUserAuthenticated b1 = true
  ∧ SettingsClient.request_headers (SettingsClient.getToken b1) options_headers
    = SettingsClient.request_headers (SettingsClient.getToken b) options_headers
  ∧ ApiClient.on_request b2 headers = headers
  ∧ AuthStore.isUserAuthenticated b2 = false.
Proof.
  intros Ht. cbv zeta.
  unfold ApiClient.on_request, AuthStore.isUserAuthenticated, SettingsClient.getToken,
    AuthStore.login, AuthStore.logout, AuthStore.persist.
  cbn [fst ApiClient.localStorage ApiClient.location_href].
  rewrite !(lookup_insert_ne _ AuthStore.storage_name) by done.
  rewrite lookup_insert_eq, lookup_delete_eq.
  rewrite (lookup_insert_ne _ "access_token" "auth_token") by done.
  apply String.eqb_neq in Ht. by rewrite Ht.
Qed.

Lemma login_token_reaches_the_api_client_only_witness :
  let b1 := (AuthStore.login (λ _, "{}") "header.payload.signature" Null browser0).1 in
  let b2 := (AuthStore.logout (λ _, "{}") b1).1 in
  ApiClient.on_request b1 ∅ = <["Authorization" := "Bearer " ++ "header.payload.signature"]> ∅
  ∧ AuthStore.isUserAuthenticated b1 = true
  ∧ SettingsClient.request_headers (SettingsClient.getToken b1) []
    = SettingsClient.request_headers (SettingsClient.getToken browser0) []
  ∧ ApiClient.on_request b2 ∅ = ∅
  ∧ AuthStore.isUserAuthenticated b2 = false.
Proof.
  apply (login_token_reaches_the_api_client_only (λ _, "{}")
           "header.payload.signature" Null browser0 ∅ []).
  discriminate.
Defined.
